(** * asm4004: a two-pass assembler for the Intel 4004

    A shallow embedding of [scripts/asm4004.py] and the properties of its
    specification.

    Conventions of the embedding.
    - Source text is 7-bit ASCII: a Python [str] is a [string], a character an
      [ascii].  The character classes below ([isspace], [isdigit], [\w]) and
      [to_upper] are Python's, restricted to code points below 128.
    - A Python [int] is a [Z].  [&], [|], [>>], [//] and [%] are [Z.land],
      [Z.lor], [Z.shiftr], [Z.div] and [Z.modulo], which agree with Python
      on negative numbers too (two's complement, rounding to minus infinity).
    - A [bytearray] is a [list Z] of values in [0..255].
    - [self.symbols], a [dict] that keeps insertion order, is an association
      list whose [store] overwrites in place or appends.
    - [raise ValueError(...)] is the [Raise] case of [result]; the message is
      the constructor of [ValueError] together with the line number.
    - [print(..., file=sys.stderr)] of the unknown-mnemonic warning is the
      [warnings] field; the progress output on stdout is not modelled.
    - Listing lines are kept as records of the values the f-strings format;
      [listing_text] gives their text.

    The last parts embed [scripts/duckasm.py], the preprocessor that
    expands the DuckOps, on the same strings and the same fragment of
    [re], and [scripts/hexdump.py], whose file is a list of bytes and whose
    output is the list of the lines it prints. *)

From Stdlib Require Import ZArith List String Ascii Bool Lia.
Import ListNotations.
Open Scope string_scope.
Open Scope Z_scope.

(* ------------------------------------------------------------------ *)
(** ** Characters and strings, as Python treats them *)

Module PyStr.

(** [str.isspace] on ASCII: TAB, LF, VT, FF, CR, FS, GS, RS, US and SPACE. *)
Definition isspace (c : ascii) : bool :=
  let n := N_of_ascii c in
  (((9 <=? n) && (n <=? 13)) || ((28 <=? n) && (n <=? 32)))%N.

Definition isdigit (c : ascii) : bool :=
  let n := N_of_ascii c in ((48 <=? n) && (n <=? 57))%N.

Definition islower (c : ascii) : bool :=
  let n := N_of_ascii c in ((97 <=? n) && (n <=? 122))%N.

Definition isupper (c : ascii) : bool :=
  let n := N_of_ascii c in ((65 <=? n) && (n <=? 90))%N.

Definition isalpha (c : ascii) : bool := islower c || isupper c.

(** The class [\w] of [re]: letters, digits and the underscore. *)
Definition isword (c : ascii) : bool :=
  isalpha c || isdigit c || (c =? "_")%char.

Definition upper_char (c : ascii) : ascii :=
  if islower c then ascii_of_N (N_of_ascii c - 32) else c.

(** [s.upper()] *)
Fixpoint upper (s : string) : string :=
  match s with
  | EmptyString => EmptyString
  | String c s' => String (upper_char c) (upper s')
  end.

Definition is_empty (s : string) : bool :=
  match s with EmptyString => true | String _ _ => false end.

(** Leading, trailing and surrounding characters of a class removed. *)
Fixpoint lstrip_class (p : ascii -> bool) (s : string) : string :=
  match s with
  | EmptyString => EmptyString
  | String c s' => if p c then lstrip_class p s' else s
  end.

Fixpoint rstrip_class (p : ascii -> bool) (s : string) : string :=
  match s with
  | EmptyString => EmptyString
  | String c s' =>
      let r := rstrip_class p s' in
      if p c && is_empty r then EmptyString else String c r
  end.

(** [s.lstrip()], [s.rstrip()], [s.strip()] *)
Definition lstrip (s : string) : string := lstrip_class isspace s.

Definition rstrip (s : string) : string := rstrip_class isspace s.

Definition strip (s : string) : string := rstrip (lstrip s).

(** [c in s] *)
Fixpoint contains (c : ascii) (s : string) : bool :=
  match s with
  | EmptyString => false
  | String d s' => (d =? c)%char || contains c s'
  end.

(** [s.split(sep, 1)] when [sep in s]: the text before the first [sep] and the
    text after it; [None] when [sep] does not occur. *)
Fixpoint split_first (sep : ascii) (s : string) : option (string * string) :=
  match s with
  | EmptyString => None
  | String c s' =>
      if (c =? sep)%char then Some (EmptyString, s')
      else match split_first sep s' with
           | Some (before, rest) => Some (String c before, rest)
           | None => None
           end
  end.

(** [s.split(sep)]: always at least one field. *)
Fixpoint split (sep : ascii) (s : string) : list string :=
  match s with
  | EmptyString => [EmptyString]
  | String c s' =>
      if (c =? sep)%char then EmptyString :: split sep s'
      else match split sep s' with
           | field :: fields => String c field :: fields
           | [] => [String c EmptyString]
           end
  end.

(** The longest prefix of characters in the class [p], and what follows it. *)
Fixpoint span (p : ascii -> bool) (s : string) : string * string :=
  match s with
  | EmptyString => (EmptyString, EmptyString)
  | String c s' =>
      if p c then let (w, r) := span p s' in (String c w, r)
      else (EmptyString, s)
  end.

(** [s.split(maxsplit=1)]: split on runs of whitespace, at most once; the
    second field keeps its trailing whitespace. *)
Definition split_ws1 (s : string) : list string :=
  let s := lstrip s in
  if is_empty s then []
  else
    let (word, rest) := span (fun c => negb (isspace c)) s in
    let rest := lstrip rest in
    if is_empty rest then [word] else [word; rest].

(** [s.replace(' ', '')] *)
Fixpoint remove_spaces (s : string) : string :=
  match s with
  | EmptyString => EmptyString
  | String c s' =>
      if (c =? " ")%char then remove_spaces s' else String c (remove_spaces s')
  end.

(** [s[n:]] *)
Fixpoint drop (n : nat) (s : string) : string :=
  match n, s with
  | O, _ => s
  | S _, EmptyString => EmptyString
  | S m, String _ s' => drop m s'
  end.

(** [s[:n]] *)
Fixpoint take (n : nat) (s : string) : string :=
  match n, s with
  | O, _ => EmptyString
  | S _, EmptyString => EmptyString
  | S m, String c s' => String c (take m s')
  end.

(** [s[:-1]] *)
Definition drop_last (s : string) : string := take (String.length s - 1) s.

(** [s.startswith(p)] *)
Definition startswith (p s : string) : bool := String.prefix p s.

(** The last character, for [s.endswith(c)]. *)
Fixpoint last_char (s : string) : option ascii :=
  match s with
  | EmptyString => None
  | String c EmptyString => Some c
  | String _ s' => last_char s'
  end.

Definition endswith_char (c : ascii) (s : string) : bool :=
  match last_char s with
  | Some d => (d =? c)%char
  | None => false
  end.

(** *** [int(s, base)]

    CPython's [PyLong_FromString] on ASCII text: surrounding whitespace
    is skipped, which here is the whitespace of C (TAB, LF, VT, FF, CR and
    SPACE; not FS, GS, RS, US); an optional sign; for base 16 an optional
    [0x]/[0X] and for base 2 an optional [0b]/[0B], each optionally followed
    by one underscore; then digits of the base, single underscores allowed
    between digits.  Anything else is a [ValueError], here [None].  (The
    limit CPython puts on the length of decimal literals, 4300 digits, is not
    modelled.) *)

Definition isspace_c (c : ascii) : bool :=
  let n := N_of_ascii c in
  (((9 <=? n) && (n <=? 13)) || (n =? 32))%N.

Definition digit_value (c : ascii) : option Z :=
  let n := Z.of_N (N_of_ascii c) in
  if isdigit c then Some (n - 48)
  else if islower c then Some (n - 97 + 10)
  else if isupper c then Some (n - 65 + 10)
  else None.

Fixpoint digits_value (base : Z) (prev_underscore : bool) (acc : Z)
    (s : string) : option Z :=
  match s with
  | EmptyString => if prev_underscore then None else Some acc
  | String c s' =>
      if (c =? "_")%char then
        if prev_underscore then None else digits_value base true acc s'
      else
        match digit_value c with
        | Some d =>
            if d <? base then digits_value base false (acc * base + d) s'
            else None
        | None => None
        end
  end.

Definition has_base_prefix (base : Z) (s : string) : bool :=
  match s with
  | String "0" (String c _) =>
      ((base =? 16) && ((c =? "x")%char || (c =? "X")%char))
      || ((base =? 2) && ((c =? "b")%char || (c =? "B")%char))
  | _ => false
  end.

Definition skip_underscore (s : string) : string :=
  match s with
  | String "_" s' => s'
  | _ => s
  end.

Definition int (s : string) (base : Z) : option Z :=
  let s := rstrip_class isspace_c (lstrip_class isspace_c s) in
  let '(sign, s) :=
    match s with
    | String "+" t => (1, t)
    | String "-" t => (-1, t)
    | _ => (1, s)
    end in
  let s := if has_base_prefix base s then skip_underscore (drop 2 s) else s in
  match s with
  | EmptyString => None
  | String c _ =>
      if (c =? "_")%char then None
      else option_map (Z.mul sign) (digits_value base false 0 s)
  end.

End PyStr.

(* ------------------------------------------------------------------ *)
(** ** The fragment of [re] the assembler uses

    Both patterns of the source are sequences of single characters, greedy
    repetitions of a character class, capturing groups without nesting, and a
    final [$].  [re.match] anchors at the start; a greedy repetition first
    takes as many characters as it can and gives them back one at a time. *)

Module Re.

Inductive regex : Type :=
| Chr (p : ascii -> bool)                          (* one character of a class *)
| Many (p : ascii -> bool) (lo : nat) (hi : option nat)   (* p{lo,hi}, greedy *)
| Seq (r1 r2 : regex)
| Group (r : regex)                                (* ( ... ) *)
| Eos.                                             (* $ *)

Fixpoint run_length (p : ascii -> bool) (s : string) : nat :=
  match s with
  | EmptyString => O
  | String c s' => if p c then S (run_length p s') else O
  end.

Fixpoint backtrack {A : Type} (n lo : nat) (s : string)
    (k : string -> option A) : option A :=
  if (n <? lo)%nat then None
  else
    match k (PyStr.drop n s) with
    | Some x => Some x
    | None =>
        match n with
        | O => None
        | S m => backtrack m lo s k
        end
    end.

(** [$] matches at the end of the text and just before a final newline. *)
Definition at_end (s : string) : bool :=
  match s with
  | EmptyString => true
  | String c EmptyString => (c =? "010")%char
  | _ => false
  end.

Fixpoint rmatch {A : Type} (r : regex) (s : string) (caps : list string)
    (k : string -> list string -> option A) : option A :=
  match r with
  | Chr p =>
      match s with
      | String c s' => if p c then k s' caps else None
      | EmptyString => None
      end
  | Many p lo hi =>
      let longest :=
        match hi with
        | Some h => Nat.min h (run_length p s)
        | None => run_length p s
        end in
      backtrack longest lo s (fun s' => k s' caps)
  | Seq r1 r2 => rmatch r1 s caps (fun s' caps' => rmatch r2 s' caps' k)
  | Group r1 =>
      rmatch r1 s caps
        (fun s' caps' =>
           k s' (caps' ++ [PyStr.take (String.length s - String.length s') s])%list)
  | Eos => if at_end s then k s caps else None
  end.

(** [re.match(r, s)]: the captured groups, in order, of the first match the
    backtracking search finds. *)
Definition re_match (r : regex) (s : string) : option (list string) :=
  rmatch r s [] (fun _ caps => Some caps).

End Re.

(* ------------------------------------------------------------------ *)
(** ** Opcodes and instruction definitions *)

Inductive OperandType : Type :=
| NONE | REGISTER | REGISTER_PAIR | IMMEDIATE | ADDRESS | CONDITION | DATA_BYTE.

(** An entry of the table: base opcode, operand type, operand bits. *)
Definition Instruction : Type := (Z * OperandType * Z)%type.

Definition INSTRUCTION_SET : list (string * Instruction) :=
  [ ("NOP", (0x00, NONE, 0)); ("WRM", (0xE0, NONE, 0));
    ("WMP", (0xE1, NONE, 0)); ("WRR", (0xE2, NONE, 0));
    ("WR0", (0xE4, NONE, 0)); ("WR1", (0xE5, NONE, 0));
    ("WR2", (0xE6, NONE, 0)); ("WR3", (0xE7, NONE, 0));
    ("SBM", (0xE8, NONE, 0)); ("RDM", (0xE9, NONE, 0));
    ("RDR", (0xEA, NONE, 0)); ("ADM", (0xEB, NONE, 0));
    ("RD0", (0xEC, NONE, 0)); ("RD1", (0xED, NONE, 0));
    ("RD2", (0xEE, NONE, 0)); ("RD3", (0xEF, NONE, 0));
    ("CLB", (0xF0, NONE, 0)); ("CLC", (0xF1, NONE, 0));
    ("IAC", (0xF2, NONE, 0)); ("CMC", (0xF3, NONE, 0));
    ("CMA", (0xF4, NONE, 0)); ("RAL", (0xF5, NONE, 0));
    ("RAR", (0xF6, NONE, 0)); ("TCC", (0xF7, NONE, 0));
    ("DAC", (0xF8, NONE, 0)); ("TCS", (0xF9, NONE, 0));
    ("STC", (0xFA, NONE, 0)); ("DAA", (0xFB, NONE, 0));
    ("KBP", (0xFC, NONE, 0)); ("DCL", (0xFD, NONE, 0));
    ("SRC", (0x21, REGISTER_PAIR, 0)); ("JIN", (0x31, REGISTER_PAIR, 0));
    ("INC", (0x60, REGISTER, 4)); ("ADD", (0x80, REGISTER, 4));
    ("SUB", (0x90, REGISTER, 4)); ("LD", (0xA0, REGISTER, 4));
    ("XCH", (0xB0, REGISTER, 4)); ("FIN", (0x30, REGISTER_PAIR, 4));
    ("BBL", (0xC0, IMMEDIATE, 4)); ("LDM", (0xD0, IMMEDIATE, 4));
    ("FIM", (0x20, REGISTER_PAIR, 4));
    ("JCN", (0x10, CONDITION, 4)); ("JUN", (0x40, ADDRESS, 12));
    ("JMS", (0x50, ADDRESS, 12)); ("ISZ", (0x70, REGISTER, 8)) ].

(** Lookup in a [dict] with text keys. *)
Fixpoint dict_get {V : Type} (key : string) (d : list (string * V)) : option V :=
  match d with
  | [] => None
  | (k, v) :: d' => if (k =? key)%string then Some v else dict_get key d'
  end.

(** [d[key] = v]: overwrite where the key is, else append. *)
Fixpoint dict_set {V : Type} (key : string) (v : V) (d : list (string * V))
    : list (string * V) :=
  match d with
  | [] => [(key, v)]
  | (k, w) :: d' =>
      if (k =? key)%string then (k, v) :: d' else (k, w) :: dict_set key v d'
  end.

(* ------------------------------------------------------------------ *)
(** ** Utility functions *)

Definition to_upper (s : string) : string := PyStr.upper s.

Definition trim (s : string) : string := PyStr.strip s.

Definition remove_comment (line : string) : string :=
  match PyStr.split_first ";" line with
  | Some (code, _) => trim code
  | None => trim line
  end.

Definition normalize_symbol (name : string) : string := to_upper (trim name).

Definition parse_number (s : string) : option Z :=
  let s := trim s in
  if PyStr.is_empty s then None
  else if PyStr.startswith "0x" s || PyStr.startswith "0X" s then PyStr.int s 16
  else if PyStr.startswith "$" s then PyStr.int (PyStr.drop 1 s) 16
  else if PyStr.endswith_char "h" s || PyStr.endswith_char "H" s
       then PyStr.int (PyStr.drop_last s) 16
  else if PyStr.startswith "0b" s || PyStr.startswith "0B" s then PyStr.int s 2
  else PyStr.int s 10.

Definition parse_register (s : string) : option Z :=
  let s := to_upper (trim s) in
  if PyStr.startswith "R" s then
    match parse_number (PyStr.drop 1 s) with
    | Some val => if (0 <=? val) && (val <=? 15) then Some val else None
    | None => None
    end
  else None.

Declare Scope regex_scope.
Delimit Scope regex_scope with regex.
Infix ">>" := Re.Seq (at level 61, right associativity) : regex_scope.

Definition lit (c : ascii) : Re.regex := Re.Chr (fun d => (d =? c)%char).

(** A letter of a pattern under [(?i)]. *)
Definition lit_i (c : ascii) : Re.regex :=
  Re.Chr (fun d => (PyStr.upper_char d =? PyStr.upper_char c)%char).

(** The pattern [^R(\d{1,2})R(\d{1,2})$]. *)
Definition pair_pattern : Re.regex :=
  (lit "R" >> Re.Group (Re.Many PyStr.isdigit 1 (Some 2%nat)) >>
   lit "R" >> Re.Group (Re.Many PyStr.isdigit 1 (Some 2%nat)) >> Re.Eos)%regex.

Definition parse_register_pair (s : string) : option Z :=
  let s := to_upper (trim s) in
  match Re.re_match pair_pattern s with
  | Some [g1; g2] =>
      match PyStr.int g1 10, PyStr.int g2 10 with
      | Some r1, Some r2 =>
          if (r1 mod 2 =? 0) && (r2 =? r1 + 1) then Some (r1 / 2) else None
      | _, _ => None
      end
  | _ => None
  end.

(** The pattern of [equ_inline], case-insensitive: optional whitespace, a
    group of one letter or underscore followed by any number of [\w], then
    [\s+EQU\s+], a group [.+] and [$]; the dot is any character but a
    newline. *)
Definition equ_pattern : Re.regex :=
  (Re.Many PyStr.isspace 0 None >>
   Re.Group (Re.Chr (fun c => PyStr.isalpha c || (c =? "_")%char) >>
             Re.Many PyStr.isword 0 None) >>
   Re.Many PyStr.isspace 1 None >>
   lit_i "E" >> lit_i "Q" >> lit_i "U" >>
   Re.Many PyStr.isspace 1 None >>
   Re.Group (Re.Many (fun c => negb (c =? "010")%char) 1 None) >>
   Re.Eos)%regex.

(** The two groups of [equ_inline], when the pattern matches. *)
Definition match_equ_inline (line : string) : option (string * string) :=
  match Re.re_match equ_pattern line with
  | Some [g1; g2] => Some (g1, g2)
  | _ => None
  end.

(* ------------------------------------------------------------------ *)
(** ** Errors *)

(** The [ValueError]s the assembler raises; each carries the line number of
    its message, and the text the message quotes. *)
Inductive ValueError : Type :=
| MissingValue (line : Z)                          (* "Missing value" *)
| UnknownSymbol (line : Z) (text : string)         (* "Unknown symbol or invalid number" *)
| EquWithoutLabel (line : Z)                       (* "EQU without label" *)
| UnknownInstruction (line : Z) (mnemonic : string)
| IszOperands (line : Z)                           (* "ISZ requires register and address" *)
| InvalidIszRegister (line : Z) (text : string)
| InvalidRegister (line : Z) (text : string)
| FimOperands (line : Z)                           (* "FIM requires: Rpair,data or Rpair,hi,lo" *)
| InvalidFimPair (line : Z) (text : string)
| InvalidRegisterPair (line : Z) (text : string)
| JcnOperands (line : Z)                           (* "JCN requires condition and address" *)
| CannotWrite (filename : string).

Inductive result (A : Type) : Type :=
| Ok (x : A)
| Raise (e : ValueError).
Arguments Ok {A} x.
Arguments Raise {A} e.

Definition bind {A B : Type} (m : result A) (f : A -> result B) : result B :=
  match m with
  | Ok x => f x
  | Raise e => Raise e
  end.

Notation "x <- m ;; k" := (bind m (fun x => k))
  (at level 100, m at next level, right associativity).
Notation "' p <- m ;; k" := (bind m (fun p => k))
  (at level 100, p pattern, m at next level, right associativity).

(* ------------------------------------------------------------------ *)
(** ** The assembler *)

(** One line of the listing: the values the f-strings of [pass_two] format. *)
Inductive ListingLine : Type :=
| LstBlank (line : Z) (text : string)              (* no code; text after "; " *)
| LstPlain (line : Z) (text : string)              (* label only, or EQU *)
| LstOrg (line : Z) (addr : Z) (text : string)
| LstCode (line : Z) (addr : Z) (first_bytes : list Z) (text : string).

Record Assembler : Type := mkAssembler {
  symbols : list (string * Z);
  binary : list Z;
  listing : list ListingLine;
  current_address : Z;
  org_address : Z;
  line_number : Z;
  verbose : bool;
  last_label : option string;
  warnings : list (Z * string)      (* stderr: line and unknown mnemonic *)
}.

(** [Assembler(verbose)] *)
Definition new_assembler (verbose : bool) : Assembler :=
  mkAssembler [] [] [] 0 0 0 verbose None [].

Definition set_symbols (a : Assembler) (s : list (string * Z)) : Assembler :=
  mkAssembler s (binary a) (listing a) (current_address a) (org_address a)
    (line_number a) (verbose a) (last_label a) (warnings a).

Definition set_binary (a : Assembler) (b : list Z) : Assembler :=
  mkAssembler (symbols a) b (listing a) (current_address a) (org_address a)
    (line_number a) (verbose a) (last_label a) (warnings a).

Definition set_listing (a : Assembler) (l : list ListingLine) : Assembler :=
  mkAssembler (symbols a) (binary a) l (current_address a) (org_address a)
    (line_number a) (verbose a) (last_label a) (warnings a).

Definition set_current_address (a : Assembler) (v : Z) : Assembler :=
  mkAssembler (symbols a) (binary a) (listing a) v (org_address a)
    (line_number a) (verbose a) (last_label a) (warnings a).

Definition set_org_address (a : Assembler) (v : Z) : Assembler :=
  mkAssembler (symbols a) (binary a) (listing a) (current_address a) v
    (line_number a) (verbose a) (last_label a) (warnings a).

Definition set_line_number (a : Assembler) (n : Z) : Assembler :=
  mkAssembler (symbols a) (binary a) (listing a) (current_address a)
    (org_address a) n (verbose a) (last_label a) (warnings a).

Definition set_last_label (a : Assembler) (l : option string) : Assembler :=
  mkAssembler (symbols a) (binary a) (listing a) (current_address a)
    (org_address a) (line_number a) (verbose a) l (warnings a).

Definition set_warnings (a : Assembler) (w : list (Z * string)) : Assembler :=
  mkAssembler (symbols a) (binary a) (listing a) (current_address a)
    (org_address a) (line_number a) (verbose a) (last_label a) w.

(** [self.listing.append(l)] *)
Definition append_listing (a : Assembler) (l : ListingLine) : Assembler :=
  set_listing a (listing a ++ [l]).

Definition resolve_simple_value (a : Assembler) (token : string) : option Z :=
  let token := trim token in
  if PyStr.is_empty token then None
  else
    match parse_number token with
    | Some val => Some val
    | None =>
        match parse_register token with
        | Some reg => Some reg
        | None => dict_get (normalize_symbol token) (symbols a)
        end
    end.

Definition is_operator (ch : ascii) : bool := (ch =? "+")%char || (ch =? "-")%char.

Definition sign_of (ch : ascii) : Z := if (ch =? "+")%char then 1 else -1.

(** The [for ch in expr] loop of [evaluate_expression] and the code after
    it, on the characters still to read and the loop's variables. *)
Fixpoint evaluate_loop (a : Assembler) (expr : string) (total : Z)
    (term : string) (sign : Z) (seen_term : bool) : option Z :=
  match expr with
  | EmptyString =>
      if negb (PyStr.is_empty term) then
        match resolve_simple_value a term with
        | None => None
        | Some value => Some (total + sign * value)
        end
      else if seen_term then Some total else None
  | String ch rest =>
      if is_operator ch then
        if negb (PyStr.is_empty term) then
          match resolve_simple_value a term with
          | None => None
          | Some value =>
              evaluate_loop a rest (total + sign * value) "" (sign_of ch) true
          end
        else evaluate_loop a rest total term (sign_of ch) seen_term
      else evaluate_loop a rest total (term ++ String ch "") sign seen_term
  end.

Definition evaluate_expression (a : Assembler) (expr : string) : option Z :=
  let expr := PyStr.remove_spaces expr in
  if PyStr.is_empty expr
     || (negb (PyStr.contains "+" expr) && negb (PyStr.contains "-" expr))
  then None
  else evaluate_loop a expr 0 "" 1 false.

Definition resolve_value (a : Assembler) (s : string) : result Z :=
  let token := trim s in
  if PyStr.is_empty token then Raise (MissingValue (line_number a))
  else
    match resolve_simple_value a token with
    | Some simple => Ok simple
    | None =>
        match evaluate_expression a token with
        | Some expr => Ok expr
        | None => Raise (UnknownSymbol (line_number a) s)
        end
    end.

Definition store_symbol (a : Assembler) (name : string) (value : Z) : Assembler :=
  set_symbols a (dict_set (normalize_symbol name) value (symbols a)).

Definition resolve_register (a : Assembler) (token : string) : option Z :=
  match parse_register token with
  | Some reg => Some reg
  | None =>
      match dict_get (normalize_symbol token) (symbols a) with
      | Some val => if (0 <=? val) && (val <=? 15) then Some val else None
      | None => None
      end
  end.

Definition resolve_register_pair (a : Assembler) (token : string) : option Z :=
  match parse_register_pair token with
  | Some pair_index => Some pair_index
  | None =>
      match resolve_register a token with
      | Some reg => if reg mod 2 =? 0 then Some (reg / 2) else None
      | None => None
      end
  end.

(** [parts = line.split(maxsplit=1)], then the mnemonic [to_upper(parts[0])]
    and the operand text [trim(parts[1])], empty when there is one part.
    [line] is never empty or blank here, so that [parts[0]] exists. *)
Definition split_statement (line : string) : string * string :=
  let parts := PyStr.split_ws1 line in
  let mnemonic := to_upper (hd "" parts) in
  let operand_str := match parts with
                     | _ :: operands :: _ => trim operands
                     | _ => ""
                     end in
  (mnemonic, operand_str).

(** [len(operand_str.split(','))] *)
Definition operand_count (operand_str : string) : Z :=
  Z.of_nat (List.length (PyStr.split "," operand_str)).

Definition advance (a : Assembler) (n : Z) : Assembler :=
  set_current_address a (current_address a + n).

(** The body of the loop of [pass_one] from the test for an inline EQU on:
    [line] is the statement left after the comment and the label. *)
Definition pass_one_statement (a : Assembler) (line : string) : result Assembler :=
  match match_equ_inline line with
  | Some (g1, g2) =>
      let symbol := normalize_symbol g1 in
      let value_str := trim g2 in
      val <- resolve_value a value_str ;;
      Ok (set_last_label (store_symbol a symbol val) (Some symbol))
  | None =>
      let '(mnemonic, operand_str) := split_statement line in
      if (mnemonic =? "ORG")%string then
        val <- resolve_value a operand_str ;;
        Ok (set_org_address (set_current_address a val) val)
      else if (mnemonic =? "EQU")%string then
        match last_label a with
        | None | Some EmptyString => Raise (EquWithoutLabel (line_number a))
        | Some label =>
            val <- resolve_value a operand_str ;;
            Ok (store_symbol a label val)
        end
      else if (mnemonic =? "DB")%string || (mnemonic =? "BYTE")%string then
        Ok (advance a (operand_count operand_str))
      else if (mnemonic =? "DW")%string || (mnemonic =? "WORD")%string then
        Ok (advance a (operand_count operand_str * 2))
      else
        match dict_get mnemonic INSTRUCTION_SET with
        | Some (opcode, op_type, _) =>
            if (0x40 <=? opcode) && (opcode <? 0x60) then Ok (advance a 2)
            else if (mnemonic =? "FIM")%string then Ok (advance a 2)
            else if (mnemonic =? "ISZ")%string then Ok (advance a 2)
            else if (mnemonic =? "JCN")%string then Ok (advance a 2)
            else Ok (advance a 1)
        | None =>
            if verbose a
            then Ok (set_warnings a (warnings a ++ [(line_number a, mnemonic)]))
            else Ok a
        end
  end.

(** One iteration of the loop of [pass_one]. *)
Definition pass_one_line (a : Assembler) (raw_line : string) : result Assembler :=
  let a := set_line_number a (line_number a + 1) in
  let line := remove_comment raw_line in
  if PyStr.is_empty line then Ok a
  else
    match PyStr.split_first ":" line with
    | Some (label, rest) =>
        let label := normalize_symbol label in
        let a := store_symbol a label (current_address a) in
        let a := set_last_label a (Some label) in
        let line := trim rest in
        if PyStr.is_empty line then Ok a else pass_one_statement a line
    | None => pass_one_statement a line
    end.

Fixpoint pass_one_loop (a : Assembler) (lines : list string) : result Assembler :=
  match lines with
  | [] => Ok a
  | raw_line :: lines' =>
      a' <- pass_one_line a raw_line ;;
      pass_one_loop a' lines'
  end.

(** [pass_one] returns [True] whenever it returns; its result here is the
    assembler it leaves. *)
Definition pass_one (a : Assembler) (lines : list string) : result Assembler :=
  let a := set_line_number a 0 in
  let a := set_current_address a 0 in
  let a := set_last_label a None in
  pass_one_loop a lines.

(** [for val_str in operand_str.split(','): ... bytes_out.append(val & 0xFF)] *)
Fixpoint data_bytes (a : Assembler) (fields : list string) : result (list Z) :=
  match fields with
  | [] => Ok []
  | val_str :: fields' =>
      val <- resolve_value a (trim val_str) ;;
      rest <- data_bytes a fields' ;;
      Ok (Z.land val 0xFF :: rest)
  end.

(** The same loop for DW: low byte, then high byte. *)
Fixpoint data_words (a : Assembler) (fields : list string) : result (list Z) :=
  match fields with
  | [] => Ok []
  | val_str :: fields' =>
      val <- resolve_value a (trim val_str) ;;
      rest <- data_words a fields' ;;
      Ok (Z.land val 0xFF :: Z.land (Z.shiftr val 8) 0xFF :: rest)
  end.

Definition assemble_instruction (a : Assembler) (mnemonic : string)
    (inst : Instruction) (operand_str : string) : result (list Z) :=
  let '(opcode, op_type, _) := inst in
  match op_type with
  | NONE => Ok [opcode]
  | REGISTER =>
      if (mnemonic =? "ISZ")%string then
        let parts := map trim (PyStr.split "," operand_str) in
        if negb (List.length parts =? 2)%nat then Raise (IszOperands (line_number a))
        else
          match resolve_register a (nth 0 parts "") with
          | None => Raise (InvalidIszRegister (line_number a) (nth 0 parts ""))
          | Some reg =>
              addr <- resolve_value a (nth 1 parts "") ;;
              Ok [Z.lor opcode (Z.land reg 0x0F); Z.land addr 0xFF]
          end
      else
        match resolve_register a operand_str with
        | None => Raise (InvalidRegister (line_number a) operand_str)
        | Some reg => Ok [Z.lor opcode (Z.land reg 0x0F)]
        end
  | REGISTER_PAIR =>
      if (mnemonic =? "FIM")%string then
        let parts := map trim (PyStr.split "," operand_str) in
        if negb ((2 <=? List.length parts)%nat && (List.length parts <=? 3)%nat)
        then Raise (FimOperands (line_number a))
        else
          match resolve_register_pair a (nth 0 parts "") with
          | None => Raise (InvalidFimPair (line_number a) (nth 0 parts ""))
          | Some pair_index =>
              imm <- (if (List.length parts =? 2)%nat
                      then resolve_value a (nth 1 parts "")
                      else
                        hi <- resolve_value a (nth 1 parts "") ;;
                        lo <- resolve_value a (nth 2 parts "") ;;
                        Ok (Z.lor (Z.shiftl (Z.land hi 0x0F) 4) (Z.land lo 0x0F))) ;;
              Ok [Z.lor opcode (Z.land pair_index 0x07); Z.land imm 0xFF]
          end
      else
        match resolve_register_pair a operand_str with
        | None => Raise (InvalidRegisterPair (line_number a) operand_str)
        | Some pair_index => Ok [Z.lor opcode (Z.land pair_index 0x07)]
        end
  | IMMEDIATE =>
      val <- resolve_value a operand_str ;;
      Ok [Z.lor opcode (Z.land val 0x0F)]
  | CONDITION =>
      let parts := map trim (PyStr.split "," operand_str) in
      if negb (List.length parts =? 2)%nat then Raise (JcnOperands (line_number a))
      else
        cond <- resolve_value a (nth 0 parts "") ;;
        addr <- resolve_value a (nth 1 parts "") ;;
        Ok [Z.lor opcode (Z.land cond 0x0F); Z.land addr 0xFF]
  | ADDRESS =>
      addr <- resolve_value a operand_str ;;
      Ok [Z.lor opcode (Z.land (Z.shiftr addr 8) 0x0F); Z.land addr 0xFF]
  | DATA_BYTE => Ok []
  end.

(** The body of the loop of [pass_two] from [start_addr] on: [line] is the
    statement left after the comment and the label.  The result is the
    assembler after the line and the [bytes_out] of the line, empty on the
    paths that leave the iteration before any byte is produced. *)
Definition pass_two_statement (a : Assembler) (raw_line line : string)
    : result (Assembler * list Z) :=
  let start_addr := current_address a in
  let '(mnemonic, operand_str) := split_statement line in
  if (mnemonic =? "ORG")%string then
    val <- resolve_value a operand_str ;;
    let a := set_current_address a val in
    let a :=
      if Z.of_nat (List.length (binary a)) <? current_address a
      then set_binary a
             (binary a ++
              repeat 0x00
                (Z.to_nat (current_address a - Z.of_nat (List.length (binary a)))))%list
      else a in
    Ok (append_listing a
          (LstOrg (line_number a) start_addr (PyStr.rstrip raw_line)), [])
  else if (mnemonic =? "EQU")%string then
    Ok (append_listing a (LstPlain (line_number a) (PyStr.rstrip raw_line)), [])
  else
    match match_equ_inline line with
    | Some _ =>
        Ok (append_listing a (LstPlain (line_number a) (PyStr.rstrip raw_line)), [])
    | None =>
        bytes_out <-
          (if (mnemonic =? "DB")%string || (mnemonic =? "BYTE")%string then
             data_bytes a (PyStr.split "," operand_str)
           else if (mnemonic =? "DW")%string || (mnemonic =? "WORD")%string then
             data_words a (PyStr.split "," operand_str)
           else
             match dict_get mnemonic INSTRUCTION_SET with
             | None => Raise (UnknownInstruction (line_number a) mnemonic)
             | Some inst => assemble_instruction a mnemonic inst operand_str
             end) ;;
        let a := set_binary a (binary a ++ bytes_out)%list in
        let a := advance a (Z.of_nat (List.length bytes_out)) in
        Ok (append_listing a
              (LstCode (line_number a) start_addr (firstn 4 bytes_out)
                 (PyStr.rstrip raw_line)), bytes_out)
    end.

(** One iteration of the loop of [pass_two]. *)
Definition pass_two_line (a : Assembler) (raw_line : string)
    : result (Assembler * list Z) :=
  let a := set_line_number a (line_number a + 1) in
  let line := remove_comment raw_line in
  if PyStr.is_empty line then
    Ok (append_listing a (LstBlank (line_number a) (PyStr.rstrip raw_line)), [])
  else
    match PyStr.split_first ":" line with
    | Some (_, rest) =>
        let line := trim rest in
        if PyStr.is_empty line then
          Ok (append_listing a (LstPlain (line_number a) (PyStr.rstrip raw_line)), [])
        else pass_two_statement a raw_line line
    | None => pass_two_statement a raw_line line
    end.

Fixpoint pass_two_loop (a : Assembler) (lines : list string) : result Assembler :=
  match lines with
  | [] => Ok a
  | raw_line :: lines' =>
      '(a', _) <- pass_two_line a raw_line ;;
      pass_two_loop a' lines'
  end.

(** The assignments of [pass_two] before its loop. *)
Definition pass_two_init (a : Assembler) : Assembler :=
  let a := set_line_number a 0 in
  let a := set_current_address a (org_address a) in
  let a := set_binary a [] in
  set_listing a [].

Definition pass_two (a : Assembler) (lines : list string) : result Assembler :=
  pass_two_loop (pass_two_init a) lines.

(* ------------------------------------------------------------------ *)
(** ** Files *)

Inductive FileContent : Type :=
| BinaryFile (data : list Z)
| ListingFile (lines : list ListingLine) (total_bytes total_lines : Z)
    (symbol_table : list (string * Z)).

(** What the run sees of the file system: the lines of each file it can
    read ([None]: [open] raises [IOError]), the paths it can open for
    writing, and the files written so far. *)
Record FileSystem : Type := mkFileSystem {
  readable : string -> option (list string);
  writable : string -> bool;
  written : list (string * FileContent)
}.

Definition write_file (fs : FileSystem) (filename : string) (c : FileContent)
    : FileSystem :=
  mkFileSystem (readable fs) (writable fs) (dict_set filename c (written fs)).

(** [write_binary]: the file system it leaves, and whether it raised. *)
Definition write_binary (a : Assembler) (fs : FileSystem) (filename : string)
    : result unit * FileSystem :=
  if writable fs filename
  then (Ok tt, write_file fs filename (BinaryFile (binary a)))
  else (Raise (CannotWrite filename), fs).

(** [write_listing]: an [IOError] is reported as a warning and swallowed. *)
Definition write_listing (a : Assembler) (fs : FileSystem) (filename : string)
    : FileSystem :=
  if writable fs filename
  then write_file fs filename
         (ListingFile (listing a) (Z.of_nat (List.length (binary a)))
            (Z.of_nat (List.length (listing a))) (symbols a))
  else fs.

(** [assemble_file]: its boolean result and the file system it leaves. *)
Definition assemble_file (a : Assembler) (fs : FileSystem)
    (input_file output_file listing_file : string) : bool * FileSystem :=
  match readable fs input_file with
  | None => (false, fs)
  | Some lines =>
      match pass_one a lines with
      | Raise _ => (false, fs)
      | Ok a1 =>
          match pass_two a1 lines with
          | Raise _ => (false, fs)
          | Ok a2 =>
              match write_binary a2 fs output_file with
              | (Raise _, fs1) => (false, fs1)
              | (Ok _, fs1) =>
                  if negb (PyStr.is_empty listing_file)
                  then (true, write_listing a2 fs1 listing_file)
                  else (true, fs1)
              end
          end
      end
  end.

(** A file system holding one source file, where the paths in [ro] cannot
    be opened for writing. *)
Definition one_source (path : string) (lines : list string) (ro : list string)
    : FileSystem :=
  mkFileSystem
    (fun p => if (p =? path)%string then Some lines else None)
    (fun p => negb (existsb (String.eqb p) ro))
    [].

(** The bytes the assembler produces for a program, when it succeeds. *)
Definition assemble (lines : list string) : result (list Z) :=
  a1 <- pass_one (new_assembler true) lines ;;
  a2 <- pass_two a1 lines ;;
  Ok (binary a2).

Definition lf : string := String "010" "".

(* ------------------------------------------------------------------ *)
(** ** Reading a line

    Both passes take a raw line apart the same way before they look at its
    mnemonic.  The definitions of this section name the pieces, and the
    lemmas below relate the passes to them. *)

(** The statement both passes find on a raw line once the comment and a
    label prefix are removed; [None] for a blank, comment-only or label-only
    line. *)
Definition statement_of (raw_line : string) : option string :=
  let line := remove_comment raw_line in
  if PyStr.is_empty line then None
  else
    match PyStr.split_first ":" line with
    | Some (_, rest) =>
        let line := trim rest in
        if PyStr.is_empty line then None else Some line
    | None => Some line
    end.

(** The assembler of [pass_one] when it reaches the statement of a line: the
    line is counted and its label, if any, is bound to the cursor. *)
Definition after_label (a : Assembler) (raw_line : string) : Assembler :=
  let a := set_line_number a (line_number a + 1) in
  let line := remove_comment raw_line in
  if PyStr.is_empty line then a
  else
    match PyStr.split_first ":" line with
    | Some (label, _) =>
        let label := normalize_symbol label in
        set_last_label (store_symbol a label (current_address a)) (Some label)
    | None => a
    end.

Definition next_line (a : Assembler) : Assembler :=
  set_line_number a (line_number a + 1).

(** The mnemonic and operand text of a raw line that is neither blank nor
    label-only nor an inline EQU: a line that reaches the mnemonic dispatch
    of [pass_one]. *)
Definition mnemonic_of (raw_line : string) : option (string * string) :=
  match statement_of raw_line with
  | None => None
  | Some line =>
      match match_equ_inline line with
      | Some _ => None
      | None => Some (split_statement line)
      end
  end.

(** The line is an ORG for [pass_two]: its mnemonic is ORG, whether or not
    the text also reads as an inline EQU. *)
Definition is_org_line (raw_line : string) : bool :=
  match statement_of raw_line with
  | None => false
  | Some line => (fst (split_statement line) =? "ORG")%string
  end.

(** The operand text of a line that is an ORG for [pass_two]. *)
Definition org_operand (raw_line : string) : option string :=
  match statement_of raw_line with
  | None => None
  | Some line =>
      let '(mnemonic, operand_str) := split_statement line in
      if (mnemonic =? "ORG")%string then Some operand_str else None
  end.

(** The line is an ORG for [pass_one], which looks for an inline EQU first. *)
Definition sets_origin (raw_line : string) : bool :=
  match mnemonic_of raw_line with
  | Some (mnemonic, _) => (mnemonic =? "ORG")%string
  | None => false
  end.

Definition is_directive (mnemonic : string) : bool :=
  existsb (String.eqb mnemonic) ["ORG"; "EQU"; "DB"; "BYTE"; "DW"; "WORD"].

(** The line has a mnemonic that is neither a directive nor in the
    instruction table. *)
Definition unknown_mnemonic (raw_line : string) : bool :=
  match mnemonic_of raw_line with
  | Some (mnemonic, _) =>
      negb (is_directive mnemonic)
      && match dict_get mnemonic INSTRUCTION_SET with
         | Some _ => false
         | None => true
         end
  | None => false
  end.

(** The length of a line as the specification describes the address model
    of Pass 1: 0 for blank, comment, label-only, ORG and EQU lines, the
    operand count for DB, twice that for DW, 2 for JUN, JMS, FIM, ISZ and
    JCN, 1 for every other mnemonic of the table (and 0 for an unknown
    one). *)
Definition two_byte_mnemonic (mnemonic : string) : bool :=
  existsb (String.eqb mnemonic) ["JUN"; "JMS"; "FIM"; "ISZ"; "JCN"].

Definition spec_line_size (raw_line : string) : Z :=
  match mnemonic_of raw_line with
  | None => 0
  | Some (mnemonic, operand_str) =>
      if (mnemonic =? "ORG")%string || (mnemonic =? "EQU")%string then 0
      else if (mnemonic =? "DB")%string || (mnemonic =? "BYTE")%string
      then operand_count operand_str
      else if (mnemonic =? "DW")%string || (mnemonic =? "WORD")%string
      then 2 * operand_count operand_str
      else if two_byte_mnemonic mnemonic then 2
      else match dict_get mnemonic INSTRUCTION_SET with
           | Some _ => 1
           | None => 0
           end
  end.

(** The number of bytes [assemble_instruction] produces, by operand type. *)
Definition encoded_length (mnemonic : string) (op_type : OperandType) : Z :=
  match op_type with
  | NONE | IMMEDIATE => 1
  | REGISTER => if (mnemonic =? "ISZ")%string then 2 else 1
  | REGISTER_PAIR => if (mnemonic =? "FIM")%string then 2 else 1
  | CONDITION | ADDRESS => 2
  | DATA_BYTE => 0
  end.

(** The number of bytes [pass_one] counts for an instruction of the table. *)
Definition counted_length (mnemonic : string) (opcode : Z) : Z :=
  if (0x40 <=? opcode) && (opcode <? 0x60) then 2
  else if (mnemonic =? "FIM")%string then 2
  else if (mnemonic =? "ISZ")%string then 2
  else if (mnemonic =? "JCN")%string then 2
  else 1.

(** *** The expression evaluator, as the specification words it

    Modelled from the spec: the definitions of this part follow the words
    of the specification, to be compared with [evaluate_expression].  The
    text with its blanks removed is split at the operators into signed
    terms; every term is resolved as a simple value; the result is their
    sum, taken left to right: a term behind a [+], or at the start, is
    added, a term behind a [-] is subtracted.  It is unresolved when a term
    is, or when there is no term at all.  Nothing here is taken from the
    loop of the code, its operator test or its sign. *)

Inductive Operator : Type := Plus | Minus.

Definition operator_of (ch : ascii) : option Operator :=
  if (ch =? "+")%char then Some Plus
  else if (ch =? "-")%char then Some Minus
  else None.

(** [term] put in front of the first piece. *)
Definition prepend (term : string) (cs : list (Operator * string))
    : list (Operator * string) :=
  match cs with
  | (op, piece) :: more => (op, term ++ piece) :: more
  | [] => []
  end.

(** The pieces between operators, each with the operator in front of it
    ([first] for the piece that starts the text). *)
Fixpoint chunks (first : Operator) (expr : string) : list (Operator * string) :=
  match expr with
  | EmptyString => [(first, EmptyString)]
  | String ch rest =>
      match operator_of ch with
      | Some op => (first, EmptyString) :: chunks op rest
      | None => prepend (String ch EmptyString) (chunks first rest)
      end
  end.

(** The signed terms: the pieces that are not empty, each with the operator
    in front of it; the first term counts as added. *)
Definition signed_terms (expr : string) : list (Operator * string) :=
  filter (fun c => negb (PyStr.is_empty (snd c))) (chunks Plus expr).

(** A value added to the total, or subtracted from it. *)
Definition apply_term (total : Z) (op : Operator) (value : Z) : Z :=
  match op with
  | Plus => total + value
  | Minus => total - value
  end.

(** The sum of the terms from left to right, starting from [total]. *)
Fixpoint sum_terms (a : Assembler) (total : Z) (terms : list (Operator * string))
    : option Z :=
  match terms with
  | [] => Some total
  | (op, term) :: terms' =>
      match resolve_simple_value a term with
      | Some value => sum_terms a (apply_term total op value) terms'
      | None => None
      end
  end.

Definition spec_resolve_expression (a : Assembler) (expr : string) : option Z :=
  let expr := PyStr.remove_spaces expr in
  if PyStr.contains "+" expr || PyStr.contains "-" expr then
    match signed_terms expr with
    | [] => None
    | terms => sum_terms a 0 terms
    end
  else None.

(** *** Fatal errors of a run

    The run meets an error that makes [assemble_file] give up: the source
    cannot be read, one of the passes raises, or the binary cannot be
    written. *)
Definition fatal_error (a : Assembler) (fs : FileSystem)
    (input_file output_file : string) : bool :=
  match readable fs input_file with
  | None => true
  | Some lines =>
      match pass_one a lines with
      | Raise _ => true
      | Ok a1 =>
          match pass_two a1 lines with
          | Raise _ => true
          | Ok _ => negb (writable fs output_file)
          end
      end
  end.

(** A file system with the one-line source [NOP] in which the listing
    cannot be opened for writing. *)
Definition listing_locked : FileSystem :=
  one_source "prog.asm" ["NOP" ++ lf] ["prog.lst"].

(* ------------------------------------------------------------------ *)
(** ** Vocabulary of the further properties *)

(** A value a [bytearray] accepts. *)
Definition is_byte (b : Z) : Prop := 0 <= b < 256.

Definition result_map {A B : Type} (f : A -> B) (r : result A) : result B :=
  match r with
  | Ok x => Ok (f x)
  | Raise e => Raise e
  end.

(** The same assembler made quiet, its warnings forgotten. *)
Definition hush (a : Assembler) : Assembler :=
  mkAssembler (symbols a) (binary a) (listing a) (current_address a)
    (org_address a) (line_number a) false (last_label a) [].

(** The line number an error message cites; the write error cites none. *)
Definition error_line (e : ValueError) : option Z :=
  match e with
  | MissingValue n | EquWithoutLabel n | IszOperands n | FimOperands n
  | JcnOperands n => Some n
  | UnknownSymbol n _ | UnknownInstruction n _ | InvalidIszRegister n _
  | InvalidRegister n _ | InvalidFimPair n _ | InvalidRegisterPair n _ => Some n
  | CannotWrite _ => None
  end.

(* ------------------------------------------------------------------ *)
(** ** The text of the listing

    The f-strings of [pass_two] and of [write_listing], with Python's
    format specifications [4d], [04X], [02X], [<12] and [<20]. *)

Module Fmt.

Definition digit_char (d : Z) : ascii :=
  if d <? 10 then ascii_of_N (Z.to_N (48 + d)) else ascii_of_N (Z.to_N (55 + d)).

(** The digits of [n] in front of [acc], most significant first; [fuel]
    bounds their number. *)
Fixpoint digits_acc (base : Z) (fuel : nat) (n : Z) (acc : string) : string :=
  match fuel with
  | O => acc
  | S fuel' =>
      let acc' := String (digit_char (n mod base)) acc in
      if n / base =? 0 then acc' else digits_acc base fuel' (n / base) acc'
  end.

(** [format(n, 'X')] and [format(n, 'd')] for [n >= 0]: a number below
    [2 ^ k] has at most [k] digits. *)
Definition digits (base : Z) (n : Z) : string :=
  digits_acc base (S (Z.to_nat (Z.log2 n))) n "".

Fixpoint fill (c : ascii) (n : nat) : string :=
  match n with
  | O => ""
  | S m => String c (fill c m)
  end.

(** [format(n, '0wX')]: upper-case hexadecimal, zero-padded to [w]
    characters, the sign counted in the width. *)
Definition hex0 (w : nat) (n : Z) : string :=
  if n <? 0 then
    let d := digits 16 (- n) in
    String "-" (fill "0" (w - 1 - String.length d) ++ d)
  else
    let d := digits 16 n in
    fill "0" (w - String.length d) ++ d.

(** [format(n, 'wd')]: decimal, right-aligned in [w] characters. *)
Definition dec (w : nat) (n : Z) : string :=
  let d := if n <? 0 then String "-" (digits 10 (- n)) else digits 10 n in
  fill " " (w - String.length d) ++ d.

(** [format(s, '<w')] *)
Definition ljust (w : nat) (s : string) : string :=
  s ++ fill " " (w - String.length s).

End Fmt.

(** [byte_str]: the bytes shown on a listing line. *)
Definition byte_str (bytes : list Z) : string :=
  String.concat "" (map (fun b => Fmt.hex0 2 b ++ " ") bytes).

(** The text [pass_two] appends to the listing for each kind of entry. *)
Definition listing_text (l : ListingLine) : string :=
  match l with
  | LstBlank n text => Fmt.dec 4 n ++ ":" ++ Fmt.fill " " 30 ++ "; " ++ text
  | LstPlain n text => Fmt.dec 4 n ++ ":" ++ Fmt.fill " " 30 ++ text
  | LstOrg n addr text =>
      Fmt.dec 4 n ++ ": " ++ Fmt.hex0 4 addr ++ Fmt.fill " " 22 ++ text
  | LstCode n addr bytes text =>
      Fmt.dec 4 n ++ ": " ++ Fmt.hex0 4 addr ++ " "
      ++ Fmt.ljust 12 (byte_str bytes) ++ " " ++ text
  end.

(** The value [write_listing] prints for a symbol, after ["= "]. *)
Definition symbol_value_text (addr : Z) : string := "0x" ++ Fmt.hex0 4 addr.

(** A line of the symbol table of [write_listing]. *)
Definition symbol_text (name : string) (addr : Z) : string :=
  "  " ++ Fmt.ljust 20 name ++ " = " ++ symbol_value_text addr ++ lf.

(* ------------------------------------------------------------------ *)
(** ** duckasm: the preprocessor of the DuckOps

    [scripts/duckasm.py] rewrites four pseudo-operations into calls of
    host routines and leaves every other line as it is. *)

Module Duck.

(** [(?i)\s*RBF\s+(\w+),\s*(\w+)] *)
Definition rbf_pattern : Re.regex :=
  (Re.Many PyStr.isspace 0 None >>
   lit_i "R" >> lit_i "B" >> lit_i "F" >>
   Re.Many PyStr.isspace 1 None >>
   Re.Group (Re.Many PyStr.isword 1 None) >>
   lit "," >>
   Re.Many PyStr.isspace 0 None >>
   Re.Group (Re.Many PyStr.isword 1 None))%regex.

(** [(?i)\s*SAY\s+'([^'])']: the class is any character but the quote,
    a newline included. *)
Definition say_pattern : Re.regex :=
  (Re.Many PyStr.isspace 0 None >>
   lit_i "S" >> lit_i "A" >> lit_i "Y" >>
   Re.Many PyStr.isspace 1 None >>
   lit "'" >>
   Re.Group (Re.Chr (fun c => negb (c =? "'")%char)) >>
   lit "'")%regex.

(** [(?i)\s*PUTN\s+(R\w+)] *)
Definition putn_pattern : Re.regex :=
  (Re.Many PyStr.isspace 0 None >>
   lit_i "P" >> lit_i "U" >> lit_i "T" >> lit_i "N" >>
   Re.Many PyStr.isspace 1 None >>
   Re.Group (lit_i "R" >> Re.Many PyStr.isword 1 None))%regex.

(** [(?i)\s*HALT], the part of the last pattern before its [\b]. *)
Definition halt_pattern : Re.regex :=
  (Re.Many PyStr.isspace 0 None >>
   lit_i "H" >> lit_i "A" >> lit_i "L" >> lit_i "T")%regex.

(** [\b] just after a word character: the text ends, or goes on with a
    character that is not of [\w]. *)
Definition word_ends (rest : string) : bool :=
  match rest with
  | EmptyString => true
  | String c _ => negb (PyStr.isword c)
  end.

(** [re.match(r"(?i)\s*HALT\b", s)] *)
Definition match_halt (s : string) : bool :=
  match Re.rmatch halt_pattern s []
          (fun rest _ => if word_ends rest then Some tt else None) with
  | Some _ => true
  | None => false
  end.

(** [m.group(i)], for [i] from 1. *)
Definition group (caps : list string) (i : nat) : string :=
  nth (i - 1) caps "".

Definition preprocess_line (line : string) : string :=
  let stripped := PyStr.lstrip line in
  match Re.re_match rbf_pattern stripped with
  | Some m =>
      let label := group m 1 in
      let fid := group m 2 in
      "    JMS DUCK_RBF" ++ lf
      ++ "    DB LOW(" ++ label ++ "), HIGH(" ++ label ++ "), " ++ fid ++ lf
  | None =>
  match Re.re_match say_pattern stripped with
  | Some m =>
      "    JMS DUCK_SAY" ++ lf ++ "    DB '" ++ group m 1 ++ "'" ++ lf
  | None =>
  match Re.re_match putn_pattern stripped with
  | Some m =>
      "    JMS DUCK_PUTN" ++ lf ++ "    DB " ++ group m 1 ++ lf
  | None =>
  if match_halt stripped then "    JMS DUCK_HALT" ++ lf
  else line
  end end end.

(** The loop of [preprocess_file] over the lines read: empty lines and
    full-line comments are kept, the others go through [preprocess_line]. *)
Definition process (line : string) : string :=
  if PyStr.startswith ";" (PyStr.strip line) || PyStr.is_empty (PyStr.strip line)
  then line
  else preprocess_line line.

(** The text of a file as Python reads it in text mode: with universal
    newlines, a carriage return followed by a newline, and a carriage
    return alone, are read as one newline. *)
Fixpoint newlines (raw : string) : string :=
  match raw with
  | EmptyString => EmptyString
  | String c rest =>
      if (c =? "013")%char then
        String "010"
          (newlines
             match rest with
             | String d rest' => if (d =? "010")%char then rest' else rest
             | EmptyString => rest
             end)
      else String c (newlines rest)
  end.

(** The lines of a text that has been read: every line keeps its newline;
    the last line may lack one. *)
Fixpoint split_lines (text : string) : list string :=
  match text with
  | EmptyString => []
  | String c text' =>
      if (c =? "010")%char then String c EmptyString :: split_lines text'
      else match split_lines text' with
           | [] => [String c EmptyString]
           | line :: lines => String c line :: lines
           end
  end.

(** [f_in.readlines()] on a file of content [raw]. *)
Definition readlines (raw : string) : list string :=
  split_lines (newlines raw).

(** The loop over the lines of a text that has been read, and the lines it
    gives, joined as [writelines] and [''.join] do. *)
Definition expand (text : string) : string :=
  String.concat "" (map process (split_lines text)).

(** [preprocess_file]: from the content of the input file to the text
    written (which [write] stores as it is where the line separator of the
    system is the newline). *)
Definition preprocess_text (raw : string) : string :=
  String.concat "" (map process (readlines raw)).

End Duck.

(* ------------------------------------------------------------------ *)
(** ** hexdump: the dump of a file

    [scripts/hexdump.py] prints a file in rows of [width] bytes: the offset
    of the row, the bytes in hexadecimal, and the bytes as characters. *)

Module HexDump.

(** [' '.join(f"{b:02X}" for b in chunk)] *)
Definition hex_bytes (chunk : list Z) : string :=
  String.concat " " (map (Fmt.hex0 2) chunk).

(** [chr(b) if 32 <= b < 127 else '.'] *)
Definition shown (b : Z) : ascii :=
  if (32 <=? b) && (b <? 127) then ascii_of_N (Z.to_N b) else "."%char.

Definition ascii_rep (chunk : list Z) : string :=
  fold_right (fun b s => String (shown b) s) "" chunk.

(** The line printed for a chunk. *)
Definition row (width offset : Z) (chunk : list Z) : string :=
  Fmt.hex0 8 offset ++ "  "
  ++ Fmt.ljust (Z.to_nat (width * 3)) (hex_bytes chunk)
  ++ "  |" ++ ascii_rep chunk ++ "|".

(** The loop of [hexdump] for a width that is not negative: [f.read(width)]
    gives the next [width] bytes, fewer at the end of the file, none after
    it.  A chunk that is not empty takes at least one byte, so the loop
    runs at most once per byte and once more. *)
Fixpoint rows (fuel : nat) (width offset : Z) (data : list Z) : list string :=
  let chunk := firstn (Z.to_nat width) data in
  match chunk, fuel with
  | [], _ => []
  | _, O => []
  | _, S fuel' =>
      row width offset chunk
      :: rows fuel' width (offset + Z.of_nat (List.length chunk))
           (skipn (Z.to_nat width) data)
  end.

(** How a call of [hexdump] ends: the lines printed; the message on stderr
    and [sys.exit(1)] when the file does not exist; or the [ValueError] of
    the format specification, which is not caught. *)
Inductive outcome : Type :=
| Printed (lines : list string)
| NotFound
| FormatError.

(** [hexdump(path, width)] on a file of content [file] ([None]: there is no
    such file).  With a negative width [f.read] returns the whole file, and
    the width of the hexadecimal column, [width*3], is negative, which
    [format] refuses. *)
Definition hexdump (file : option (list Z)) (width : Z) : outcome :=
  match file with
  | None => NotFound
  | Some data =>
      if width <? 0 then
        match data with
        | [] => Printed []
        | _ :: _ => FormatError
        end
      else Printed (rows (List.length data) width 0 data)
  end.

End HexDump.

(** Every character of [s] is of the class [p]. *)
Fixpoint all_of (p : ascii -> bool) (s : string) : bool :=
  match s with
  | EmptyString => true
  | String c s' => p c && all_of p s'
  end.

Definition not_newline (c : ascii) : bool := negb (c =? "010")%char.

Definition not_return (c : ascii) : bool := negb (c =? "013")%char.

(** A term of an expression as it is written: not empty, and without
    whitespace and operators. *)
Definition plain_term (s : string) : bool :=
  negb (PyStr.is_empty s)
  && all_of (fun c => negb (PyStr.isspace c || (c =? "+")%char || (c =? "-")%char)) s.

(** The digits of [format(n, 'X')]. *)
Definition hex_digit (c : ascii) : bool := PyStr.contains c "0123456789ABCDEF".

Definition not_space (c : ascii) : bool := negb (c =? " ")%char.

(** The text [text] starts at column [column] of [line]. *)
Definition text_at (column : nat) (text line : string) : Prop :=
  exists before, line = before ++ text /\ String.length before = column.

(* ------------------------------------------------------------------ *)
(** ** Basic facts *)

Example parse_number_forms :
  map parse_number ["123"; "0x7F"; "$7F"; "7Fh"; "0b1010"; " 0X1f "; "-5";
                    "0b1h"; "1_000"; "1__0"; "0x"; "L"; ""; "12a"; "$ 1F"]
  = [Some 123; Some 127; Some 127; Some 127; Some 10; Some 31; Some (-5);
     Some 177; Some 1000; None; None; None; None; None; Some 31].
Proof. vm_compute. reflexivity. Qed.

Example parse_register_forms :
  map parse_register ["R0"; "r15"; "R16"; " r7 "; "R0x5"; "RA"; "R"; "X1"]
  = [Some 0; Some 15; None; Some 7; Some 5; None; None; None].
Proof. vm_compute. reflexivity. Qed.

Example parse_register_pair_forms :
  map parse_register_pair ["R0R1"; "r2r3"; "R14R15"; "R1R2"; "R0R2"; "R4";
                           "R98R99"; "R0R1R2"; "R001R2"]
  = [Some 0; Some 1; Some 7; None; None; None; Some 49; None; None].
Proof. vm_compute. reflexivity. Qed.

Example match_equ_inline_forms :
  map match_equ_inline ["A EQU 5"; "b  equ  0x10 + 1"; "EQU 5"; "A EQU"; "9A EQU 1";
                        "ORG EQU 5"; "A EQUAL 5"; "AEQU 5"]
  = [Some ("A", "5"); Some ("b", "0x10 + 1"); None; None; None;
     Some ("ORG", "5"); None; None].
Proof. vm_compute. reflexivity. Qed.

Lemma bind_Ok {A B : Type} (m : result A) (f : A -> result B) (y : B) :
  bind m f = Ok y -> exists x, m = Ok x /\ f x = Ok y.
Proof.
  destruct m as [x|e]; simpl; intros H; [eauto | discriminate].
Qed.

Ltac inv_bind H :=
  let x := fresh "x" in
  let Hx := fresh "Hx" in
  apply bind_Ok in H; destruct H as (x & Hx & H).

Lemma dict_get_forallb {V : Type} (P : string -> V -> bool) (d : list (string * V)) :
  forallb (fun kv => P (fst kv) (snd kv)) d = true ->
  forall k v, dict_get k d = Some v -> P k v = true.
Proof.
  induction d as [|[k0 v0] d IH]; simpl; intros Hall k v Hget.
  - discriminate.
  - apply andb_true_iff in Hall. destruct Hall as [H0 Hall].
    destruct (k0 =? k)%string eqn:E.
    + apply String.eqb_eq in E. subst k0. injection Hget as <-. exact H0.
    + eauto.
Qed.

Lemma dict_get_set_same {V : Type} (k : string) (v : V) (d : list (string * V)) :
  dict_get k (dict_set k v d) = Some v.
Proof.
  induction d as [|[k0 v0] d IH]; simpl.
  - rewrite String.eqb_refl. reflexivity.
  - destruct (k0 =? k)%string eqn:E; simpl; rewrite E; auto.
Qed.

Lemma dict_get_set_other {V : Type} (k k' : string) (v : V) (d : list (string * V)) :
  k <> k' -> dict_get k' (dict_set k v d) = dict_get k' d.
Proof.
  intros Hne. induction d as [|[k0 v0] d IH]; simpl.
  - destruct (k =? k')%string eqn:E; [apply String.eqb_eq in E; contradiction | reflexivity].
  - destruct (k0 =? k)%string eqn:E; simpl.
    + apply String.eqb_eq in E. subst k0.
      destruct (k =? k')%string eqn:E'; [apply String.eqb_eq in E'; contradiction | reflexivity].
    + destruct (k0 =? k')%string; auto.
Qed.

(** The table never disagrees with itself: for each of its entries the
    length [pass_one] counts, the length [assemble_instruction] produces
    and the length of the specification are one number. *)
Lemma table_lengths (mnemonic : string) (opcode : Z) (op_type : OperandType) (bits : Z) :
  dict_get mnemonic INSTRUCTION_SET = Some (opcode, op_type, bits) ->
  counted_length mnemonic opcode = encoded_length mnemonic op_type
  /\ encoded_length mnemonic op_type = (if two_byte_mnemonic mnemonic then 2 else 1)
  /\ is_directive mnemonic = false.
Proof.
  intros Hget.
  pose (P := fun (m : string) (i : Instruction) =>
     let '(opc, ty, _) := i in
     (counted_length m opc =? encoded_length m ty)
     && (encoded_length m ty =? (if two_byte_mnemonic m then 2 else 1))
     && negb (is_directive m)).
  assert (H : P mnemonic (opcode, op_type, bits) = true).
  { apply (dict_get_forallb P INSTRUCTION_SET); [vm_compute; reflexivity | exact Hget]. }
  unfold P in H.
  apply andb_true_iff in H. destruct H as [H H3].
  apply andb_true_iff in H. destruct H as [H1 H2].
  apply Z.eqb_eq in H1. apply Z.eqb_eq in H2. apply negb_true_iff in H3.
  auto.
Qed.

Lemma data_bytes_length (a : Assembler) (fields : list string) (bytes : list Z) :
  data_bytes a fields = Ok bytes -> List.length bytes = List.length fields.
Proof.
  revert bytes. induction fields as [|f fields IH]; simpl; intros bytes H.
  - injection H as <-. reflexivity.
  - inv_bind H. inv_bind H. injection H as <-. simpl. f_equal. eauto.
Qed.

Lemma data_words_length (a : Assembler) (fields : list string) (bytes : list Z) :
  data_words a fields = Ok bytes -> List.length bytes = (2 * List.length fields)%nat.
Proof.
  revert bytes. induction fields as [|f fields IH]; simpl; intros bytes H.
  - injection H as <-. reflexivity.
  - inv_bind H. inv_bind H. injection H as <-. simpl.
    rewrite (IH _ Hx0). lia.
Qed.

Lemma assemble_instruction_length (a : Assembler) (mnemonic : string)
    (opcode : Z) (op_type : OperandType) (bits : Z) (operand_str : string)
    (bytes : list Z) :
  assemble_instruction a mnemonic (opcode, op_type, bits) operand_str = Ok bytes ->
  Z.of_nat (List.length bytes) = encoded_length mnemonic op_type.
Proof.
  unfold assemble_instruction, encoded_length.
  destruct op_type; intros H.
  - injection H as <-. reflexivity.
  - destruct (mnemonic =? "ISZ")%string.
    + destruct (negb _); [discriminate|].
      destruct (resolve_register _ _); [|discriminate].
      inv_bind H. injection H as <-. reflexivity.
    + destruct (resolve_register _ _); [|discriminate].
      injection H as <-. reflexivity.
  - destruct (mnemonic =? "FIM")%string.
    + destruct (negb _); [discriminate|].
      destruct (resolve_register_pair _ _); [|discriminate].
      inv_bind H. injection H as <-. reflexivity.
    + destruct (resolve_register_pair _ _); [|discriminate].
      injection H as <-. reflexivity.
  - inv_bind H. injection H as <-. reflexivity.
  - inv_bind H. injection H as <-. reflexivity.
  - destruct (negb _); [discriminate|].
    inv_bind H. inv_bind H. injection H as <-. reflexivity.
  - injection H as <-. reflexivity.
Qed.

(** A statement starts with a character that is no whitespace, so that
    its split has a first part: [parts[0]] never fails. *)
Lemma lstrip_class_head (p : ascii -> bool) (s : string) (c : ascii) (r : string) :
  PyStr.lstrip_class p s = String c r -> p c = false.
Proof.
  induction s as [|d s IH]; cbn [PyStr.lstrip_class]; intros H.
  - discriminate.
  - destruct (p d) eqn:E; [auto|]. injection H as <- _. exact E.
Qed.

Lemma rstrip_class_head (p : ascii -> bool) (s : string) (c : ascii) (r : string) :
  PyStr.rstrip_class p s = String c r -> exists r', s = String c r'.
Proof.
  destruct s as [|d s]; cbn [PyStr.rstrip_class]; intros H.
  - discriminate.
  - destruct (p d && PyStr.is_empty (PyStr.rstrip_class p s)); [discriminate|].
    injection H as <- _. eauto.
Qed.

Lemma trim_head (s : string) (c : ascii) (r : string) :
  trim s = String c r -> PyStr.isspace c = false.
Proof.
  unfold trim, PyStr.strip, PyStr.rstrip, PyStr.lstrip. intros H.
  apply rstrip_class_head in H. destruct H as [r' H].
  eapply lstrip_class_head; eauto.
Qed.

Lemma statement_of_head (raw_line line : string) :
  statement_of raw_line = Some line ->
  exists c r, line = String c r /\ PyStr.isspace c = false.
Proof.
  unfold statement_of, remove_comment.
  assert (Htrim : forall s, PyStr.is_empty (trim s) = false ->
                            exists c r, trim s = String c r /\ PyStr.isspace c = false).
  { intros s Hs. destruct (trim s) as [|c r] eqn:E; [discriminate|].
    exists c, r. split; [reflexivity|]. eapply trim_head; eauto. }
  destruct (PyStr.split_first ";" raw_line) as [[code rest]|].
  - destruct (PyStr.is_empty (trim code)) eqn:E; [discriminate|].
    destruct (PyStr.split_first ":" (trim code)) as [[label rest']|].
    + destruct (PyStr.is_empty (trim rest')) eqn:E'; [discriminate|].
      intros H. injection H as <-. auto.
    + intros H. injection H as <-. auto.
  - destruct (PyStr.is_empty (trim raw_line)) eqn:E; [discriminate|].
    destruct (PyStr.split_first ":" (trim raw_line)) as [[label rest']|].
    + destruct (PyStr.is_empty (trim rest')) eqn:E'; [discriminate|].
      intros H. injection H as <-. auto.
    + intros H. injection H as <-. auto.
Qed.

Lemma statement_has_mnemonic (raw_line line : string) :
  statement_of raw_line = Some line ->
  exists c word rest, PyStr.split_ws1 line = String c word :: rest.
Proof.
  intros H. destruct (statement_of_head _ _ H) as (c & r & -> & Hc).
  unfold PyStr.split_ws1, PyStr.lstrip. cbn [PyStr.lstrip_class]. rewrite Hc.
  cbn [PyStr.is_empty PyStr.span]. rewrite Hc. cbn [negb].
  destruct (PyStr.span (fun c0 => negb (PyStr.isspace c0)) r) as [w rest].
  destruct (PyStr.is_empty (PyStr.lstrip_class PyStr.isspace rest));
    exists c, w; eexists; reflexivity.
Qed.

Lemma two_byte_in_table (mnemonic : string) :
  two_byte_mnemonic mnemonic = true ->
  exists inst, dict_get mnemonic INSTRUCTION_SET = Some inst.
Proof.
  unfold two_byte_mnemonic. cbn [existsb]. intros H.
  repeat (apply orb_true_iff in H; destruct H as [H|H]);
    try discriminate;
    apply String.eqb_eq in H; subst mnemonic; vm_compute; eauto.
Qed.

(** *** The passes, line by line *)

Lemma after_label_fields (a : Assembler) (raw_line : string) :
  current_address (after_label a raw_line) = current_address a
  /\ org_address (after_label a raw_line) = org_address a
  /\ binary (after_label a raw_line) = binary a
  /\ verbose (after_label a raw_line) = verbose a
  /\ warnings (after_label a raw_line) = warnings a
  /\ line_number (after_label a raw_line) = line_number a + 1.
Proof.
  unfold after_label.
  destruct (PyStr.is_empty (remove_comment raw_line)); [cbn; auto 10|].
  destruct (PyStr.split_first ":" (remove_comment raw_line)) as [[label rest]|];
    cbn; auto 10.
Qed.

Lemma pass_one_line_statement (a : Assembler) (raw_line : string) :
  pass_one_line a raw_line =
  match statement_of raw_line with
  | None => Ok (after_label a raw_line)
  | Some line => pass_one_statement (after_label a raw_line) line
  end.
Proof.
  unfold pass_one_line, statement_of, after_label.
  destruct (PyStr.is_empty (remove_comment raw_line)); [reflexivity|].
  destruct (PyStr.split_first ":" (remove_comment raw_line)) as [[label rest]|];
    [|reflexivity].
  destruct (PyStr.is_empty (trim rest)); reflexivity.
Qed.

Lemma pass_two_line_statement (a : Assembler) (raw_line : string) :
  match statement_of raw_line with
  | None => exists l, pass_two_line a raw_line = Ok (append_listing (next_line a) l, [])
  | Some line => pass_two_line a raw_line = pass_two_statement (next_line a) raw_line line
  end.
Proof.
  unfold pass_two_line, statement_of, next_line.
  destruct (PyStr.is_empty (remove_comment raw_line)); [eauto|].
  destruct (PyStr.split_first ":" (remove_comment raw_line)) as [[label rest]|];
    [|reflexivity].
  destruct (PyStr.is_empty (trim rest)); [eauto | reflexivity].
Qed.

(** Reduce the projections of an assembler built by the setters. *)
Ltac fields :=
  cbn
    [advance append_listing next_line store_symbol
     set_symbols set_binary set_listing set_current_address set_org_address
     set_line_number set_last_label set_warnings
     symbols binary listing current_address org_address line_number verbose
     last_label warnings].

(** What a statement does to the cursor of [pass_one]. *)
Lemma pass_one_statement_cursor (a a' : Assembler) (line : string) :
  pass_one_statement a line = Ok a' ->
  match match_equ_inline line with
  | Some _ => current_address a' = current_address a /\ org_address a' = org_address a
  | None =>
      let '(mnemonic, operand_str) := split_statement line in
      if (mnemonic =? "ORG")%string then
        resolve_value a operand_str = Ok (current_address a')
        /\ org_address a' = current_address a'
      else
        org_address a' = org_address a /\
        current_address a' = current_address a +
          (if (mnemonic =? "EQU")%string then 0
           else if (mnemonic =? "DB")%string || (mnemonic =? "BYTE")%string
           then operand_count operand_str
           else if (mnemonic =? "DW")%string || (mnemonic =? "WORD")%string
           then 2 * operand_count operand_str
           else match dict_get mnemonic INSTRUCTION_SET with
                | Some (opcode, _, _) => counted_length mnemonic opcode
                | None => 0
                end)
  end.
Proof.
  unfold pass_one_statement. intros H.
  destruct (match_equ_inline line) as [[g1 g2]|].
  { inv_bind H. injection H as <-. fields. auto. }
  destruct (split_statement line) as [mnemonic operand_str].
  destruct (mnemonic =? "ORG")%string.
  { inv_bind H. injection H as <-. fields. auto. }
  destruct (mnemonic =? "EQU")%string.
  { destruct (last_label a) as [[|c l]|]; try discriminate.
    inv_bind H. injection H as <-. fields. split; [reflexivity | lia]. }
  destruct ((mnemonic =? "DB")%string || (mnemonic =? "BYTE")%string).
  { injection H as <-. fields. auto. }
  destruct ((mnemonic =? "DW")%string || (mnemonic =? "WORD")%string).
  { injection H as <-. fields. split; [reflexivity | lia]. }
  destruct (dict_get mnemonic INSTRUCTION_SET) as [[[opcode op_type] bits]|].
  - unfold counted_length.
    destruct ((0x40 <=? opcode) && (opcode <? 0x60)).
    { injection H as <-. fields. auto. }
    destruct (mnemonic =? "FIM")%string.
    { injection H as <-. fields. auto. }
    destruct (mnemonic =? "ISZ")%string.
    { injection H as <-. fields. auto. }
    destruct (mnemonic =? "JCN")%string; injection H as <-; fields; auto.
  - destruct (verbose a); injection H as <-; fields; split; try reflexivity; lia.
Qed.

(** The size of the specification, on the mnemonic and operands of a line
    that has them. *)
Lemma spec_line_size_counted (raw_line mnemonic operand_str : string) :
  mnemonic_of raw_line = Some (mnemonic, operand_str) ->
  (mnemonic =? "ORG")%string = false ->
  spec_line_size raw_line =
    (if (mnemonic =? "EQU")%string then 0
     else if (mnemonic =? "DB")%string || (mnemonic =? "BYTE")%string
     then operand_count operand_str
     else if (mnemonic =? "DW")%string || (mnemonic =? "WORD")%string
     then 2 * operand_count operand_str
     else match dict_get mnemonic INSTRUCTION_SET with
          | Some (opcode, _, _) => counted_length mnemonic opcode
          | None => 0
          end).
Proof.
  intros Hm Horg. unfold spec_line_size. rewrite Hm, Horg. cbn [orb].
  destruct (mnemonic =? "EQU")%string; [reflexivity|].
  destruct ((mnemonic =? "DB")%string || (mnemonic =? "BYTE")%string); [reflexivity|].
  destruct ((mnemonic =? "DW")%string || (mnemonic =? "WORD")%string); [reflexivity|].
  destruct (dict_get mnemonic INSTRUCTION_SET) as [[[opcode op_type] bits]|] eqn:Hget.
  - destruct (table_lengths _ _ _ _ Hget) as (H1 & H2 & _).
    rewrite H1, H2. destruct (two_byte_mnemonic mnemonic); reflexivity.
  - destruct (two_byte_mnemonic mnemonic) eqn:E; [|reflexivity].
    apply two_byte_in_table in E. destruct E as [inst E]. congruence.
Qed.

Lemma pass_one_line_cursor (a a' : Assembler) (raw_line : string) :
  pass_one_line a raw_line = Ok a' ->
  sets_origin raw_line = false ->
  current_address a' = current_address a + spec_line_size raw_line
  /\ org_address a' = org_address a.
Proof.
  rewrite pass_one_line_statement. unfold sets_origin.
  destruct (after_label_fields a raw_line) as (Hc & Ho & _).
  intros H Hso.
  destruct (mnemonic_of raw_line) as [[mnemonic operand_str]|] eqn:Hm.
  - pose proof (spec_line_size_counted _ _ _ Hm Hso) as Hsize.
    unfold mnemonic_of in Hm.
    destruct (statement_of raw_line) as [line|]; [|discriminate].
    apply pass_one_statement_cursor in H.
    destruct (match_equ_inline line); [discriminate|].
    assert (Hs : split_statement line = (mnemonic, operand_str)) by congruence.
    rewrite Hs, Hso in H.
    destruct H as [H1 H2]. rewrite Hsize. split; congruence.
  - unfold spec_line_size. rewrite Hm.
    unfold mnemonic_of in Hm.
    destruct (statement_of raw_line) as [line|].
    + apply pass_one_statement_cursor in H.
      destruct (match_equ_inline line); [|discriminate].
      destruct H. split; [lia | congruence].
    + injection H as <-. split; [lia | congruence].
Qed.

Lemma pass_one_line_origin (a a' : Assembler) (raw_line : string) :
  pass_one_line a raw_line = Ok a' ->
  sets_origin raw_line = true ->
  org_address a' = current_address a'
  /\ spec_line_size raw_line = 0
  /\ exists operand_str,
       mnemonic_of raw_line = Some ("ORG", operand_str)
       /\ resolve_value (after_label a raw_line) operand_str = Ok (current_address a').
Proof.
  rewrite pass_one_line_statement. unfold sets_origin, spec_line_size.
  intros H Hso.
  destruct (mnemonic_of raw_line) as [[mnemonic operand_str]|] eqn:Hm;
    [|discriminate].
  rewrite Hso. cbn [orb].
  apply String.eqb_eq in Hso. subst mnemonic.
  unfold mnemonic_of in Hm.
  destruct (statement_of raw_line) as [line|]; [|discriminate].
  apply pass_one_statement_cursor in H.
  destruct (match_equ_inline line); [discriminate|].
  assert (Hs : split_statement line = ("ORG", operand_str)) by congruence.
  rewrite Hs in H. cbn in H.
  destruct H as [H1 H2]. eauto 6.
Qed.

(** What a statement does in [pass_two]. *)
Lemma pass_two_statement_effect (a a' : Assembler) (raw_line line : string)
    (bytes_out : list Z) :
  pass_two_statement a raw_line line = Ok (a', bytes_out) ->
  symbols a' = symbols a /\ org_address a' = org_address a
  /\ line_number a' = line_number a /\
  let '(mnemonic, operand_str) := split_statement line in
  if (mnemonic =? "ORG")%string then
    bytes_out = []
    /\ resolve_value a operand_str = Ok (current_address a')
    /\ binary a' =
       (binary a ++
        repeat 0 (Z.to_nat (current_address a' - Z.of_nat (List.length (binary a)))))%list
  else
    current_address a' = current_address a + Z.of_nat (List.length bytes_out)
    /\ binary a' = (binary a ++ bytes_out)%list
    /\ Z.of_nat (List.length bytes_out) =
       (if (mnemonic =? "EQU")%string then 0
        else match match_equ_inline line with
             | Some _ => 0
             | None =>
                 if (mnemonic =? "DB")%string || (mnemonic =? "BYTE")%string
                 then operand_count operand_str
                 else if (mnemonic =? "DW")%string || (mnemonic =? "WORD")%string
                 then 2 * operand_count operand_str
                 else match dict_get mnemonic INSTRUCTION_SET with
                      | Some (_, op_type, _) => encoded_length mnemonic op_type
                      | None => 0
                      end
             end).
Proof.
  unfold pass_two_statement. intros H.
  destruct (split_statement line) as [mnemonic operand_str].
  destruct (mnemonic =? "ORG")%string.
  { inv_bind H. revert H. fields.
    destruct (Z.of_nat (List.length (binary a)) <? x) eqn:E; intros H;
      injection H as <- <-; fields; repeat split; auto.
    apply Z.ltb_ge in E.
    replace (Z.to_nat (x - Z.of_nat (List.length (binary a)))) with O by lia.
    cbn [repeat]. rewrite app_nil_r. reflexivity. }
  destruct (mnemonic =? "EQU")%string.
  { injection H as <- <-. fields. rewrite app_nil_r.
    repeat split; auto. cbn [List.length Z.of_nat]. lia. }
  destruct (match_equ_inline line).
  { injection H as <- <-. fields. rewrite app_nil_r.
    repeat split; auto. cbn [List.length Z.of_nat]. lia. }
  inv_bind H. injection H as <- <-. fields.
  repeat split; auto.
  destruct ((mnemonic =? "DB")%string || (mnemonic =? "BYTE")%string).
  { apply data_bytes_length in Hx. unfold operand_count. congruence. }
  destruct ((mnemonic =? "DW")%string || (mnemonic =? "WORD")%string).
  { apply data_words_length in Hx. unfold operand_count. rewrite Hx. lia. }
  destruct (dict_get mnemonic INSTRUCTION_SET) as [[[opcode op_type] bits]|];
    [|discriminate].
  eapply assemble_instruction_length; eauto.
Qed.

Lemma pass_two_line_bytes (a a' : Assembler) (raw_line : string) (bytes_out : list Z) :
  pass_two_line a raw_line = Ok (a', bytes_out) ->
  Z.of_nat (List.length bytes_out) = spec_line_size raw_line.
Proof.
  intros H. pose proof (pass_two_line_statement a raw_line) as Hs.
  unfold spec_line_size, mnemonic_of.
  destruct (statement_of raw_line) as [line|].
  - rewrite Hs in H. apply pass_two_statement_effect in H.
    destruct H as (_ & _ & _ & H).
    destruct (split_statement line) as [mnemonic operand_str].
    destruct (match_equ_inline line) as [groups|].
    { destruct (mnemonic =? "ORG")%string.
      - destruct H as [-> _]. reflexivity.
      - destruct H as (_ & _ & H). rewrite H.
        destruct (mnemonic =? "EQU")%string; reflexivity. }
    destruct (mnemonic =? "ORG")%string.
    { destruct H as [-> _]. reflexivity. }
    destruct H as (_ & _ & H). rewrite H. cbn [orb].
    destruct (mnemonic =? "EQU")%string; [reflexivity|].
    destruct ((mnemonic =? "DB")%string || (mnemonic =? "BYTE")%string); [reflexivity|].
    destruct ((mnemonic =? "DW")%string || (mnemonic =? "WORD")%string); [reflexivity|].
    destruct (dict_get mnemonic INSTRUCTION_SET) as [[[opcode op_type] bits]|] eqn:Hget.
    + destruct (table_lengths _ _ _ _ Hget) as (_ & H2 & _).
      rewrite H2. destruct (two_byte_mnemonic mnemonic); reflexivity.
    + destruct (two_byte_mnemonic mnemonic) eqn:E; [|reflexivity].
      apply two_byte_in_table in E. destruct E as [inst E]. congruence.
  - destruct Hs as [l Hs]. rewrite Hs in H. injection H as _ <-. reflexivity.
Qed.

Lemma pass_two_line_cursor (a a' : Assembler) (raw_line : string) (bytes_out : list Z) :
  pass_two_line a raw_line = Ok (a', bytes_out) ->
  is_org_line raw_line = false ->
  current_address a' = current_address a + Z.of_nat (List.length bytes_out)
  /\ binary a' = (binary a ++ bytes_out)%list.
Proof.
  intros H. pose proof (pass_two_line_statement a raw_line) as Hs.
  unfold is_org_line.
  destruct (statement_of raw_line) as [line|]; intros Horg.
  - rewrite Hs in H. apply pass_two_statement_effect in H.
    destruct H as (_ & _ & _ & H).
    destruct (split_statement line) as [mnemonic operand_str].
    cbn [fst] in Horg. rewrite Horg in H.
    destruct H as (H1 & H2 & _). revert H1 H2. fields. auto.
  - destruct Hs as [l Hs]. rewrite Hs in H. injection H as <- <-.
    fields. rewrite app_nil_r. cbn [List.length Z.of_nat]. split; [lia | reflexivity].
Qed.

Lemma pass_two_line_keeps (a a' : Assembler) (raw_line : string) (bytes_out : list Z) :
  pass_two_line a raw_line = Ok (a', bytes_out) ->
  symbols a' = symbols a /\ org_address a' = org_address a
  /\ line_number a' = line_number a + 1.
Proof.
  intros H. pose proof (pass_two_line_statement a raw_line) as Hs.
  destruct (statement_of raw_line) as [line|].
  - rewrite Hs in H. apply pass_two_statement_effect in H.
    destruct H as (H1 & H2 & H3 & _). revert H1 H2 H3. fields. auto.
  - destruct Hs as [l Hs]. rewrite Hs in H. injection H as <- _. fields. auto.
Qed.

(** A line only ever appends to the buffer: zero bytes of padding when it is
    an ORG, and its own bytes otherwise. *)
Lemma pass_two_line_appends (a a' : Assembler) (raw_line : string) (bytes_out : list Z) :
  pass_two_line a raw_line = Ok (a', bytes_out) ->
  exists padding : nat,
    binary a' = (binary a ++ repeat 0 padding ++ bytes_out)%list
    /\ (is_org_line raw_line = false -> padding = O)
    /\ (is_org_line raw_line = true -> bytes_out = []).
Proof.
  intros H. destruct (is_org_line raw_line) eqn:Horg.
  - pose proof (pass_two_line_statement a raw_line) as Hs.
    unfold is_org_line in Horg.
    destruct (statement_of raw_line) as [line|]; [|discriminate].
    rewrite Hs in H. apply pass_two_statement_effect in H.
    destruct H as (_ & _ & _ & H).
    destruct (split_statement line) as [mnemonic operand_str].
    cbn [fst] in Horg. rewrite Horg in H. destruct H as (-> & _ & H).
    revert H. fields. intros H.
    eexists. rewrite app_nil_r. split; [exact H|]. split; [discriminate | reflexivity].
  - destruct (pass_two_line_cursor _ _ _ _ H Horg) as [_ Hb].
    exists O. cbn [repeat app]. split; [exact Hb|]. split; [reflexivity | discriminate].
Qed.

(** *** The passes, over a whole file *)

Lemma pass_one_loop_app (a : Assembler) (l1 l2 : list string) :
  pass_one_loop a (l1 ++ l2) = (a' <- pass_one_loop a l1 ;; pass_one_loop a' l2).
Proof.
  revert a. induction l1 as [|raw l1 IH]; intros a; cbn [app pass_one_loop].
  - reflexivity.
  - destruct (pass_one_line a raw) as [a'|e]; cbn [bind]; auto.
Qed.

Lemma pass_two_loop_app (a : Assembler) (l1 l2 : list string) :
  pass_two_loop a (l1 ++ l2) = (a' <- pass_two_loop a l1 ;; pass_two_loop a' l2).
Proof.
  revert a. induction l1 as [|raw l1 IH]; intros a; cbn [app pass_two_loop].
  - reflexivity.
  - destruct (pass_two_line a raw) as [[a' bytes_out]|e]; cbn [bind]; auto.
Qed.

(** Every line of a pass that ends well was itself read well. *)
Lemma pass_one_loop_In (a a' : Assembler) (lines : list string) (raw_line : string) :
  pass_one_loop a lines = Ok a' -> In raw_line lines ->
  exists s s', pass_one_line s raw_line = Ok s'.
Proof.
  revert a. induction lines as [|raw lines IH]; intros a H Hin.
  - destruct Hin.
  - cbn [pass_one_loop] in H. inv_bind H.
    destruct Hin as [<-|Hin]; eauto.
Qed.

Lemma pass_two_loop_In (a a' : Assembler) (lines : list string) (raw_line : string) :
  pass_two_loop a lines = Ok a' -> In raw_line lines ->
  exists s s' bytes_out, pass_two_line s raw_line = Ok (s', bytes_out).
Proof.
  revert a. induction lines as [|raw lines IH]; intros a H Hin.
  - destruct Hin.
  - cbn [pass_two_loop] in H. inv_bind H. destruct x as [a1 bytes_out].
    destruct Hin as [<-|Hin]; eauto.
Qed.

Lemma not_org_line_not_origin (raw_line : string) :
  is_org_line raw_line = false -> sets_origin raw_line = false.
Proof.
  unfold is_org_line, sets_origin, mnemonic_of.
  destruct (statement_of raw_line) as [line|]; [|reflexivity].
  destruct (match_equ_inline line); [reflexivity|].
  destruct (split_statement line) as [mnemonic operand_str]. auto.
Qed.

(** Over lines none of which is an ORG the two cursors move in step. *)
Lemma cursors_in_step (lines : list string) :
  Forall (fun raw_line => is_org_line raw_line = false) lines ->
  forall s1 s1' s2 s2',
    pass_one_loop s1 lines = Ok s1' ->
    pass_two_loop s2 lines = Ok s2' ->
    current_address s2' - current_address s2
    = current_address s1' - current_address s1.
Proof.
  induction 1 as [|raw lines Hraw Hall IH]; intros s1 s1' s2 s2' H1 H2.
  - cbn in H1, H2. injection H1 as <-. injection H2 as <-. lia.
  - cbn [pass_one_loop] in H1. cbn [pass_two_loop] in H2.
    inv_bind H1. inv_bind H2. destruct x0 as [t2 bytes_out].
    pose proof (pass_two_line_bytes _ _ _ _ Hx0) as Hsize.
    destruct (pass_two_line_cursor _ _ _ _ Hx0 Hraw) as [Hc2 _].
    destruct (pass_one_line_cursor _ _ _ Hx (not_org_line_not_origin _ Hraw)) as [Hc1 _].
    specialize (IH _ _ _ _ H1 H2). lia.
Qed.

(** [pass_one] leaves [org_address] alone on the lines that are no ORG. *)
Lemma pass_one_loop_keeps_origin (lines : list string) :
  Forall (fun raw_line => sets_origin raw_line = false) lines ->
  forall s s', pass_one_loop s lines = Ok s' -> org_address s' = org_address s.
Proof.
  induction 1 as [|raw lines Hraw Hall IH]; intros s s' H.
  - cbn in H. injection H as <-. reflexivity.
  - cbn [pass_one_loop] in H. inv_bind H.
    destruct (pass_one_line_cursor _ _ _ Hx Hraw) as [_ Ho].
    rewrite (IH _ _ H). exact Ho.
Qed.

(* ------------------------------------------------------------------ *)
(** ** The properties of the specification *)

(** C1.  In a run whose two passes succeed, every source line is read
    successfully by both passes, and whenever both passes read a line the
    bytes [pass_two] emits for it are as many as the specification's
    address model says (0 for blank, comment, label-only, ORG and EQU
    lines, the operand count for DB, twice that for DW, 2 for JUN, JMS,
    FIM, ISZ and JCN, 1 for the other mnemonics), which is also the amount
    by which [pass_one] advances its cursor on every line that is not an
    ORG; an ORG line emits no byte. *)
Theorem C1_pass_lengths_agree (a a1 a2 : Assembler) (lines : list string)
    (raw_line : string) :
  pass_one a lines = Ok a1 ->
  pass_two a1 lines = Ok a2 ->
  In raw_line lines ->
  (exists s1 s1', pass_one_line s1 raw_line = Ok s1')
  /\ (exists s2 s2' bytes_out, pass_two_line s2 raw_line = Ok (s2', bytes_out))
  /\ forall s1 s1' s2 s2' bytes_out,
       pass_one_line s1 raw_line = Ok s1' ->
       pass_two_line s2 raw_line = Ok (s2', bytes_out) ->
       Z.of_nat (List.length bytes_out) = spec_line_size raw_line
       /\ (sets_origin raw_line = false ->
           current_address s1' - current_address s1
           = Z.of_nat (List.length bytes_out))
       /\ (sets_origin raw_line = true -> bytes_out = []).
Proof.
  intros H1 H2 Hin. split; [|split].
  - unfold pass_one in H1. eapply pass_one_loop_In; eauto.
  - unfold pass_two in H2. eapply pass_two_loop_In; eauto.
  - intros s1 s1' s2 s2' bytes_out Hs1 Hs2.
    pose proof (pass_two_line_bytes _ _ _ _ Hs2) as Hsize.
    split; [exact Hsize|]. split; intros Hso.
    + destruct (pass_one_line_cursor _ _ _ Hs1 Hso) as [Hc _]. lia.
    + destruct (pass_one_line_origin _ _ _ Hs1 Hso) as (_ & H0 & _).
      rewrite H0 in Hsize. destruct bytes_out; [reflexivity | discriminate].
Qed.

Lemma C1_pass_lengths_agree_witness :
  let program := ["L: NOP" ++ lf; "DB 1, 2, 3" ++ lf; "JUN L" ++ lf] in
  exists a1 a2,
    pass_one (new_assembler true) program = Ok a1
    /\ pass_two a1 program = Ok a2
    /\ In ("JUN L" ++ lf) program
    /\ forall s1 s1' s2 s2' bytes_out,
         pass_one_line s1 ("JUN L" ++ lf) = Ok s1' ->
         pass_two_line s2 ("JUN L" ++ lf) = Ok (s2', bytes_out) ->
         Z.of_nat (List.length bytes_out) = spec_line_size ("JUN L" ++ lf)
         /\ (sets_origin ("JUN L" ++ lf) = false ->
             current_address s1' - current_address s1
             = Z.of_nat (List.length bytes_out))
         /\ (sets_origin ("JUN L" ++ lf) = true -> bytes_out = []).
Proof.
  intros program.
  assert (H1 : exists a1, pass_one (new_assembler true) program = Ok a1)
    by (vm_compute; eauto).
  destruct H1 as [a1 H1].
  assert (H2 : exists a2, pass_two a1 program = Ok a2).
  { vm_compute in H1. injection H1 as <-. vm_compute. eauto. }
  destruct H2 as [a2 H2].
  assert (Hin : In ("JUN L" ++ lf) program) by (cbn; auto).
  exists a1, a2.
  split; [exact H1|]. split; [exact H2|]. split; [exact Hin|].
  exact (proj2 (proj2 (C1_pass_lengths_agree (new_assembler true) a1 a2 program
                         ("JUN L" ++ lf) H1 H2 Hin))).
Defined.

(** *** Failed runs *)

Lemma assemble_file_result (a : Assembler) (fs : FileSystem)
    (input_file output_file listing_file : string) :
  fst (assemble_file a fs input_file output_file listing_file)
  = negb (fatal_error a fs input_file output_file).
Proof.
  unfold assemble_file, fatal_error, write_binary.
  destruct (readable fs input_file) as [lines|]; [|reflexivity].
  destruct (pass_one a lines) as [a1|e]; [|reflexivity].
  destruct (pass_two a1 lines) as [a2|e]; [|reflexivity].
  destruct (writable fs output_file); [|reflexivity].
  destruct (negb (PyStr.is_empty listing_file)); reflexivity.
Qed.

Lemma assemble_file_failure (a : Assembler) (fs : FileSystem)
    (input_file output_file listing_file : string) :
  fatal_error a fs input_file output_file = true ->
  assemble_file a fs input_file output_file listing_file = (false, fs).
Proof.
  unfold assemble_file, fatal_error, write_binary.
  destruct (readable fs input_file) as [lines|]; [|reflexivity].
  destruct (pass_one a lines) as [a1|e]; [|reflexivity].
  destruct (pass_two a1 lines) as [a2|e]; [|reflexivity].
  destruct (writable fs output_file); [discriminate | reflexivity].
Qed.

(** A line on which [pass_two] raises in every state makes [pass_two] raise
    on every file that holds it. *)
Lemma pass_two_loop_raises (lines : list string) (raw_line : string) :
  In raw_line lines ->
  (forall s, exists e, pass_two_line s raw_line = Raise e) ->
  forall s, exists e, pass_two_loop s lines = Raise e.
Proof.
  intros Hin Hraise. induction lines as [|raw lines IH]; intros s.
  - destruct Hin.
  - cbn [pass_two_loop].
    destruct (pass_two_line s raw) as [[s' bytes_out]|e] eqn:E; cbn [bind].
    + destruct Hin as [->|Hin]; [|auto].
      destruct (Hraise s) as [e He]. congruence.
    + eauto.
Qed.

Lemma failing_line_fails_run (a : Assembler) (fs : FileSystem)
    (input_file output_file listing_file : string) (lines : list string)
    (raw_line : string) :
  readable fs input_file = Some lines ->
  In raw_line lines ->
  (forall s, exists e, pass_two_line s raw_line = Raise e) ->
  assemble_file a fs input_file output_file listing_file = (false, fs).
Proof.
  intros Hread Hin Hraise. apply assemble_file_failure.
  unfold fatal_error. rewrite Hread.
  destruct (pass_one a lines) as [a1|e]; [|reflexivity].
  destruct (pass_two_loop_raises lines raw_line Hin Hraise (pass_two_init a1)) as [e He].
  unfold pass_two. rewrite He. reflexivity.
Qed.

(** C2, as amended.  A run reports failure exactly when it meets a fatal
    error: the source cannot be read, a pass raises (unresolved symbol,
    malformed operands, unknown instruction, EQU without label ...) or the
    binary cannot be written.  Then no file is written, neither binary nor
    listing.  A listing that cannot be written is not such an error: the
    run still reports success and has written the binary. *)
Theorem C2_fatal_errors_write_nothing (a : Assembler) (fs : FileSystem)
    (input_file output_file listing_file : string) :
  fst (assemble_file a fs input_file output_file listing_file)
  = negb (fatal_error a fs input_file output_file)
  /\ (fatal_error a fs input_file output_file = true ->
      assemble_file a fs input_file output_file listing_file = (false, fs))
  /\ (fatal_error a fs input_file output_file = false ->
      writable fs listing_file = false ->
      exists lines a1 a2,
        readable fs input_file = Some lines
        /\ pass_one a lines = Ok a1 /\ pass_two a1 lines = Ok a2
        /\ assemble_file a fs input_file output_file listing_file
           = (true, write_file fs output_file (BinaryFile (binary a2)))).
Proof.
  split; [apply assemble_file_result|]. split; [apply assemble_file_failure|].
  unfold assemble_file, fatal_error, write_binary, write_listing.
  destruct (readable fs input_file) as [lines|]; [|discriminate].
  destruct (pass_one a lines) as [a1|e] eqn:H1; [|discriminate].
  destruct (pass_two a1 lines) as [a2|e] eqn:H2; [|discriminate].
  destruct (writable fs output_file); [|discriminate].
  intros _ Hl. exists lines, a1, a2.
  split; [reflexivity|]. split; [exact H1|]. split; [exact H2|].
  change (writable (write_file fs output_file (BinaryFile (binary a2))) listing_file)
    with (writable fs listing_file).
  rewrite Hl.
  destruct (negb (PyStr.is_empty listing_file)); reflexivity.
Qed.

Lemma C2_fatal_errors_write_nothing_witness :
  fatal_error (new_assembler true) listing_locked "prog.asm" "prog.bin" = false
  /\ writable listing_locked "prog.lst" = false
  /\ exists lines a1 a2,
       readable listing_locked "prog.asm" = Some lines
       /\ pass_one (new_assembler true) lines = Ok a1
       /\ pass_two a1 lines = Ok a2
       /\ assemble_file (new_assembler true) listing_locked
            "prog.asm" "prog.bin" "prog.lst"
          = (true, write_file listing_locked "prog.bin" (BinaryFile (binary a2))).
Proof.
  assert (Hf : fatal_error (new_assembler true) listing_locked "prog.asm" "prog.bin"
               = false) by (vm_compute; reflexivity).
  assert (Hw : writable listing_locked "prog.lst" = false) by (vm_compute; reflexivity).
  split; [exact Hf|]. split; [exact Hw|].
  exact (proj2 (proj2 (C2_fatal_errors_write_nothing (new_assembler true)
                         listing_locked "prog.asm" "prog.bin" "prog.lst")) Hf Hw).
Defined.

(** C2 as stated fails: the listing of this run cannot be written, an IO
    error on an output file, yet the run reports success and leaves the
    binary on disk. *)
Lemma C2_unwritable_listing_counterexample :
  writable listing_locked "prog.lst" = false
  /\ fst (assemble_file (new_assembler true) listing_locked
            "prog.asm" "prog.bin" "prog.lst") = true
  /\ written (snd (assemble_file (new_assembler true) listing_locked
                     "prog.asm" "prog.bin" "prog.lst"))
     = [("prog.bin", BinaryFile [0x00])].
Proof. vm_compute. auto. Qed.

(** C3, as amended.  A line whose mnemonic is neither a directive nor in the
    instruction table: [pass_one] does not fail on it, leaves the cursor
    where it is and, when the assembler is verbose (the default), logs one
    warning; a quiet assembler logs nothing.  [pass_two] raises the
    unknown-instruction error on the same line, and every run over a file
    that holds the line reports failure and writes no file. *)
Theorem C3_unknown_mnemonic (raw_line mnemonic operand_str : string) :
  mnemonic_of raw_line = Some (mnemonic, operand_str) ->
  is_directive mnemonic = false ->
  dict_get mnemonic INSTRUCTION_SET = None ->
  (forall a, exists a',
      pass_one_line a raw_line = Ok a'
      /\ current_address a' = current_address a
      /\ warnings a' =
         (warnings a ++
          (if verbose a then [(line_number a + 1, mnemonic)] else []))%list)
  /\ (forall a,
        pass_two_line a raw_line
        = Raise (UnknownInstruction (line_number a + 1) mnemonic))
  /\ (forall a fs input_file output_file listing_file lines,
        readable fs input_file = Some lines ->
        In raw_line lines ->
        assemble_file a fs input_file output_file listing_file = (false, fs)).
Proof.
  intros Hm Hdir Hget.
  unfold is_directive in Hdir. cbn [existsb] in Hdir.
  repeat (apply orb_false_iff in Hdir; destruct Hdir as [? Hdir]).
  unfold mnemonic_of in Hm.
  destruct (statement_of raw_line) as [line|] eqn:Hstmt; [|discriminate].
  destruct (match_equ_inline line) eqn:Hinl; [discriminate|].
  assert (Hs : split_statement line = (mnemonic, operand_str)) by congruence.
  assert (Htwo : forall a, pass_two_line a raw_line
                           = Raise (UnknownInstruction (line_number a + 1) mnemonic)).
  { intros a. pose proof (pass_two_line_statement a raw_line) as Hp.
    rewrite Hstmt in Hp. rewrite Hp. unfold pass_two_statement.
    rewrite Hs, Hinl, Hget.
    repeat match goal with E : (mnemonic =? _)%string = false |- _ =>
                             rewrite E; clear E end.
    reflexivity. }
  split; [|split].
  - intros a. rewrite pass_one_line_statement, Hstmt.
    unfold pass_one_statement. rewrite Hinl, Hs, Hget.
    repeat match goal with E : (mnemonic =? _)%string = false |- _ =>
                             rewrite E; clear E end.
    cbn [orb].
    destruct (after_label_fields a raw_line) as (Hc & _ & _ & Hv & Hw & Hn).
    rewrite Hv. destruct (verbose a); eexists; (split; [reflexivity|]); fields.
    + rewrite Hw, Hn. auto.
    + rewrite Hw, app_nil_r. auto.
  - exact Htwo.
  - intros a fs input_file output_file listing_file lines Hread Hin.
    eapply failing_line_fails_run; eauto.
Qed.

Lemma C3_unknown_mnemonic_witness :
  mnemonic_of "FOO 1" = Some ("FOO", "1")
  /\ pass_two_line (new_assembler true) "FOO 1" = Raise (UnknownInstruction 1 "FOO").
Proof.
  assert (Hm : mnemonic_of "FOO 1" = Some ("FOO", "1")) by (vm_compute; reflexivity).
  assert (Hd : is_directive "FOO" = false) by (vm_compute; reflexivity).
  assert (Hg : dict_get "FOO" INSTRUCTION_SET = None) by (vm_compute; reflexivity).
  split; [exact Hm|].
  exact (proj1 (proj2 (C3_unknown_mnemonic "FOO 1" "FOO" "1" Hm Hd Hg))
           (new_assembler true)).
Defined.

(** C3 as stated fails for a quiet assembler: on the unknown mnemonic FOO
    its [pass_one] continues without issuing any warning. *)
Lemma C3_quiet_counterexample :
  unknown_mnemonic "FOO" = true
  /\ exists a', pass_one_line (new_assembler false) "FOO" = Ok a'
                /\ warnings a' = [].
Proof. split; [vm_compute; reflexivity|]. eexists. split; vm_compute; reflexivity. Qed.

(** C4.  For the program [L: NOP] / [JUN L], [pass_one] binds L to address
    0 and [pass_two] emits exactly the bytes 0x00, 0x40, 0x00; a label may
    as well be used before it is declared ([JUN L] / [L: NOP] binds L to 2
    and emits 0x40, 0x02, 0x00); and JUN encodes an address as
    opcode|((addr>>8)&0xF), then addr&0xFF. *)
Theorem C4_labels_resolve (v : bool) :
  (exists a1 a2,
      pass_one (new_assembler v) ["L: NOP" ++ lf; "JUN L" ++ lf] = Ok a1
      /\ dict_get "L" (symbols a1) = Some 0x0000
      /\ pass_two a1 ["L: NOP" ++ lf; "JUN L" ++ lf] = Ok a2
      /\ binary a2 = [0x00; 0x40; 0x00])
  /\ (exists a1 a2,
      pass_one (new_assembler v) ["JUN L" ++ lf; "L: NOP" ++ lf] = Ok a1
      /\ dict_get "L" (symbols a1) = Some 2
      /\ pass_two a1 ["JUN L" ++ lf; "L: NOP" ++ lf] = Ok a2
      /\ binary a2 = [0x40; 0x02; 0x00])
  /\ (forall a operand_str addr,
      resolve_value a operand_str = Ok addr ->
      assemble_instruction a "JUN" (0x40, ADDRESS, 12) operand_str
      = Ok [Z.lor 0x40 (Z.land (Z.shiftr addr 8) 0x0F); Z.land addr 0xFF]).
Proof.
  split; [|split].
  - destruct v;
      (eexists; eexists;
       split; [vm_compute; reflexivity|];
       split; [vm_compute; reflexivity|];
       split; vm_compute; reflexivity).
  - destruct v;
      (eexists; eexists;
       split; [vm_compute; reflexivity|];
       split; [vm_compute; reflexivity|];
       split; vm_compute; reflexivity).
  - intros a operand_str addr H. unfold assemble_instruction.
    rewrite H. reflexivity.
Qed.

Lemma C4_labels_resolve_witness :
  resolve_value (new_assembler true) "0x123" = Ok 0x123
  /\ assemble_instruction (new_assembler true) "JUN" (0x40, ADDRESS, 12) "0x123"
     = Ok [Z.lor 0x40 (Z.land (Z.shiftr 0x123 8) 0x0F); Z.land 0x123 0xFF].
Proof.
  assert (H : resolve_value (new_assembler true) "0x123" = Ok 0x123)
    by (vm_compute; reflexivity).
  split; [exact H|].
  exact (proj2 (proj2 (C4_labels_resolve true)) (new_assembler true) "0x123" 0x123 H).
Defined.

(** *** The expression evaluator against its specification *)

Lemma append_empty_r (s : string) : (s ++ "")%string = s.
Proof. induction s as [|c s IH]; cbn; [reflexivity | now rewrite IH]. Qed.

Lemma append_assoc (s t u : string) : ((s ++ t) ++ u = s ++ (t ++ u))%string.
Proof. induction s as [|c s IH]; cbn; [reflexivity | now rewrite IH]. Qed.

Lemma prepend_empty (cs : list (Operator * string)) : prepend "" cs = cs.
Proof. destruct cs as [|[op piece] more]; reflexivity. Qed.

Lemma prepend_prepend (s t : string) (cs : list (Operator * string)) :
  prepend s (prepend t cs) = prepend (s ++ t) cs.
Proof.
  destruct cs as [|[op piece] more]; cbn [prepend]; [reflexivity|].
  now rewrite append_assoc.
Qed.

(** The operator test and the sign of the code, against the operators of
    the specification. *)
Lemma operator_of_code (ch : ascii) :
  match operator_of ch with
  | Some Plus => is_operator ch = true /\ sign_of ch = 1
  | Some Minus => is_operator ch = true /\ sign_of ch = -1
  | None => is_operator ch = false
  end.
Proof.
  unfold operator_of, is_operator, sign_of.
  destruct (ch =? "+")%char eqn:Eplus; [split; reflexivity|].
  destruct (ch =? "-")%char; [split; reflexivity | reflexivity].
Qed.

(** The value the code keeps in [sign] for an operator. *)
Lemma apply_term_sign (total value : Z) (op : Operator) :
  total + (match op with Plus => 1 | Minus => -1 end) * value
  = apply_term total op value.
Proof. destruct op; cbn [apply_term]; lia. Qed.

(** The loop of [evaluate_expression], from any of its states, computes the
    sum of the signed terms still ahead of it. *)
Lemma evaluate_loop_terms (a : Assembler) (expr : string) :
  forall (total : Z) (term : string) (op : Operator) (seen_term : bool),
    evaluate_loop a expr total term
      (match op with Plus => 1 | Minus => -1 end) seen_term =
    match filter (fun c => negb (PyStr.is_empty (snd c)))
            (prepend term (chunks op expr)) with
    | [] => if seen_term then Some total else None
    | terms => sum_terms a total terms
    end.
Proof.
  induction expr as [|ch rest IH]; intros total term op seen_term.
  - cbn [evaluate_loop chunks prepend]. rewrite append_empty_r.
    cbn [filter snd].
    destruct term as [|c t]; cbn [PyStr.is_empty negb sum_terms]; [reflexivity|].
    destruct (resolve_simple_value a (String c t)); [|reflexivity].
    rewrite apply_term_sign. reflexivity.
  - cbn [evaluate_loop chunks].
    pose proof (operator_of_code ch) as Hop.
    destruct (operator_of ch) as [op'|].
    + assert (Hcode : is_operator ch = true
                      /\ sign_of ch = match op' with Plus => 1 | Minus => -1 end)
        by (destruct op'; exact Hop).
      destruct Hcode as [-> ->].
      cbn [prepend]. rewrite append_empty_r. cbn [filter snd].
      destruct term as [|c t]; cbn [PyStr.is_empty negb sum_terms].
      * rewrite IH, prepend_empty. reflexivity.
      * destruct (resolve_simple_value a (String c t)) as [value|]; [|reflexivity].
        rewrite IH, prepend_empty, apply_term_sign.
        destruct (filter _ (chunks op' rest)); reflexivity.
    + rewrite Hop, IH, prepend_prepend. reflexivity.
Qed.

Lemma evaluate_expression_spec (a : Assembler) (expr : string) :
  evaluate_expression a expr = spec_resolve_expression a expr.
Proof.
  unfold evaluate_expression, spec_resolve_expression, signed_terms.
  destruct (PyStr.remove_spaces expr) as [|c e] eqn:E.
  - reflexivity.
  - cbn [PyStr.is_empty orb].
    destruct (PyStr.contains "+" (String c e)), (PyStr.contains "-" (String c e));
      cbn [negb andb orb]; try reflexivity;
      rewrite (evaluate_loop_terms a (String c e) 0 "" Plus false), prepend_empty;
      destruct (filter _ _); reflexivity.
Qed.

Lemma contains_remove_spaces (c : ascii) (s : string) :
  (c =? " ")%char = false ->
  PyStr.contains c (PyStr.remove_spaces s) = PyStr.contains c s.
Proof.
  intros Hc. induction s as [|d s IH]; cbn [PyStr.remove_spaces PyStr.contains].
  - reflexivity.
  - destruct (d =? " ")%char eqn:E.
    + apply Ascii.eqb_eq in E. subst d. rewrite Ascii.eqb_sym, Hc. exact IH.
    + cbn [PyStr.contains]. now rewrite IH.
Qed.

Lemma sum_terms_unresolved (a : Assembler) (terms : list (Operator * string))
    (op : Operator) (term : string) :
  In (op, term) terms -> resolve_simple_value a term = None ->
  forall total, sum_terms a total terms = None.
Proof.
  induction terms as [|[o t] terms IH]; intros Hin Hnone total.
  - destruct Hin.
  - cbn [sum_terms]. destruct Hin as [E|Hin].
    + injection E as -> ->. rewrite Hnone. reflexivity.
    + destruct (resolve_simple_value a t); [apply (IH Hin Hnone) | reflexivity].
Qed.

(** [resolve_value] on a token that is no simple value. *)
Lemma resolve_value_expression (a : Assembler) (token : string) :
  resolve_simple_value a (trim token) = None ->
  PyStr.contains "+" (trim token) || PyStr.contains "-" (trim token) = true ->
  resolve_value a token =
  match signed_terms (PyStr.remove_spaces (trim token)) with
  | [] => Raise (UnknownSymbol (line_number a) token)
  | terms =>
      match sum_terms a 0 terms with
      | Some value => Ok value
      | None => Raise (UnknownSymbol (line_number a) token)
      end
  end.
Proof.
  intros Hsimple Hop. unfold resolve_value.
  destruct (PyStr.is_empty (trim token)) eqn:E.
  { destruct (trim token); [discriminate Hop | discriminate E]. }
  rewrite Hsimple, evaluate_expression_spec. unfold spec_resolve_expression.
  rewrite !contains_remove_spaces by reflexivity. rewrite Hop.
  destruct (signed_terms _) as [|t ts]; [reflexivity|].
  destruct (sum_terms a 0 (t :: ts)); reflexivity.
Qed.

Lemma all_of_weaken (p q : ascii -> bool) (s : string) :
  (forall c, p c = true -> q c = true) ->
  all_of p s = true -> all_of q s = true.
Proof.
  intros Hpq. induction s as [|c s IH]; cbn; [reflexivity|].
  intros H. apply andb_prop in H. destruct H as [Hc Hs].
  rewrite (Hpq c Hc), (IH Hs). reflexivity.
Qed.

Lemma all_of_append (p : ascii -> bool) (s t : string) :
  all_of p (s ++ t) = all_of p s && all_of p t.
Proof.
  induction s as [|c s IH]; cbn; [reflexivity|].
  rewrite IH, andb_assoc. reflexivity.
Qed.

Lemma rstrip_class_none (p : ascii -> bool) (s : string) :
  all_of (fun c => negb (p c)) s = true -> PyStr.rstrip_class p s = s.
Proof.
  induction s as [|c s IH]; [reflexivity|]. cbn [all_of PyStr.rstrip_class].
  intros H. apply andb_prop in H. destruct H as [Hc Hs].
  apply negb_true_iff in Hc. rewrite (IH Hs), Hc. reflexivity.
Qed.

Lemma lstrip_class_none (p : ascii -> bool) (s : string) :
  all_of (fun c => negb (p c)) s = true -> PyStr.lstrip_class p s = s.
Proof.
  destruct s as [|c s]; [reflexivity|]. cbn [all_of PyStr.lstrip_class].
  intros H. apply andb_prop in H. destruct H as [Hc _].
  apply negb_true_iff in Hc. rewrite Hc. reflexivity.
Qed.

Lemma remove_spaces_none (s : string) :
  all_of (fun c => negb (c =? " ")%char) s = true -> PyStr.remove_spaces s = s.
Proof.
  induction s as [|c s IH]; [reflexivity|]. cbn [all_of PyStr.remove_spaces].
  intros H. apply andb_prop in H. destruct H as [Hc Hs].
  apply negb_true_iff in Hc. rewrite Hc, (IH Hs). reflexivity.
Qed.

Lemma contains_append_r (c : ascii) (s t : string) :
  PyStr.contains c (s ++ String c t) = true.
Proof.
  induction s as [|d s IH]; cbn [String.append PyStr.contains].
  - rewrite Ascii.eqb_refl. reflexivity.
  - rewrite IH. apply orb_true_r.
Qed.

(** What a plain term is made of. *)
Lemma plain_term_chars (s : string) :
  plain_term s = true ->
  s <> ""
  /\ all_of (fun c => negb (PyStr.isspace c)) s = true
  /\ all_of (fun c => negb (c =? " ")%char) s = true
  /\ all_of (fun c => match operator_of c with None => true | Some _ => false end) s
     = true.
Proof.
  unfold plain_term. intros H. apply andb_prop in H. destruct H as [Hne Hall].
  split; [destruct s; [discriminate Hne | discriminate]|].
  repeat split;
    (eapply all_of_weaken; [|exact Hall]);
    intros c; destruct c as [[] [] [] [] [] [] [] []]; vm_compute; congruence.
Qed.

(** The pieces of a text that starts with a plain term. *)
Lemma chunks_plain (x : string) (first : Operator) (rest : string) :
  all_of (fun c => match operator_of c with None => true | Some _ => false end) x
  = true ->
  chunks first (x ++ rest) = prepend x (chunks first rest).
Proof.
  induction x as [|c x IH]; cbn [all_of String.append]; intros H.
  - rewrite prepend_empty. reflexivity.
  - apply andb_prop in H. destruct H as [Hc Hx]. cbn [chunks].
    destruct (operator_of c); [discriminate Hc|].
    rewrite (IH Hx), prepend_prepend. reflexivity.
Qed.

(** Two plain terms and the operator between them. *)
Lemma signed_terms_pair (x y : string) (ch : ascii) (op : Operator) :
  plain_term x = true -> plain_term y = true -> operator_of ch = Some op ->
  trim (x ++ String ch y) = x ++ String ch y
  /\ PyStr.remove_spaces (x ++ String ch y) = x ++ String ch y
  /\ PyStr.contains ch (x ++ String ch y) = true
  /\ signed_terms (x ++ String ch y) = [(Plus, x); (op, y)].
Proof.
  intros Hx Hy Hch.
  destruct (plain_term_chars x Hx) as (Hxne & Hxs & Hxb & Hxo).
  destruct (plain_term_chars y Hy) as (Hyne & Hys & Hyb & Hyo).
  assert (Hc : PyStr.isspace ch = false /\ (ch =? " ")%char = false).
  { unfold operator_of in Hch.
    destruct (ch =? "+")%char eqn:E1;
      [apply Ascii.eqb_eq in E1; subst ch; split; reflexivity|].
    destruct (ch =? "-")%char eqn:E2;
      [apply Ascii.eqb_eq in E2; subst ch; split; reflexivity | discriminate]. }
  destruct Hc as [Hcs Hcb].
  split; [|split; [|split]].
  - unfold trim, PyStr.strip, PyStr.lstrip, PyStr.rstrip.
    assert (H : all_of (fun c => negb (PyStr.isspace c)) (x ++ String ch y) = true)
      by (rewrite all_of_append; cbn [all_of]; rewrite Hxs, Hys, Hcs; reflexivity).
    rewrite lstrip_class_none by exact H. apply rstrip_class_none. exact H.
  - apply remove_spaces_none.
    rewrite all_of_append. cbn [all_of]. rewrite Hxb, Hyb, Hcb. reflexivity.
  - apply contains_append_r.
  - unfold signed_terms. rewrite chunks_plain by exact Hxo.
    cbn [chunks]. rewrite Hch. cbn [prepend]. rewrite append_empty_r.
    rewrite <- (append_empty_r y) at 1. rewrite chunks_plain by exact Hyo.
    cbn [chunks prepend filter snd]. rewrite append_empty_r.
    destruct x; [congruence|]. destruct y; [congruence|]. reflexivity.
Qed.

(** [x + y] and [x - y] for plain terms. *)
Lemma resolve_value_pair (a : Assembler) (x y : string) (ch : ascii)
    (op : Operator) (vx vy : Z) :
  plain_term x = true -> plain_term y = true -> operator_of ch = Some op ->
  resolve_simple_value a x = Some vx -> resolve_simple_value a y = Some vy ->
  resolve_simple_value a (x ++ String ch y) = None ->
  resolve_value a (x ++ String ch y) = Ok (apply_term vx op vy).
Proof.
  intros Hx Hy Hch Hvx Hvy Hwhole.
  destruct (signed_terms_pair x y ch op Hx Hy Hch) as (Htrim & Hsp & Hin & Hterms).
  rewrite resolve_value_expression.
  - rewrite Htrim, Hsp, Hterms. cbn [sum_terms]. rewrite Hvx, Hvy.
    cbn [apply_term]. reflexivity.
  - rewrite Htrim. exact Hwhole.
  - rewrite Htrim. unfold operator_of in Hch.
    destruct (ch =? "+")%char eqn:E1.
    + apply Ascii.eqb_eq in E1. subst ch. rewrite Hin. reflexivity.
    + destruct (ch =? "-")%char eqn:E2; [|discriminate].
      apply Ascii.eqb_eq in E2. subst ch. rewrite Hin. apply orb_true_r.
Qed.

(** C5.  On a token with a [+] or [-] in it that is not itself a simple
    literal, register or symbol, [resolve_value] splits the text, blanks
    removed, into signed terms, resolves each term as a simple value and
    returns their sum taken left to right, a term behind a [+] added and a
    term behind a [-] subtracted; it raises the unresolved-symbol error when
    a term is undefined (or when there is no term at all).  So [x+y] is the
    value of [x] plus that of [y] and [x-y] the value of [x] minus that of
    [y]; in particular [LABEL+2] is the value of LABEL plus 2, [LABEL-2] is
    it minus 2, and [10-3-2] is 5.  A run that meets an expression with an
    undefined symbol fails and writes no file. *)
Theorem C5_additive_expressions :
  (forall a token,
      resolve_simple_value a (trim token) = None ->
      PyStr.contains "+" (trim token) || PyStr.contains "-" (trim token) = true ->
      resolve_value a token =
      match signed_terms (PyStr.remove_spaces (trim token)) with
      | [] => Raise (UnknownSymbol (line_number a) token)
      | terms =>
          match sum_terms a 0 terms with
          | Some value => Ok value
          | None => Raise (UnknownSymbol (line_number a) token)
          end
      end)
  /\ (forall a token op term,
      resolve_simple_value a (trim token) = None ->
      PyStr.contains "+" (trim token) || PyStr.contains "-" (trim token) = true ->
      In (op, term) (signed_terms (PyStr.remove_spaces (trim token))) ->
      resolve_simple_value a term = None ->
      resolve_value a token = Raise (UnknownSymbol (line_number a) token))
  /\ (forall a x y vx vy,
      plain_term x = true -> plain_term y = true ->
      resolve_simple_value a x = Some vx ->
      resolve_simple_value a y = Some vy ->
      (resolve_simple_value a (x ++ "+" ++ y) = None ->
       resolve_value a (x ++ "+" ++ y) = Ok (vx + vy))
      /\ (resolve_simple_value a (x ++ "-" ++ y) = None ->
          resolve_value a (x ++ "-" ++ y) = Ok (vx - vy)))
  /\ (forall a value,
      dict_get "LABEL" (symbols a) = Some value ->
      (dict_get "LABEL+2" (symbols a) = None ->
       resolve_value a "LABEL+2" = Ok (value + 2))
      /\ (dict_get "LABEL-2" (symbols a) = None ->
          resolve_value a "LABEL-2" = Ok (value - 2)))
  /\ (forall a,
      dict_get "10-3-2" (symbols a) = None ->
      resolve_value a "10-3-2" = Ok 5)
  /\ (forall v fs input_file output_file listing_file,
      readable fs input_file = Some ["JUN NOWHERE+2" ++ lf] ->
      assemble_file (new_assembler v) fs input_file output_file listing_file
      = (false, fs)).
Proof.
  split; [exact resolve_value_expression|]. split; [|split; [|split; [|split]]].
  - intros a token op term Hsimple Hop Hin Hnone.
    rewrite (resolve_value_expression a token Hsimple Hop).
    revert Hin. destruct (signed_terms _) as [|t ts]; intros Hin; [reflexivity|].
    rewrite (sum_terms_unresolved _ _ _ _ Hin Hnone). reflexivity.
  - intros a x y vx vy Hx Hy Hvx Hvy. split; intros Hwhole.
    + exact (resolve_value_pair a x y "+" Plus vx vy Hx Hy eq_refl Hvx Hvy Hwhole).
    + exact (resolve_value_pair a x y "-" Minus vx vy Hx Hy eq_refl Hvx Hvy Hwhole).
  - intros a value Hlabel.
    assert (Hl : resolve_simple_value a "LABEL" = Some value).
    { unfold resolve_simple_value.
      replace (trim "LABEL") with "LABEL" by (vm_compute; reflexivity).
      replace (parse_number "LABEL") with (@None Z) by (vm_compute; reflexivity).
      replace (parse_register "LABEL") with (@None Z) by (vm_compute; reflexivity).
      replace (normalize_symbol "LABEL") with "LABEL" by (vm_compute; reflexivity).
      cbn [PyStr.is_empty]. exact Hlabel. }
    assert (H2 : resolve_simple_value a "2" = Some 2).
    { unfold resolve_simple_value.
      replace (trim "2") with "2" by (vm_compute; reflexivity).
      replace (parse_number "2") with (Some 2) by (vm_compute; reflexivity).
      reflexivity. }
    split; intros Hnone.
    + apply (resolve_value_pair a "LABEL" "2" "+" Plus value 2); try reflexivity;
        assumption.
    + apply (resolve_value_pair a "LABEL" "2" "-" Minus value 2); try reflexivity;
        assumption.
  - intros a Hnone.
    assert (Hsimple : resolve_simple_value a (trim "10-3-2") = None).
    { unfold resolve_simple_value.
      replace (trim (trim "10-3-2")) with "10-3-2" by (vm_compute; reflexivity).
      replace (parse_number "10-3-2") with (@None Z) by (vm_compute; reflexivity).
      replace (parse_register "10-3-2") with (@None Z) by (vm_compute; reflexivity).
      replace (normalize_symbol "10-3-2") with "10-3-2" by (vm_compute; reflexivity).
      cbn [PyStr.is_empty]. exact Hnone. }
    rewrite (resolve_value_expression a "10-3-2" Hsimple) by (vm_compute; reflexivity).
    replace (signed_terms (PyStr.remove_spaces (trim "10-3-2")))
      with [(Plus, "10"); (Minus, "3"); (Minus, "2")] by (vm_compute; reflexivity).
    cbn [sum_terms]. unfold resolve_simple_value.
    replace (trim "10") with "10" by (vm_compute; reflexivity).
    replace (parse_number "10") with (Some 10) by (vm_compute; reflexivity).
    replace (trim "3") with "3" by (vm_compute; reflexivity).
    replace (parse_number "3") with (Some 3) by (vm_compute; reflexivity).
    replace (trim "2") with "2" by (vm_compute; reflexivity).
    replace (parse_number "2") with (Some 2) by (vm_compute; reflexivity).
    reflexivity.
  - intros v fs input_file output_file listing_file Hread.
    apply assemble_file_failure. unfold fatal_error. rewrite Hread.
    destruct v; vm_compute; reflexivity.
Qed.

Lemma C5_additive_expressions_witness :
  let a := store_symbol (new_assembler true) "LABEL" 0x100 in
  resolve_value a "LABEL+2" = Ok 0x102
  /\ resolve_value a "LABEL-2" = Ok 0xFE
  /\ resolve_value a "LABEL-0x10" = Ok 0xF0
  /\ resolve_value a "10-3-2" = Ok 5.
Proof.
  intros a.
  assert (H1 : dict_get "LABEL" (symbols a) = Some 0x100) by (vm_compute; reflexivity).
  destruct C5_additive_expressions as (_ & _ & Hpair & Hlabel & Hleft & _).
  split; [|split; [|split]].
  - apply (proj1 (Hlabel a 0x100 H1)). vm_compute. reflexivity.
  - apply (proj2 (Hlabel a 0x100 H1)). vm_compute. reflexivity.
  - apply (proj2 (Hpair a "LABEL" "0x10" 0x100 0x10 eq_refl eq_refl
                    ltac:(vm_compute; reflexivity) ltac:(vm_compute; reflexivity))).
    vm_compute. reflexivity.
  - apply Hleft. vm_compute. reflexivity.
Defined.

(** A line whose mnemonic is in the table is handed by [pass_two] to
    [assemble_instruction], whose bytes or error are those of the line. *)
Lemma pass_two_line_instruction (a : Assembler) (raw_line mnemonic operand_str : string)
    (inst : Instruction) :
  mnemonic_of raw_line = Some (mnemonic, operand_str) ->
  dict_get mnemonic INSTRUCTION_SET = Some inst ->
  (forall e, assemble_instruction (next_line a) mnemonic inst operand_str = Raise e ->
             pass_two_line a raw_line = Raise e)
  /\ (forall a' bytes_out,
        pass_two_line a raw_line = Ok (a', bytes_out) ->
        assemble_instruction (next_line a) mnemonic inst operand_str = Ok bytes_out).
Proof.
  intros Hm Hget. destruct inst as [[opcode op_type] bits].
  destruct (table_lengths _ _ _ _ Hget) as (_ & _ & Hdir).
  unfold is_directive in Hdir. cbn [existsb] in Hdir.
  repeat (apply orb_false_iff in Hdir; destruct Hdir as [? Hdir]).
  unfold mnemonic_of in Hm.
  pose proof (pass_two_line_statement a raw_line) as Hp.
  destruct (statement_of raw_line) as [line|]; [|discriminate].
  destruct (match_equ_inline line) eqn:Hinl; [discriminate|].
  assert (Hs : split_statement line = (mnemonic, operand_str)) by congruence.
  rewrite Hp. unfold pass_two_statement. rewrite Hs, Hinl, Hget.
  repeat match goal with E : (mnemonic =? _)%string = false |- _ =>
                           rewrite E; clear E end.
  cbn [orb]. split.
  - intros e He. rewrite He. reflexivity.
  - intros a' bytes_out H. inv_bind H. injection H as _ <-. exact Hx.
Qed.

(** *** Encodings *)

(** A byte packed from two nibbles is not changed by the final [& 0xFF]. *)
Lemma nibbles_fit_a_byte (hi lo : Z) :
  Z.land (Z.lor (Z.shiftl (Z.land hi 0x0F) 4) (Z.land lo 0x0F)) 0xFF
  = Z.lor (Z.shiftl (Z.land hi 0x0F) 4) (Z.land lo 0x0F).
Proof.
  apply Z.bits_inj'. intros n Hn.
  rewrite Z.land_spec, !Z.lor_spec, Z.shiftl_spec, !Z.land_spec by lia.
  change 0xFF with (Z.ones 8). change 0x0F with (Z.ones 4).
  destruct (Z.lt_ge_cases n 8) as [Hlt|Hge].
  - rewrite (Z.ones_spec_low 8 n) by lia. apply andb_true_r.
  - rewrite (Z.ones_spec_high 8 n) by lia.
    rewrite (Z.ones_spec_high 4 n) by lia.
    rewrite (Z.ones_spec_high 4 (n - 4)) by lia.
    rewrite !andb_false_r. reflexivity.
Qed.

(** C6.  A FIM line takes 2 or 3 comma-separated operands, any other
    count being the malformed-operands error; when it assembles it emits
    exactly 2 bytes: opcode|(pairIndex&7), then the immediate masked to
    0xFF in the 2-operand form and (hi&0xF)<<4 | (lo&0xF) in the 3-operand
    form; these bytes, or the error, are what [pass_two] produces for the
    line.  [FIM R0R1, 0x1, 0x2] emits 0x20, 0x12. *)
Theorem C6_fim_encoding (a : Assembler) (operand_str : string) :
  dict_get "FIM" INSTRUCTION_SET = Some (0x20, REGISTER_PAIR, 4)
  /\ (forall parts,
      parts = map trim (PyStr.split "," operand_str) ->
      List.length parts <> 2%nat -> List.length parts <> 3%nat ->
      assemble_instruction a "FIM" (0x20, REGISTER_PAIR, 4) operand_str
      = Raise (FimOperands (line_number a)))
  /\ (forall bytes,
      assemble_instruction a "FIM" (0x20, REGISTER_PAIR, 4) operand_str = Ok bytes ->
      List.length bytes = 2%nat)
  /\ (forall rp data pair_index imm,
      map trim (PyStr.split "," operand_str) = [rp; data] ->
      resolve_register_pair a rp = Some pair_index ->
      resolve_value a data = Ok imm ->
      assemble_instruction a "FIM" (0x20, REGISTER_PAIR, 4) operand_str
      = Ok [Z.lor 0x20 (Z.land pair_index 0x07); Z.land imm 0xFF])
  /\ (forall rp hi_str lo_str pair_index hi lo,
      map trim (PyStr.split "," operand_str) = [rp; hi_str; lo_str] ->
      resolve_register_pair a rp = Some pair_index ->
      resolve_value a hi_str = Ok hi ->
      resolve_value a lo_str = Ok lo ->
      assemble_instruction a "FIM" (0x20, REGISTER_PAIR, 4) operand_str
      = Ok [Z.lor 0x20 (Z.land pair_index 0x07);
            Z.lor (Z.shiftl (Z.land hi 0x0F) 4) (Z.land lo 0x0F)])
  /\ (forall s raw_line,
      mnemonic_of raw_line = Some ("FIM", operand_str) ->
      (forall e,
          assemble_instruction (next_line s) "FIM" (0x20, REGISTER_PAIR, 4) operand_str
          = Raise e ->
          pass_two_line s raw_line = Raise e)
      /\ (forall s' bytes,
            pass_two_line s raw_line = Ok (s', bytes) ->
            assemble_instruction (next_line s) "FIM" (0x20, REGISTER_PAIR, 4) operand_str
            = Ok bytes))
  /\ assemble ["FIM R0R1, 0x1, 0x2" ++ lf] = Ok [0x20; 0x12].
Proof.
  assert (Hfim : dict_get "FIM" INSTRUCTION_SET = Some (0x20, REGISTER_PAIR, 4))
    by (vm_compute; reflexivity).
  split; [exact Hfim|].
  unfold assemble_instruction.
  replace ("FIM" =? "FIM")%string with true by reflexivity.
  split; [|split; [|split; [|split; [|split]]]].
  - intros parts -> H2 H3.
    destruct (map trim (PyStr.split "," operand_str)) as [|p0 [|p1 [|p2 [|p3 ps]]]];
      cbn in *; try reflexivity; congruence.
  - intros bytes H.
    destruct (negb _); [discriminate|].
    destruct (resolve_register_pair _ _); [|discriminate].
    inv_bind H. injection H as <-. reflexivity.
  - intros rp data pair_index imm -> Hp Hv.
    cbn [List.length Nat.leb Nat.eqb andb negb nth]. rewrite Hp, Hv. reflexivity.
  - intros rp hi_str lo_str pair_index hi lo -> Hp Hhi Hlo.
    cbn [List.length Nat.leb Nat.eqb andb negb nth]. rewrite Hp, Hhi, Hlo.
    cbn [bind]. rewrite nibbles_fit_a_byte. reflexivity.
  - intros s raw_line Hm.
    exact (pass_two_line_instruction s raw_line "FIM" operand_str _ Hm Hfim).
  - vm_compute. reflexivity.
Qed.

Lemma C6_fim_encoding_witness :
  let a := new_assembler true in
  map trim (PyStr.split "," "R0R1, 0x1, 0x2") = ["R0R1"; "0x1"; "0x2"]
  /\ resolve_register_pair a "R0R1" = Some 0
  /\ resolve_value a "0x1" = Ok 1
  /\ resolve_value a "0x2" = Ok 2
  /\ assemble_instruction a "FIM" (0x20, REGISTER_PAIR, 4) "R0R1, 0x1, 0x2"
     = Ok [Z.lor 0x20 (Z.land 0 0x07); Z.lor (Z.shiftl (Z.land 1 0x0F) 4) (Z.land 2 0x0F)].
Proof.
  intros a.
  assert (H0 : map trim (PyStr.split "," "R0R1, 0x1, 0x2") = ["R0R1"; "0x1"; "0x2"])
    by (vm_compute; reflexivity).
  assert (H1 : resolve_register_pair a "R0R1" = Some 0) by (vm_compute; reflexivity).
  assert (H2 : resolve_value a "0x1" = Ok 1) by (vm_compute; reflexivity).
  assert (H3 : resolve_value a "0x2" = Ok 2) by (vm_compute; reflexivity).
  split; [exact H0|]. split; [exact H1|]. split; [exact H2|]. split; [exact H3|].
  exact (proj1 (proj2 (proj2 (proj2 (proj2 (C6_fim_encoding a "R0R1, 0x1, 0x2")))))
           "R0R1" "0x1" "0x2" 0 1 2 H0 H1 H2 H3).
Defined.

(** *** ORG in the second pass *)

Lemma org_operand_is_org_line (raw_line operand_str : string) :
  org_operand raw_line = Some operand_str -> is_org_line raw_line = true.
Proof.
  unfold org_operand, is_org_line.
  destruct (statement_of raw_line) as [line|]; [|discriminate].
  destruct (split_statement line) as [mnemonic o]. cbn [fst].
  destruct (mnemonic =? "ORG")%string; [reflexivity | discriminate].
Qed.

Lemma pass_two_org (a : Assembler) (raw_line operand_str : string) (val : Z) :
  org_operand raw_line = Some operand_str ->
  resolve_value (next_line a) operand_str = Ok val ->
  exists a',
    pass_two_line a raw_line = Ok (a', [])
    /\ current_address a' = val
    /\ binary a' =
       (binary a ++ repeat 0 (Z.to_nat (val - Z.of_nat (List.length (binary a)))))%list.
Proof.
  unfold org_operand. intros Horg Hval.
  pose proof (pass_two_line_statement a raw_line) as Hs.
  destruct (statement_of raw_line) as [line|]; [|discriminate].
  destruct (split_statement line) as [mnemonic o] eqn:Hsplit.
  destruct (mnemonic =? "ORG")%string eqn:E; [|discriminate].
  injection Horg as ->.
  destruct (pass_two_statement (next_line a) raw_line line) as [[a' bytes_out]|e] eqn:Hp.
  - pose proof (pass_two_statement_effect _ _ _ _ _ Hp) as (_ & _ & _ & H).
    rewrite Hsplit, E in H. destruct H as (-> & Hr & Hb).
    assert (current_address a' = val) by congruence. subst val.
    exists a'. repeat split; auto.
  - exfalso. unfold pass_two_statement in Hp. rewrite Hsplit, E, Hval in Hp.
    cbn [bind] in Hp. discriminate.
Qed.

Lemma pass_two_loop_appends (lines : list string) :
  forall a a', pass_two_loop a lines = Ok a' ->
  exists suffix, binary a' = (binary a ++ suffix)%list.
Proof.
  induction lines as [|raw lines IH]; intros a a' H.
  - cbn in H. injection H as <-. exists []. now rewrite app_nil_r.
  - cbn [pass_two_loop] in H. inv_bind H. destruct x as [s bytes_out].
    destruct (pass_two_line_appends _ _ _ _ Hx) as (padding & Hb & _).
    destruct (IH _ _ H) as [suffix Hs].
    exists (repeat 0 padding ++ bytes_out ++ suffix)%list.
    rewrite Hs, Hb, <- !app_assoc. reflexivity.
Qed.

(** C7.  In [pass_two] an ORG whose address is beyond the end of the output
    buffer pads the buffer with zero bytes up to that address; the program
    [ORG 0x010] / [NOP] gives 17 bytes, all zero: 16 of padding at offsets
    0x00 to 0x0F, and the NOP at offset 0x10. *)
Theorem C7_org_pads_with_zeros :
  (forall a raw_line operand_str val,
      org_operand raw_line = Some operand_str ->
      resolve_value (next_line a) operand_str = Ok val ->
      Z.of_nat (List.length (binary a)) < val ->
      exists a',
        pass_two_line a raw_line = Ok (a', [])
        /\ binary a' =
           (binary a ++ repeat 0x00 (Z.to_nat (val - Z.of_nat (List.length (binary a)))))%list
        /\ Z.of_nat (List.length (binary a')) = val
        /\ current_address a' = val)
  /\ (exists image,
        assemble ["ORG 0x010" ++ lf; "NOP" ++ lf] = Ok image
        /\ List.length image = 17%nat
        /\ firstn 16 image = repeat 0x00 16
        /\ nth 0x10 image 0xFF = 0x00).
Proof.
  split.
  - intros a raw_line operand_str val Horg Hval Hlt.
    destruct (pass_two_org a raw_line operand_str val Horg Hval) as (a' & Hp & Hc & Hb).
    exists a'. repeat split; auto.
    rewrite Hb, length_app, repeat_length. lia.
  - eexists. split; [vm_compute; reflexivity|]. repeat split.
Qed.

Lemma C7_org_pads_with_zeros_witness :
  let a := new_assembler true in
  org_operand ("ORG 0x010" ++ lf) = Some "0x010"
  /\ resolve_value (next_line a) "0x010" = Ok 0x10
  /\ Z.of_nat (List.length (binary a)) < 0x10
  /\ exists a',
       pass_two_line a ("ORG 0x010" ++ lf) = Ok (a', [])
       /\ binary a' =
          (binary a ++ repeat 0x00 (Z.to_nat (0x10 - Z.of_nat (List.length (binary a)))))%list
       /\ Z.of_nat (List.length (binary a')) = 0x10
       /\ current_address a' = 0x10.
Proof.
  intros a.
  assert (H1 : org_operand ("ORG 0x010" ++ lf) = Some "0x010") by (vm_compute; reflexivity).
  assert (H2 : resolve_value (next_line a) "0x010" = Ok 0x10) by (vm_compute; reflexivity).
  assert (H3 : Z.of_nat (List.length (binary a)) < 0x10) by (vm_compute; reflexivity).
  split; [exact H1|]. split; [exact H2|]. split; [exact H3|].
  exact (proj1 C7_org_pads_with_zeros a ("ORG 0x010" ++ lf) "0x010" 0x10 H1 H2 H3).
Defined.

(** C9.  [pass_two] only ever appends to the output buffer.  A line leaves
    the old buffer as a prefix of the new one, followed by zero padding
    (only for an ORG) and by the bytes of the line, which therefore start at
    the old end of the buffer; over any number of lines the old buffer stays
    a prefix, so its length never decreases.  An ORG to an address below
    the buffer length changes nothing but the cursor, and the bytes of the
    next line land at the old end of the buffer, beyond the address the
    cursor gives them. *)
Theorem C9_buffer_is_append_only :
  (forall a a' raw_line bytes_out,
      pass_two_line a raw_line = Ok (a', bytes_out) ->
      exists padding : nat,
        binary a' = (binary a ++ repeat 0 padding ++ bytes_out)%list
        /\ (is_org_line raw_line = false -> padding = O)
        /\ (is_org_line raw_line = true -> bytes_out = []))
  /\ (forall a a' lines,
      pass_two_loop a lines = Ok a' ->
      (exists suffix, binary a' = (binary a ++ suffix)%list)
      /\ (List.length (binary a) <= List.length (binary a'))%nat)
  /\ (forall a raw_line operand_str val,
      org_operand raw_line = Some operand_str ->
      resolve_value (next_line a) operand_str = Ok val ->
      val < Z.of_nat (List.length (binary a)) ->
      exists a1,
        pass_two_line a raw_line = Ok (a1, [])
        /\ binary a1 = binary a
        /\ current_address a1 = val
        /\ forall next_raw a2 bytes_out,
             is_org_line next_raw = false ->
             pass_two_line a1 next_raw = Ok (a2, bytes_out) ->
             binary a2 = (binary a ++ bytes_out)%list
             /\ current_address a1 < Z.of_nat (List.length (binary a)))
  /\ (exists a1 a2,
        pass_one (new_assembler true) ["NOP"; "NOP"; "ORG 0"; "LDM 5"] = Ok a1
        /\ pass_two a1 ["NOP"; "NOP"; "ORG 0"; "LDM 5"] = Ok a2
        /\ binary a2 = [0x00; 0x00; 0xD5]
        /\ nth 3 (listing a2) (LstBlank 0 "") = LstCode 4 0 [0xD5] "LDM 5").
Proof.
  split; [exact pass_two_line_appends|]. split; [|split].
  - intros a a' lines H. destruct (pass_two_loop_appends _ _ _ H) as [suffix Hs].
    split; [eauto|]. rewrite Hs, length_app. lia.
  - intros a raw_line operand_str val Horg Hval Hlt.
    destruct (pass_two_org a raw_line operand_str val Horg Hval) as (a1 & Hp & Hc & Hb).
    replace (Z.to_nat (val - Z.of_nat (List.length (binary a)))) with O in Hb by lia.
    cbn [repeat] in Hb. rewrite app_nil_r in Hb.
    exists a1. repeat split; auto.
    + destruct (pass_two_line_cursor _ _ _ _ H0 H) as [_ Hb2]. congruence.
    + lia.
  - eexists. eexists.
    split; [vm_compute; reflexivity|].
    split; [vm_compute; reflexivity|].
    split; vm_compute; reflexivity.
Qed.

Lemma C9_buffer_is_append_only_witness :
  let a := set_binary (new_assembler true) [0x00; 0x00] in
  org_operand "ORG 0" = Some "0"
  /\ resolve_value (next_line a) "0" = Ok 0
  /\ 0 < Z.of_nat (List.length (binary a))
  /\ exists a1,
       pass_two_line a "ORG 0" = Ok (a1, [])
       /\ binary a1 = binary a
       /\ current_address a1 = 0
       /\ forall next_raw a2 bytes_out,
            is_org_line next_raw = false ->
            pass_two_line a1 next_raw = Ok (a2, bytes_out) ->
            binary a2 = (binary a ++ bytes_out)%list
            /\ current_address a1 < Z.of_nat (List.length (binary a)).
Proof.
  intros a.
  assert (H1 : org_operand "ORG 0" = Some "0") by (vm_compute; reflexivity).
  assert (H2 : resolve_value (next_line a) "0" = Ok 0) by (vm_compute; reflexivity).
  assert (H3 : 0 < Z.of_nat (List.length (binary a))) by (vm_compute; reflexivity).
  split; [exact H1|]. split; [exact H2|]. split; [exact H3|].
  exact (proj1 (proj2 (proj2 C9_buffer_is_append_only)) a "ORG 0" "0" 0 H1 H2 H3).
Defined.

(** *** Where the second pass starts *)

(** Resolution looks at the symbol table only (and at the line number for
    its error message). *)
Lemma resolve_simple_value_symbols (a b : Assembler) (token : string) :
  symbols a = symbols b ->
  resolve_simple_value a token = resolve_simple_value b token.
Proof. intros H. unfold resolve_simple_value. rewrite H. reflexivity. Qed.

Lemma evaluate_loop_symbols (a b : Assembler) (expr : string) :
  symbols a = symbols b ->
  forall total term sign seen_term,
    evaluate_loop a expr total term sign seen_term
    = evaluate_loop b expr total term sign seen_term.
Proof.
  intros H. induction expr as [|ch rest IH]; intros total term sign seen_term;
    cbn [evaluate_loop]; rewrite (resolve_simple_value_symbols a b term H).
  - reflexivity.
  - destruct (is_operator ch); [|apply IH].
    destruct (negb (PyStr.is_empty term)); [|apply IH].
    destruct (resolve_simple_value b term); [apply IH | reflexivity].
Qed.

Lemma resolve_value_symbols (a b : Assembler) (s : string) :
  symbols a = symbols b -> line_number a = line_number b ->
  resolve_value a s = resolve_value b s.
Proof.
  intros Hs Hl. unfold resolve_value, evaluate_expression.
  rewrite (resolve_simple_value_symbols a b _ Hs), Hl.
  destruct (PyStr.is_empty (trim s)); [reflexivity|].
  destruct (resolve_simple_value b (trim s)); [reflexivity|].
  destruct (_ || _); [reflexivity|].
  rewrite (evaluate_loop_symbols a b _ Hs). reflexivity.
Qed.

(** The origin [pass_one] leaves is the operand of the last ORG it read. *)
Lemma pass_one_loop_last_origin (a a1 : Assembler) (pre post : list string)
    (raw_line : string) :
  pass_one_loop a (pre ++ raw_line :: post) = Ok a1 ->
  sets_origin raw_line = true ->
  Forall (fun l => sets_origin l = false) post ->
  exists s operand_str,
    pass_one_loop a pre = Ok s
    /\ mnemonic_of raw_line = Some ("ORG", operand_str)
    /\ resolve_value (after_label s raw_line) operand_str = Ok (org_address a1).
Proof.
  intros H Hso Hpost. rewrite pass_one_loop_app in H. inv_bind H.
  cbn [pass_one_loop] in H. inv_bind H.
  destruct (pass_one_line_origin _ _ _ Hx0 Hso) as (Ho & _ & operand_str & Hm & Hr).
  rewrite (pass_one_loop_keeps_origin _ Hpost _ _ H), Ho.
  eauto.
Qed.

(** C8, as amended.  [pass_two] starts its cursor at [org_address], which
    [pass_one] leaves at the operand of the last ORG it read, and at 0 in a
    fresh assembler when it read none.  A line with no ORG before it is
    therefore given by [pass_two] its address of [pass_one] plus that
    value: the two addresses differ exactly when the value is not 0.  An
    ORG sets the cursor of [pass_two] to its operand whatever the cursor
    was, so the lines after it do not depend on the starting value.  The
    NOP of [NOP] / [ORG 0x10] is at 0 in Pass 1 and at 0x10 in Pass 2. *)
Theorem C8_second_pass_origin :
  (forall a, current_address (pass_two_init a) = org_address a)
  /\ (forall v lines a1,
      pass_one (new_assembler v) lines = Ok a1 ->
      Forall (fun l => sets_origin l = false) lines ->
      org_address a1 = 0)
  /\ (forall a pre raw_line post a1,
      pass_one a (pre ++ raw_line :: post) = Ok a1 ->
      sets_origin raw_line = true ->
      Forall (fun l => sets_origin l = false) post ->
      exists s operand_str,
        pass_one a pre = Ok s
        /\ mnemonic_of raw_line = Some ("ORG", operand_str)
        /\ resolve_value (after_label s raw_line) operand_str = Ok (org_address a1))
  /\ (forall a pre post a1 s1 s2,
      pass_one a (pre ++ post) = Ok a1 ->
      Forall (fun l => is_org_line l = false) pre ->
      pass_one a pre = Ok s1 ->
      pass_two a1 pre = Ok s2 ->
      current_address s2 = current_address s1 + org_address a1
      /\ (current_address s2 <> current_address s1 <-> org_address a1 <> 0))
  /\ (forall a b raw_line operand_str val,
      org_operand raw_line = Some operand_str ->
      symbols a = symbols b -> line_number a = line_number b ->
      resolve_value (next_line a) operand_str = Ok val ->
      exists a' b',
        pass_two_line a raw_line = Ok (a', [])
        /\ pass_two_line b raw_line = Ok (b', [])
        /\ current_address a' = val /\ current_address b' = val)
  /\ (exists a1 a2,
        pass_one (new_assembler true) ["NOP"; "ORG 0x10"] = Ok a1
        /\ org_address a1 = 0x10
        /\ pass_two a1 ["NOP"; "ORG 0x10"] = Ok a2
        /\ nth 0 (listing a2) (LstBlank 0 "") = LstCode 1 0x10 [0x00] "NOP").
Proof.
  split; [reflexivity|]. split; [|split; [|split; [|split]]].
  - intros v lines a1 H Hall. unfold pass_one in H.
    rewrite (pass_one_loop_keeps_origin _ Hall _ _ H). reflexivity.
  - intros a pre raw_line post a1 H Hso Hpost. unfold pass_one in *.
    eapply pass_one_loop_last_origin; eauto.
  - intros a pre post a1 s1 s2 H Hpre H1 H2.
    unfold pass_one in H1. unfold pass_two in H2.
    pose proof (cursors_in_step pre Hpre _ _ _ _ H1 H2) as Hstep.
    change (current_address (pass_two_init a1)) with (org_address a1) in Hstep.
    change (current_address
              (set_last_label (set_current_address (set_line_number a 0) 0) None))
      with 0 in Hstep.
    assert (Hc : current_address s2 = current_address s1 + org_address a1) by lia.
    split; [exact Hc | lia].
  - intros a b raw_line operand_str val Horg Hs Hl Hval.
    assert (Hval' : resolve_value (next_line b) operand_str = Ok val).
    { rewrite <- Hval. symmetry. apply resolve_value_symbols; [exact Hs|].
      unfold next_line. fields. now rewrite Hl. }
    destruct (pass_two_org a raw_line operand_str val Horg Hval) as (a' & Ha & Hca & _).
    destruct (pass_two_org b raw_line operand_str val Horg Hval') as (b' & Hb & Hcb & _).
    exists a', b'. auto.
  - eexists. eexists.
    split; [vm_compute; reflexivity|].
    split; [vm_compute; reflexivity|].
    split; vm_compute; reflexivity.
Qed.

Lemma C8_second_pass_origin_witness :
  exists a1 s1 s2,
    pass_one (new_assembler true) (["NOP"] ++ ["ORG 0x10"]) = Ok a1
    /\ Forall (fun l => is_org_line l = false) ["NOP"]
    /\ pass_one (new_assembler true) ["NOP"] = Ok s1
    /\ pass_two a1 ["NOP"] = Ok s2
    /\ current_address s2 = current_address s1 + org_address a1
    /\ (current_address s2 <> current_address s1 <-> org_address a1 <> 0).
Proof.
  assert (H : exists a1, pass_one (new_assembler true) (["NOP"] ++ ["ORG 0x10"]) = Ok a1)
    by (vm_compute; eauto).
  destruct H as [a1 H].
  assert (Hpre : Forall (fun l => is_org_line l = false) ["NOP"])
    by (constructor; [vm_compute; reflexivity | constructor]).
  assert (H1 : exists s1, pass_one (new_assembler true) ["NOP"] = Ok s1)
    by (vm_compute; eauto).
  destruct H1 as [s1 H1].
  assert (H2 : exists s2, pass_two a1 ["NOP"] = Ok s2).
  { vm_compute in H. injection H as <-. vm_compute. eauto. }
  destruct H2 as [s2 H2].
  exists a1, s1, s2.
  split; [exact H|]. split; [exact Hpre|]. split; [exact H1|]. split; [exact H2|].
  exact (proj1 (proj2 (proj2 (proj2 C8_second_pass_origin)))
           (new_assembler true) ["NOP"] ["ORG 0x10"] a1 s1 s2 H Hpre H1 H2).
Defined.

(** C8 as stated fails.  In [NOP] / [ORG 0] a code-emitting line comes
    before the first ORG, and in [ORG 0x10] / [ORG 0x20] / [NOP] two ORGs
    come before the first code; in both files [pass_two] gives the NOP the
    address [pass_one] gave it (0, and 0x20). *)
Lemma C8_same_addresses_counterexample :
  (is_org_line "NOP" = false /\ spec_line_size "NOP" = 1 /\ sets_origin "ORG 0" = true
   /\ exists s1 a1 a2,
        pass_one (new_assembler true) [] = Ok s1
        /\ current_address s1 = 0
        /\ pass_one (new_assembler true) ["NOP"; "ORG 0"] = Ok a1
        /\ pass_two a1 ["NOP"; "ORG 0"] = Ok a2
        /\ nth 0 (listing a2) (LstBlank 0 "") = LstCode 1 0 [0x00] "NOP")
  /\ (exists s1 a1 a2,
        pass_one (new_assembler true) ["ORG 0x10"; "ORG 0x20"] = Ok s1
        /\ current_address s1 = 0x20
        /\ pass_one (new_assembler true) ["ORG 0x10"; "ORG 0x20"; "NOP"] = Ok a1
        /\ pass_two a1 ["ORG 0x10"; "ORG 0x20"; "NOP"] = Ok a2
        /\ nth 2 (listing a2) (LstBlank 0 "") = LstCode 3 0x20 [0x00] "NOP").
Proof.
  split.
  - split; [vm_compute; reflexivity|]. split; [vm_compute; reflexivity|].
    split; [vm_compute; reflexivity|].
    eexists. eexists. eexists.
    split; [vm_compute; reflexivity|]. split; [vm_compute; reflexivity|].
    split; [vm_compute; reflexivity|]. split; vm_compute; reflexivity.
  - eexists. eexists. eexists.
    split; [vm_compute; reflexivity|]. split; [vm_compute; reflexivity|].
    split; [vm_compute; reflexivity|]. split; vm_compute; reflexivity.
Qed.

(** *** Registers and register pairs *)

(** C10.  Where a register is expected, a literal Rn is that register, and
    a token that is no such literal but a defined symbol with a value in
    0..15 is accepted as the register of that value.  Where a register
    pair is expected, the compound literal is its pair, and a token that is
    no compound literal but resolves as a register of value v is accepted
    with pair index v/2 when v is even and rejected when v is odd. *)
Theorem C10_registers_by_symbol (a : Assembler) (token : string) :
  (forall n, parse_register token = Some n ->
             resolve_register a token = Some n /\ 0 <= n <= 15)
  /\ (forall value,
      parse_register token = None ->
      dict_get (normalize_symbol token) (symbols a) = Some value ->
      0 <= value <= 15 ->
      resolve_register a token = Some value)
  /\ (forall p, parse_register_pair token = Some p ->
                resolve_register_pair a token = Some p)
  /\ (forall value,
      parse_register_pair token = None ->
      resolve_register a token = Some value ->
      (0 <= value <= 15)
      /\ (value mod 2 = 0 -> resolve_register_pair a token = Some (value / 2))
      /\ (value mod 2 = 1 -> resolve_register_pair a token = None))
  /\ (parse_register_pair token = None ->
      resolve_register a token = None ->
      resolve_register_pair a token = None).
Proof.
  unfold resolve_register_pair, resolve_register.
  split; [|split; [|split; [|split]]].
  - intros n Hn. rewrite Hn. split; [reflexivity|].
    unfold parse_register in Hn.
    destruct (PyStr.startswith _ _); [|discriminate].
    destruct (parse_number _) as [val|]; [|discriminate].
    destruct ((0 <=? val) && (val <=? 15)) eqn:E; [|discriminate].
    injection Hn as <-. apply andb_true_iff in E. lia.
  - intros value Hn Hget Hrange. rewrite Hn, Hget.
    replace ((0 <=? value) && (value <=? 15)) with true; [reflexivity|].
    symmetry. apply andb_true_iff. lia.
  - intros p Hp. rewrite Hp. reflexivity.
  - intros value Hp Hreg. rewrite Hp, Hreg.
    assert (Hrange : 0 <= value <= 15).
    { destruct (parse_register token) as [n|] eqn:Hn.
      - injection Hreg as <-. unfold parse_register in Hn.
        destruct (PyStr.startswith _ _); [|discriminate].
        destruct (parse_number _) as [val|]; [|discriminate].
        destruct ((0 <=? val) && (val <=? 15)) eqn:E; [|discriminate].
        injection Hn as <-. apply andb_true_iff in E. lia.
      - destruct (dict_get _ _) as [val|]; [|discriminate].
        destruct ((0 <=? val) && (val <=? 15)) eqn:E; [|discriminate].
        injection Hreg as <-. apply andb_true_iff in E. lia. }
    split; [exact Hrange|]. split; intros Hmod; rewrite Hmod; reflexivity.
  - intros Hp Hreg. rewrite Hp, Hreg. reflexivity.
Qed.

Lemma C10_registers_by_symbol_witness :
  let a := store_symbol (new_assembler true) "ACC" 6 in
  parse_register "acc" = None
  /\ dict_get (normalize_symbol "acc") (symbols a) = Some 6
  /\ resolve_register a "acc" = Some 6
  /\ parse_register_pair "acc" = None
  /\ resolve_register_pair a "acc" = Some (6 / 2).
Proof.
  intros a.
  assert (H1 : parse_register "acc" = None) by (vm_compute; reflexivity).
  assert (H2 : dict_get (normalize_symbol "acc") (symbols a) = Some 6)
    by (vm_compute; reflexivity).
  assert (H3 : 0 <= 6 <= 15) by lia.
  assert (H4 : parse_register_pair "acc" = None) by (vm_compute; reflexivity).
  assert (H5 : 6 mod 2 = 0) by reflexivity.
  pose proof (proj1 (proj2 (C10_registers_by_symbol a "acc")) 6 H1 H2 H3) as Hreg.
  split; [exact H1|]. split; [exact H2|]. split; [exact Hreg|]. split; [exact H4|].
  exact (proj1 (proj2 (proj1 (proj2 (proj2 (proj2 (C10_registers_by_symbol a "acc"))))
                         6 H4 Hreg)) H5).
Defined.

(* ------------------------------------------------------------------ *)
(** ** Further properties of the assembler *)

(** *** Bytes *)

Lemma land_0xFF_is_byte (v : Z) : is_byte (Z.land v 0xFF).
Proof.
  unfold is_byte. change 0xFF with (Z.ones 8). rewrite Z.land_ones by lia.
  apply Z.mod_pos_bound. lia.
Qed.

Lemma is_byte_land (b : Z) : is_byte b <-> Z.land b 0xFF = b.
Proof.
  unfold is_byte. change 0xFF with (Z.ones 8). rewrite Z.land_ones by lia.
  change (2 ^ 8) with 256. split.
  - intros H. apply Z.mod_small. exact H.
  - intros H. rewrite <- H. apply Z.mod_pos_bound. lia.
Qed.

Lemma lor_low_bits_is_byte (opcode v mask : Z) :
  is_byte opcode -> Z.land mask 0xFF = mask -> is_byte (Z.lor opcode (Z.land v mask)).
Proof.
  intros Ho Hm. apply is_byte_land. apply is_byte_land in Ho.
  rewrite Z.land_lor_distr_l, Ho, <- Z.land_assoc, Hm. reflexivity.
Qed.

Lemma table_opcodes_are_bytes (mnemonic : string) (opcode : Z)
    (op_type : OperandType) (bits : Z) :
  dict_get mnemonic INSTRUCTION_SET = Some (opcode, op_type, bits) ->
  is_byte opcode.
Proof.
  intros Hget.
  pose (P := fun (m : string) (i : Instruction) =>
               let '(opc, _, _) := i in (0 <=? opc) && (opc <? 256)).
  assert (H : P mnemonic (opcode, op_type, bits) = true).
  { apply (dict_get_forallb P INSTRUCTION_SET); [vm_compute; reflexivity | exact Hget]. }
  unfold P in H. apply andb_true_iff in H. unfold is_byte. lia.
Qed.

Lemma data_bytes_are_bytes (a : Assembler) (fields : list string) (bytes : list Z) :
  data_bytes a fields = Ok bytes -> Forall is_byte bytes.
Proof.
  revert bytes. induction fields as [|f fields IH]; cbn [data_bytes]; intros bytes H.
  - injection H as <-. constructor.
  - inv_bind H. inv_bind H. injection H as <-.
    constructor; [apply land_0xFF_is_byte | eauto].
Qed.

Lemma data_words_are_bytes (a : Assembler) (fields : list string) (bytes : list Z) :
  data_words a fields = Ok bytes -> Forall is_byte bytes.
Proof.
  revert bytes. induction fields as [|f fields IH]; cbn [data_words]; intros bytes H.
  - injection H as <-. constructor.
  - inv_bind H. inv_bind H. injection H as <-.
    repeat apply Forall_cons; try apply land_0xFF_is_byte. eauto.
Qed.

Lemma assemble_instruction_bytes (a : Assembler) (mnemonic : string)
    (opcode : Z) (op_type : OperandType) (bits : Z) (operand_str : string)
    (bytes : list Z) :
  is_byte opcode ->
  assemble_instruction a mnemonic (opcode, op_type, bits) operand_str = Ok bytes ->
  Forall is_byte bytes.
Proof.
  intros Ho. unfold assemble_instruction.
  assert (H15 : forall v, is_byte (Z.lor opcode (Z.land v 0x0F)))
    by (intros v; apply lor_low_bits_is_byte; [exact Ho | reflexivity]).
  assert (H7 : forall v, is_byte (Z.lor opcode (Z.land v 0x07)))
    by (intros v; apply lor_low_bits_is_byte; [exact Ho | reflexivity]).
  destruct op_type; intros H.
  - injection H as <-. repeat first [apply Forall_cons | apply Forall_nil]. exact Ho.
  - destruct (mnemonic =? "ISZ")%string.
    + destruct (negb _); [discriminate|].
      destruct (resolve_register _ _); [|discriminate].
      inv_bind H. injection H as <-.
      repeat first [apply Forall_cons | apply Forall_nil]; [apply H15 | apply land_0xFF_is_byte].
    + destruct (resolve_register _ _); [|discriminate].
      injection H as <-. repeat first [apply Forall_cons | apply Forall_nil]. apply H15.
  - destruct (mnemonic =? "FIM")%string.
    + destruct (negb _); [discriminate|].
      destruct (resolve_register_pair _ _); [|discriminate].
      inv_bind H. injection H as <-.
      repeat first [apply Forall_cons | apply Forall_nil]; [apply H7 | apply land_0xFF_is_byte].
    + destruct (resolve_register_pair _ _); [|discriminate].
      injection H as <-. repeat first [apply Forall_cons | apply Forall_nil]. apply H7.
  - inv_bind H. injection H as <-. repeat first [apply Forall_cons | apply Forall_nil]. apply H15.
  - inv_bind H. injection H as <-.
    repeat first [apply Forall_cons | apply Forall_nil]; [apply H15 | apply land_0xFF_is_byte].
  - destruct (negb _); [discriminate|].
    inv_bind H. inv_bind H. injection H as <-.
    repeat first [apply Forall_cons | apply Forall_nil]; [apply H15 | apply land_0xFF_is_byte].
  - injection H as <-. constructor.
Qed.

Lemma pass_two_line_emits_bytes (a a' : Assembler) (raw_line : string)
    (bytes_out : list Z) :
  pass_two_line a raw_line = Ok (a', bytes_out) -> Forall is_byte bytes_out.
Proof.
  intros H. pose proof (pass_two_line_statement a raw_line) as Hs.
  destruct (statement_of raw_line) as [line|].
  - rewrite Hs in H. unfold pass_two_statement in H.
    destruct (split_statement line) as [mnemonic operand_str].
    destruct (mnemonic =? "ORG")%string.
    { inv_bind H. injection H as _ <-. constructor. }
    destruct (mnemonic =? "EQU")%string.
    { injection H as _ <-. constructor. }
    destruct (match_equ_inline line).
    { injection H as _ <-. constructor. }
    inv_bind H. injection H as _ <-.
    destruct ((mnemonic =? "DB")%string || (mnemonic =? "BYTE")%string).
    { eapply data_bytes_are_bytes; eauto. }
    destruct ((mnemonic =? "DW")%string || (mnemonic =? "WORD")%string).
    { eapply data_words_are_bytes; eauto. }
    destruct (dict_get mnemonic INSTRUCTION_SET) as [[[opcode op_type] bits]|] eqn:Hget;
      [|discriminate].
    eapply assemble_instruction_bytes; eauto.
    eapply table_opcodes_are_bytes; eauto.
  - destruct Hs as [l Hs]. rewrite Hs in H. injection H as _ <-. constructor.
Qed.

Lemma pass_two_loop_bytes (lines : list string) :
  forall a a', Forall is_byte (binary a) ->
               pass_two_loop a lines = Ok a' -> Forall is_byte (binary a').
Proof.
  induction lines as [|raw lines IH]; intros a a' Ha H.
  - cbn in H. injection H as <-. exact Ha.
  - cbn [pass_two_loop] in H. inv_bind H. destruct x as [s bytes_out].
    apply (IH s a'); [|exact H].
    destruct (pass_two_line_appends _ _ _ _ Hx) as (padding & Hb & _).
    rewrite Hb. apply Forall_app. split; [exact Ha|].
    apply Forall_app. split.
    + apply Forall_forall. intros b Hin. apply repeat_spec in Hin. subst b.
      unfold is_byte. lia.
    + eapply pass_two_line_emits_bytes; eauto.
Qed.

(** X1.  Every value [pass_two] puts in the output buffer is a byte, 0 to
    255: the bytes of each line, and so the whole image of a pass that
    succeeds.  No [bytearray.append] of the assembler can fail. *)
Theorem X1_image_holds_bytes (a a' : Assembler) (lines : list string) :
  pass_two a lines = Ok a' ->
  Forall is_byte (binary a')
  /\ forall s s' raw_line bytes_out,
       pass_two_line s raw_line = Ok (s', bytes_out) -> Forall is_byte bytes_out.
Proof.
  intros H. split.
  - unfold pass_two in H. eapply pass_two_loop_bytes; [|exact H]. constructor.
  - intros s s' raw_line bytes_out. apply pass_two_line_emits_bytes.
Qed.

Lemma X1_image_holds_bytes_witness :
  exists a',
    pass_two (new_assembler true) ["DW 0x12345, -1"; "LDM 300"; "JUN 0xFFFFF"] = Ok a'
    /\ binary a' = [0x45; 0x23; 0xFF; 0xFF; 0xDC; 0x4F; 0xFF]
    /\ Forall is_byte (binary a').
Proof.
  assert (H : exists a', pass_two (new_assembler true)
                           ["DW 0x12345, -1"; "LDM 300"; "JUN 0xFFFFF"] = Ok a')
    by (vm_compute; eauto).
  destruct H as [a' H]. exists a'. split; [exact H|]. split.
  - vm_compute in H. injection H as <-. reflexivity.
  - exact (proj1 (X1_image_holds_bytes _ _ _ H)).
Defined.

(** *** What each pass keeps *)

Lemma pass_two_line_listing (a a' : Assembler) (raw_line : string) (bytes_out : list Z) :
  pass_two_line a raw_line = Ok (a', bytes_out) ->
  (exists l, listing a' = (listing a ++ [l])%list)
  /\ verbose a' = verbose a /\ warnings a' = warnings a
  /\ last_label a' = last_label a.
Proof.
  intros H. pose proof (pass_two_line_statement a raw_line) as Hs.
  destruct (statement_of raw_line) as [line|].
  - rewrite Hs in H. unfold pass_two_statement in H.
    destruct (split_statement line) as [mnemonic operand_str].
    destruct (mnemonic =? "ORG")%string.
    { inv_bind H. revert H. fields.
      destruct (Z.of_nat (List.length (binary a)) <? x); intros H;
        injection H as <- _; fields; eauto 6. }
    destruct (mnemonic =? "EQU")%string.
    { injection H as <- _. fields. eauto 6. }
    destruct (match_equ_inline line).
    { injection H as <- _. fields. eauto 6. }
    inv_bind H. injection H as <- _. fields. eauto 6.
  - destruct Hs as [l Hs]. rewrite Hs in H. injection H as <- _. fields. eauto 6.
Qed.

Lemma pass_two_loop_keeps (lines : list string) :
  forall a a', pass_two_loop a lines = Ok a' ->
    symbols a' = symbols a /\ org_address a' = org_address a
    /\ verbose a' = verbose a /\ warnings a' = warnings a
    /\ last_label a' = last_label a
    /\ line_number a' = line_number a + Z.of_nat (List.length lines)
    /\ List.length (listing a') = (List.length (listing a) + List.length lines)%nat.
Proof.
  induction lines as [|raw lines IH]; intros a a' H.
  - cbn in H. injection H as <-. cbn [List.length Z.of_nat].
    repeat split; auto; lia.
  - cbn [pass_two_loop] in H. inv_bind H. destruct x as [s bytes_out].
    destruct (pass_two_line_keeps _ _ _ _ Hx) as (Hs & Ho & Hn).
    destruct (pass_two_line_listing _ _ _ _ Hx) as ([l Hl] & Hv & Hw & Hlab).
    destruct (IH _ _ H) as (Is & Io & Iv & Iw & Ilab & In' & Il).
    cbn [List.length]. rewrite Hl, length_app in Il. cbn [List.length] in Il.
    repeat split; try congruence; lia.
Qed.

(** X2.  [pass_two] reads the symbol table and the origin without ever
    changing them, nor the verbosity, the warnings or the last label; it
    restarts the listing and leaves in it exactly one entry per source line,
    its line counter ending at the number of lines. *)
Theorem X2_pass_two_is_read_only (a a' : Assembler) (lines : list string) :
  pass_two a lines = Ok a' ->
  symbols a' = symbols a /\ org_address a' = org_address a
  /\ verbose a' = verbose a /\ warnings a' = warnings a
  /\ last_label a' = last_label a
  /\ line_number a' = Z.of_nat (List.length lines)
  /\ List.length (listing a') = List.length lines.
Proof.
  unfold pass_two. intros H.
  destruct (pass_two_loop_keeps _ _ _ H) as (Hs & Ho & Hv & Hw & Hl & Hn & Hlen).
  revert Hs Ho Hv Hw Hl Hn Hlen. unfold pass_two_init. fields.
  cbn [List.length Nat.add Z.add]. auto 10.
Qed.

Lemma X2_pass_two_is_read_only_witness :
  let a := store_symbol (new_assembler true) "X" 5 in
  exists a',
    pass_two a ["; data"; "T: DB X, X+1"; ""] = Ok a'
    /\ symbols a' = [("X", 5)]
    /\ List.length (listing a') = 3%nat.
Proof.
  intros a.
  assert (H : exists a', pass_two a ["; data"; "T: DB X, X+1"; ""] = Ok a')
    by (vm_compute; eauto).
  destruct H as [a' H]. exists a'. split; [exact H|].
  destruct (X2_pass_two_is_read_only a a' _ H) as (Hs & _ & _ & _ & _ & _ & Hl).
  split; [rewrite Hs; reflexivity | exact Hl].
Defined.

(** *** Layout of a file without ORG *)

Lemma pass_two_loop_length (lines : list string) :
  Forall (fun l => is_org_line l = false) lines ->
  forall s s', pass_two_loop s lines = Ok s' ->
    Z.of_nat (List.length (binary s')) - Z.of_nat (List.length (binary s))
    = current_address s' - current_address s.
Proof.
  induction 1 as [|raw lines Hraw Hall IH]; intros s s' H.
  - cbn in H. injection H as <-. lia.
  - cbn [pass_two_loop] in H. inv_bind H. destruct x as [t bytes_out].
    destruct (pass_two_line_cursor _ _ _ _ Hx Hraw) as [Hc Hb].
    specialize (IH _ _ H). rewrite Hb, length_app in IH. lia.
Qed.

Lemma Forall_not_origin (lines : list string) :
  Forall (fun l => is_org_line l = false) lines ->
  Forall (fun l => sets_origin l = false) lines.
Proof.
  intros H. eapply Forall_impl; [|exact H].
  intros l. apply not_org_line_not_origin.
Qed.

(** X3.  In a file without ORG, assembled by a fresh assembler, addresses
    are offsets in the image: the address [pass_one] has reached after any
    leading part of the file, which is the value of a label declared
    there, is the number of bytes [pass_two] has written for that part; in
    particular the image is as long as the final address of [pass_one]. *)
Theorem X3_addresses_are_offsets (v : bool) (pre post : list string)
    (a1 s1 s2 : Assembler) :
  Forall (fun l => is_org_line l = false) (pre ++ post) ->
  pass_one (new_assembler v) (pre ++ post) = Ok a1 ->
  pass_one (new_assembler v) pre = Ok s1 ->
  pass_two a1 pre = Ok s2 ->
  current_address s1 = Z.of_nat (List.length (binary s2))
  /\ current_address s2 = current_address s1.
Proof.
  intros Hall H Hs1 Hs2.
  apply Forall_app in Hall. destruct Hall as [Hpre Hpost].
  assert (Ho : org_address a1 = 0).
  { unfold pass_one in H.
    rewrite (pass_one_loop_keeps_origin (pre ++ post)
               (Forall_not_origin _ (proj2 (Forall_app _ _ _) (conj Hpre Hpost))) _ _ H).
    reflexivity. }
  unfold pass_one in Hs1. unfold pass_two in Hs2.
  pose proof (cursors_in_step pre Hpre _ _ _ _ Hs1 Hs2) as Hstep.
  pose proof (pass_two_loop_length pre Hpre _ _ Hs2) as Hlen.
  change (current_address (pass_two_init a1)) with (org_address a1) in *.
  change (binary (pass_two_init a1)) with (@nil Z) in Hlen.
  change (current_address
            (set_last_label (set_current_address (set_line_number (new_assembler v) 0) 0) None))
    with 0 in Hstep.
  cbn [List.length Z.of_nat] in Hlen. lia.
Qed.

Lemma X3_addresses_are_offsets_witness :
  let pre := ["START: LDM 5"; "TABLE: DW 1, 2"; "JUN NEXT"] in
  let post := ["NEXT: NOP"] in
  exists a1 s1 s2,
    pass_one (new_assembler true) (pre ++ post) = Ok a1
    /\ pass_one (new_assembler true) pre = Ok s1
    /\ pass_two a1 pre = Ok s2
    /\ dict_get "NEXT" (symbols a1) = Some 7
    /\ current_address s1 = 7
    /\ Z.of_nat (List.length (binary s2)) = 7.
Proof.
  intros pre post.
  assert (Hall : Forall (fun l => is_org_line l = false) (pre ++ post))
    by (repeat constructor).
  assert (H : exists a1, pass_one (new_assembler true) (pre ++ post) = Ok a1)
    by (vm_compute; eauto).
  destruct H as [a1 H].
  assert (H1 : exists s1, pass_one (new_assembler true) pre = Ok s1)
    by (vm_compute; eauto).
  destruct H1 as [s1 H1].
  assert (H2 : exists s2, pass_two a1 pre = Ok s2).
  { vm_compute in H. injection H as <-. vm_compute. eauto. }
  destruct H2 as [s2 H2].
  destruct (X3_addresses_are_offsets true pre post a1 s1 s2 Hall H H1 H2) as [E1 E2].
  exists a1, s1, s2.
  split; [exact H|]. split; [exact H1|]. split; [exact H2|].
  assert (Hc : current_address s1 = 7).
  { vm_compute in H1. injection H1 as <-. reflexivity. }
  split; [vm_compute in H; injection H as <-; reflexivity|].
  split; [exact Hc|]. rewrite <- E1. exact Hc.
Defined.

(** *** Names *)

Lemma rstrip_class_idempotent (p : ascii -> bool) (s : string) :
  PyStr.rstrip_class p (PyStr.rstrip_class p s) = PyStr.rstrip_class p s.
Proof.
  induction s as [|c s IH]; cbn [PyStr.rstrip_class]; [reflexivity|].
  destruct (p c && PyStr.is_empty (PyStr.rstrip_class p s)) eqn:E; [reflexivity|].
  cbn [PyStr.rstrip_class]. rewrite IH, E. reflexivity.
Qed.

Lemma lstrip_class_of_stripped (p : ascii -> bool) (s : string) :
  PyStr.lstrip_class p (PyStr.rstrip_class p (PyStr.lstrip_class p s))
  = PyStr.rstrip_class p (PyStr.lstrip_class p s).
Proof.
  destruct (PyStr.rstrip_class p (PyStr.lstrip_class p s)) as [|c r] eqn:E;
    [reflexivity|].
  destruct (rstrip_class_head _ _ _ _ E) as [r' E'].
  apply lstrip_class_head in E'. cbn [PyStr.lstrip_class]. rewrite E'. reflexivity.
Qed.

Lemma trim_idempotent (s : string) : trim (trim s) = trim s.
Proof.
  unfold trim, PyStr.strip, PyStr.rstrip, PyStr.lstrip.
  rewrite lstrip_class_of_stripped. apply rstrip_class_idempotent.
Qed.

Lemma isspace_upper_char (c : ascii) :
  PyStr.isspace (PyStr.upper_char c) = PyStr.isspace c.
Proof.
  destruct c as [[] [] [] [] [] [] [] []]; vm_compute; reflexivity.
Qed.

Lemma upper_char_idempotent (c : ascii) :
  PyStr.upper_char (PyStr.upper_char c) = PyStr.upper_char c.
Proof.
  destruct c as [[] [] [] [] [] [] [] []]; vm_compute; reflexivity.
Qed.

Lemma upper_idempotent (s : string) : to_upper (to_upper s) = to_upper s.
Proof.
  unfold to_upper. induction s as [|c s IH]; cbn [PyStr.upper]; [reflexivity|].
  now rewrite upper_char_idempotent, IH.
Qed.

Lemma is_empty_upper (s : string) : PyStr.is_empty (PyStr.upper s) = PyStr.is_empty s.
Proof. destruct s; reflexivity. Qed.

Lemma trim_upper (s : string) : trim (to_upper s) = to_upper (trim s).
Proof.
  unfold trim, to_upper, PyStr.strip, PyStr.rstrip, PyStr.lstrip.
  assert (Hl : forall t, PyStr.lstrip_class PyStr.isspace (PyStr.upper t)
                         = PyStr.upper (PyStr.lstrip_class PyStr.isspace t)).
  { induction t as [|c t IH]; cbn [PyStr.upper PyStr.lstrip_class]; [reflexivity|].
    rewrite isspace_upper_char.
    destruct (PyStr.isspace c); [exact IH | reflexivity]. }
  assert (Hr : forall t, PyStr.rstrip_class PyStr.isspace (PyStr.upper t)
                         = PyStr.upper (PyStr.rstrip_class PyStr.isspace t)).
  { induction t as [|c t IH]; cbn [PyStr.upper PyStr.rstrip_class]; [reflexivity|].
    rewrite isspace_upper_char, IH, is_empty_upper.
    destruct (PyStr.isspace c && _); reflexivity. }
  rewrite Hl, Hr. reflexivity.
Qed.

Lemma normalize_symbol_idempotent (name : string) :
  normalize_symbol (normalize_symbol name) = normalize_symbol name.
Proof.
  unfold normalize_symbol.
  rewrite trim_upper, trim_idempotent, upper_idempotent. reflexivity.
Qed.

Lemma normalize_symbol_upper (name : string) :
  normalize_symbol (to_upper name) = normalize_symbol name.
Proof.
  unfold normalize_symbol. rewrite trim_upper, upper_idempotent. reflexivity.
Qed.

Lemma normalize_symbol_trim (name : string) :
  normalize_symbol (trim name) = normalize_symbol name.
Proof. unfold normalize_symbol. rewrite trim_idempotent. reflexivity. Qed.

Lemma parse_number_trim (s : string) : parse_number (trim s) = parse_number s.
Proof. unfold parse_number. rewrite trim_idempotent. reflexivity. Qed.

Lemma parse_register_trim (s : string) : parse_register (trim s) = parse_register s.
Proof. unfold parse_register. rewrite trim_idempotent. reflexivity. Qed.

(** [resolve_value] on a token that has a simple value. *)
Lemma resolve_value_simple (a : Assembler) (token : string) (v : Z) :
  resolve_simple_value a token = Some v -> resolve_value a token = Ok v.
Proof.
  unfold resolve_value, resolve_simple_value. rewrite trim_idempotent.
  destruct (PyStr.is_empty (trim token)); [discriminate|].
  intros ->. reflexivity.
Qed.

(** X4.  The symbol table does not tell spellings apart that differ in
    letter case or in surrounding whitespace: they name one key.  After
    [store_symbol] every spelling of the name that is not blank resolves to
    the stored value, unless it reads as a number or a register, and the
    symbols of other keys are as they were; a later [store_symbol] under any spelling replaces the
    value. *)
Theorem X4_symbols_ignore_case (a : Assembler) (name spelling : string) (value : Z) :
  normalize_symbol spelling = normalize_symbol name ->
  dict_get (normalize_symbol spelling) (symbols (store_symbol a name value)) = Some value
  /\ normalize_symbol (to_upper name) = normalize_symbol name
  /\ normalize_symbol (trim name) = normalize_symbol name
  /\ (PyStr.is_empty (trim spelling) = false ->
      parse_number spelling = None -> parse_register spelling = None ->
      resolve_value (store_symbol a name value) spelling = Ok value)
  /\ (forall value',
        dict_get (normalize_symbol name)
          (symbols (store_symbol (store_symbol a name value) spelling value'))
        = Some value')
  /\ (forall other,
        normalize_symbol other <> normalize_symbol name ->
        dict_get (normalize_symbol other) (symbols (store_symbol a name value))
        = dict_get (normalize_symbol other) (symbols a)).
Proof.
  intros Hsame.
  assert (Hget : dict_get (normalize_symbol spelling)
                   (symbols (store_symbol a name value)) = Some value).
  { rewrite Hsame. unfold store_symbol. fields. apply dict_get_set_same. }
  split; [exact Hget|]. split; [apply normalize_symbol_upper|].
  split; [apply normalize_symbol_trim|]. split; [|split].
  - intros He Hn Hr. apply resolve_value_simple. unfold resolve_simple_value.
    rewrite parse_number_trim, parse_register_trim, normalize_symbol_trim, Hn, Hr, He.
    exact Hget.
  - intros value'. rewrite <- Hsame. unfold store_symbol at 1. fields.
    apply dict_get_set_same.
  - intros other Hne. unfold store_symbol. fields.
    apply dict_get_set_other. congruence.
Qed.

Lemma X4_symbols_ignore_case_witness :
  let a := new_assembler true in
  normalize_symbol "  Loop " = normalize_symbol "loop"
  /\ dict_get (normalize_symbol "  Loop ") (symbols (store_symbol a "loop" 0x2A))
     = Some 0x2A
  /\ resolve_value (store_symbol a "loop" 0x2A) "  Loop " = Ok 0x2A.
Proof.
  intros a.
  assert (H : normalize_symbol "  Loop " = normalize_symbol "loop")
    by (vm_compute; reflexivity).
  destruct (X4_symbols_ignore_case a "loop" "  Loop " 0x2A H) as (H1 & _ & _ & H4 & _).
  split; [exact H|]. split; [exact H1|].
  apply H4; vm_compute; reflexivity.
Defined.

(** X5.  A token that reads as a number, or else as a register, always
    resolves to that literal, whatever the symbol table holds: a symbol
    whose name reads as a literal (10, 0x5, BEEFh, R3) can be stored but
    is never what the name resolves to. *)
Theorem X5_literals_shadow_symbols (token : string) (n : Z) :
  parse_number token = Some n
  \/ (parse_number token = None /\ parse_register token = Some n) ->
  forall a, resolve_value a token = Ok n
            /\ forall value, resolve_value (store_symbol a token value) token = Ok n.
Proof.
  intros H.
  assert (Hall : forall a, resolve_value a token = Ok n).
  { intros a. apply resolve_value_simple. unfold resolve_simple_value.
    rewrite parse_number_trim, parse_register_trim.
    destruct H as [Hn | [Hn Hr]].
    - rewrite Hn. unfold parse_number in Hn.
      destruct (PyStr.is_empty (trim token)); [discriminate | reflexivity].
    - rewrite Hn, Hr. unfold parse_register in Hr.
      destruct (trim token) as [|c t]; [discriminate Hr | reflexivity]. }
  intros a. split; [apply Hall | intros value; apply Hall].
Qed.

Lemma X5_literals_shadow_symbols_witness :
  parse_number "BEEFh" = Some 0xBEEF
  /\ resolve_value (store_symbol (new_assembler true) "BEEFh" 1) "BEEFh" = Ok 0xBEEF
  /\ parse_register "R3" = Some 3
  /\ resolve_value (store_symbol (new_assembler true) "R3" 7) "R3" = Ok 3.
Proof.
  assert (H1 : parse_number "BEEFh" = Some 0xBEEF) by (vm_compute; reflexivity).
  assert (H2 : parse_number "R3" = None) by (vm_compute; reflexivity).
  assert (H3 : parse_register "R3" = Some 3) by (vm_compute; reflexivity).
  split; [exact H1|].
  split; [exact (proj2 (X5_literals_shadow_symbols "BEEFh" 0xBEEF (or_introl H1)
                         (new_assembler true)) 1)|].
  split; [exact H3|].
  exact (proj2 (X5_literals_shadow_symbols "R3" 3 (or_intror (conj H2 H3))
                  (new_assembler true)) 7).
Defined.

(** *** Errors *)

Lemma resolve_value_error_line (a : Assembler) (s : string) (e : ValueError) :
  resolve_value a s = Raise e ->
  error_line e = Some (line_number a)
  /\ (e = MissingValue (line_number a) \/ e = UnknownSymbol (line_number a) s).
Proof.
  unfold resolve_value.
  destruct (PyStr.is_empty (trim s)); [intros H; injection H as <-; cbn; auto|].
  destruct (resolve_simple_value a (trim s)); [discriminate|].
  destruct (evaluate_expression a (trim s)); [discriminate|].
  intros H; injection H as <-; cbn; auto.
Qed.

Lemma bind_Raise {A B : Type} (m : result A) (f : A -> result B) (e : ValueError) :
  bind m f = Raise e -> m = Raise e \/ exists x, m = Ok x /\ f x = Raise e.
Proof. destruct m as [x|e']; cbn; intros H; [eauto | left; congruence]. Qed.

Lemma data_bytes_error_line (a : Assembler) (fields : list string) (e : ValueError) :
  data_bytes a fields = Raise e -> error_line e = Some (line_number a).
Proof.
  induction fields as [|f fields IH]; cbn [data_bytes]; intros H; [discriminate|].
  apply bind_Raise in H. destruct H as [H | (v & _ & H)].
  - apply resolve_value_error_line in H. tauto.
  - apply bind_Raise in H. destruct H as [H | (r & _ & H)]; [auto | discriminate].
Qed.

Lemma data_words_error_line (a : Assembler) (fields : list string) (e : ValueError) :
  data_words a fields = Raise e -> error_line e = Some (line_number a).
Proof.
  induction fields as [|f fields IH]; cbn [data_words]; intros H; [discriminate|].
  apply bind_Raise in H. destruct H as [H | (v & _ & H)].
  - apply resolve_value_error_line in H. tauto.
  - apply bind_Raise in H. destruct H as [H | (r & _ & H)]; [auto | discriminate].
Qed.

Ltac raise_line H :=
  cbv beta in H;
  lazymatch type of H with
  | bind _ _ = Raise _ =>
      apply bind_Raise in H; destruct H as [H | (? & _ & H)];
      [raise_line H | raise_line H]
  | resolve_value _ _ = Raise _ => apply resolve_value_error_line in H; tauto
  | Ok _ = Raise _ => discriminate H
  | Raise _ = Raise _ => injection H as <-; reflexivity
  end.

Lemma assemble_instruction_error_line (a : Assembler) (mnemonic : string)
    (inst : Instruction) (operand_str : string) (e : ValueError) :
  assemble_instruction a mnemonic inst operand_str = Raise e ->
  error_line e = Some (line_number a).
Proof.
  destruct inst as [[opcode op_type] bits]. unfold assemble_instruction.
  destruct op_type; intros H.
  - discriminate.
  - destruct (mnemonic =? "ISZ")%string.
    + destruct (negb _); [raise_line H|].
      destruct (resolve_register _ _); raise_line H.
    + destruct (resolve_register _ _); raise_line H.
  - destruct (mnemonic =? "FIM")%string.
    + destruct (negb _); [raise_line H|].
      destruct (resolve_register_pair _ _); [|raise_line H].
      destruct (_ =? 2)%nat; raise_line H.
    + destruct (resolve_register_pair _ _); raise_line H.
  - raise_line H.
  - raise_line H.
  - destruct (negb _); raise_line H.
  - discriminate.
Qed.

Lemma pass_two_line_error_line (a : Assembler) (raw_line : string) (e : ValueError) :
  pass_two_line a raw_line = Raise e -> error_line e = Some (line_number a + 1).
Proof.
  intros H. pose proof (pass_two_line_statement a raw_line) as Hs.
  destruct (statement_of raw_line) as [line|].
  - rewrite Hs in H. unfold pass_two_statement in H.
    change (line_number a + 1) with (line_number (next_line a)).
    destruct (split_statement line) as [mnemonic operand_str].
    destruct (mnemonic =? "ORG")%string.
    { apply bind_Raise in H. destruct H as [H | (v & _ & H)]; [|discriminate].
      apply resolve_value_error_line in H. tauto. }
    destruct (mnemonic =? "EQU")%string; [discriminate|].
    destruct (match_equ_inline line); [discriminate|].
    apply bind_Raise in H. destruct H as [H | (v & _ & H)]; [|discriminate].
    destruct ((mnemonic =? "DB")%string || (mnemonic =? "BYTE")%string).
    { eapply data_bytes_error_line; eauto. }
    destruct ((mnemonic =? "DW")%string || (mnemonic =? "WORD")%string).
    { eapply data_words_error_line; eauto. }
    destruct (dict_get mnemonic INSTRUCTION_SET) as [inst|].
    + eapply assemble_instruction_error_line; eauto.
    + injection H as <-. reflexivity.
  - destruct Hs as [l Hs]. rewrite Hs in H. discriminate.
Qed.

(** [pass_one] raises on ORG and EQU lines only, and only for their
    operand or for the missing label. *)
Lemma pass_one_line_raises (a : Assembler) (raw_line : string) (e : ValueError) :
  pass_one_line a raw_line = Raise e ->
  error_line e = Some (line_number a + 1)
  /\ ((exists line groups,
         statement_of raw_line = Some line /\ match_equ_inline line = Some groups)
      \/ (exists operand_str, mnemonic_of raw_line = Some ("ORG", operand_str))
      \/ (exists operand_str, mnemonic_of raw_line = Some ("EQU", operand_str))).
Proof.
  rewrite pass_one_line_statement. unfold mnemonic_of.
  destruct (after_label_fields a raw_line) as (_ & _ & _ & _ & _ & Hn).
  rewrite <- Hn.
  destruct (statement_of raw_line) as [line|]; [|discriminate].
  unfold pass_one_statement.
  destruct (match_equ_inline line) as [[g1 g2]|] eqn:Hinl.
  { intros H. apply bind_Raise in H. destruct H as [H | (v & _ & H)]; [|discriminate].
    apply resolve_value_error_line in H.
    split; [tauto | left; exists line, (g1, g2); auto]. }
  destruct (split_statement line) as [mnemonic operand_str].
  destruct (mnemonic =? "ORG")%string eqn:Eorg.
  { apply String.eqb_eq in Eorg. subst mnemonic. intros H.
    apply bind_Raise in H. destruct H as [H | (v & _ & H)]; [|discriminate].
    apply resolve_value_error_line in H.
    split; [tauto | right; left; exists operand_str; reflexivity]. }
  destruct (mnemonic =? "EQU")%string eqn:Eequ.
  { apply String.eqb_eq in Eequ. subst mnemonic. intros H.
    split; [|right; right; exists operand_str; reflexivity].
    destruct (last_label (after_label a raw_line)) as [[|c l]|];
      try (injection H as <-; reflexivity).
    apply bind_Raise in H. destruct H as [H | (v & _ & H)]; [|discriminate].
    apply resolve_value_error_line in H. tauto. }
  destruct ((mnemonic =? "DB")%string || (mnemonic =? "BYTE")%string); [discriminate|].
  destruct ((mnemonic =? "DW")%string || (mnemonic =? "WORD")%string); [discriminate|].
  destruct (dict_get mnemonic INSTRUCTION_SET) as [[[opcode op_type] bits]|].
  - destruct ((0x40 <=? opcode) && (opcode <? 0x60)); [discriminate|].
    destruct (mnemonic =? "FIM")%string; [discriminate|].
    destruct (mnemonic =? "ISZ")%string; [discriminate|].
    destruct (mnemonic =? "JCN")%string; discriminate.
  - destruct (verbose (after_label a raw_line)); discriminate.
Qed.

Lemma pass_one_line_keeps (a a' : Assembler) (raw_line : string) :
  pass_one_line a raw_line = Ok a' ->
  line_number a' = line_number a + 1
  /\ binary a' = binary a /\ listing a' = listing a /\ verbose a' = verbose a.
Proof.
  rewrite pass_one_line_statement.
  assert (Hl : line_number (after_label a raw_line) = line_number a + 1
               /\ binary (after_label a raw_line) = binary a
               /\ listing (after_label a raw_line) = listing a
               /\ verbose (after_label a raw_line) = verbose a).
  { unfold after_label.
    destruct (PyStr.is_empty (remove_comment raw_line)); [cbn; auto|].
    destruct (PyStr.split_first ":" (remove_comment raw_line)) as [[label rest]|];
      cbn; auto. }
  destruct Hl as (Hn & Hb & Hl & Hv). rewrite <- Hn, <- Hb, <- Hl, <- Hv.
  generalize (after_label a raw_line). clear. intros a.
  destruct (statement_of raw_line) as [line|];
    [|intros H; injection H as <-; auto].
  unfold pass_one_statement.
  destruct (match_equ_inline line) as [[g1 g2]|].
  { intros H. inv_bind H. injection H as <-. fields. auto. }
  destruct (split_statement line) as [mnemonic operand_str].
  destruct (mnemonic =? "ORG")%string.
  { intros H. inv_bind H. injection H as <-. fields. auto. }
  destruct (mnemonic =? "EQU")%string.
  { destruct (last_label a) as [[|c l]|]; try discriminate.
    intros H. inv_bind H. injection H as <-. fields. auto. }
  destruct ((mnemonic =? "DB")%string || (mnemonic =? "BYTE")%string).
  { intros H. injection H as <-. fields. auto. }
  destruct ((mnemonic =? "DW")%string || (mnemonic =? "WORD")%string).
  { intros H. injection H as <-. fields. auto. }
  destruct (dict_get mnemonic INSTRUCTION_SET) as [[[opcode op_type] bits]|].
  - destruct ((0x40 <=? opcode) && (opcode <? 0x60));
      [intros H; injection H as <-; fields; auto|].
    destruct (mnemonic =? "FIM")%string; [intros H; injection H as <-; fields; auto|].
    destruct (mnemonic =? "ISZ")%string; [intros H; injection H as <-; fields; auto|].
    destruct (mnemonic =? "JCN")%string; intros H; injection H as <-; fields; auto.
  - destruct (verbose a) eqn:E; intros H; injection H as <-; fields; auto.
Qed.

Lemma pass_one_loop_line_number (lines : list string) :
  forall a a', pass_one_loop a lines = Ok a' ->
    line_number a' = line_number a + Z.of_nat (List.length lines)
    /\ binary a' = binary a /\ listing a' = listing a /\ verbose a' = verbose a.
Proof.
  induction lines as [|raw lines IH]; intros a a' H.
  - cbn in H. injection H as <-. cbn [List.length Z.of_nat]. repeat split; lia.
  - cbn [pass_one_loop] in H. inv_bind H.
    destruct (pass_one_line_keeps _ _ _ Hx) as (Hn & Hb & Hl & Hv).
    destruct (IH _ _ H) as (In' & Ib & Il & Iv).
    cbn [List.length]. repeat split; try congruence. lia.
Qed.

Lemma pass_one_loop_fails_at (lines : list string) :
  forall a e, pass_one_loop a lines = Raise e ->
    exists pre raw_line post s,
      lines = (pre ++ raw_line :: post)%list
      /\ pass_one_loop a pre = Ok s /\ pass_one_line s raw_line = Raise e.
Proof.
  induction lines as [|raw lines IH]; intros a e H; [discriminate|].
  cbn [pass_one_loop] in H.
  destruct (pass_one_line a raw) as [a'|e'] eqn:E; cbn [bind] in H.
  - destruct (IH _ _ H) as (pre & r & post & s & -> & Hpre & Hr).
    exists (raw :: pre), r, post, s. cbn [app pass_one_loop]. rewrite E. auto.
  - injection H as <-. exists [], raw, lines, a. auto.
Qed.

Lemma pass_two_loop_fails_at (lines : list string) :
  forall a e, pass_two_loop a lines = Raise e ->
    exists pre raw_line post s,
      lines = (pre ++ raw_line :: post)%list
      /\ pass_two_loop a pre = Ok s /\ pass_two_line s raw_line = Raise e.
Proof.
  induction lines as [|raw lines IH]; intros a e H; [discriminate|].
  cbn [pass_two_loop] in H.
  destruct (pass_two_line a raw) as [[a' bytes_out]|e'] eqn:E; cbn [bind] in H.
  - destruct (IH _ _ H) as (pre & r & post & s & -> & Hpre & Hr).
    exists (raw :: pre), r, post, s. cbn [app pass_two_loop]. rewrite E. auto.
  - injection H as <-. exists [], raw, lines, a. auto.
Qed.

(** X6.  When a pass raises, the error cites the line it arose on, counted
    from 1: the pass has read the lines before it without error and fails
    on that very line. *)
Theorem X6_errors_cite_their_line (a : Assembler) (lines : list string)
    (e : ValueError) :
  pass_one a lines = Raise e \/ pass_two a lines = Raise e ->
  exists pre raw_line post,
    lines = (pre ++ raw_line :: post)%list
    /\ error_line e = Some (Z.of_nat (List.length pre) + 1)
    /\ ((exists s, pass_one a pre = Ok s /\ pass_one_line s raw_line = Raise e)
        \/ (exists s, pass_two a pre = Ok s /\ pass_two_line s raw_line = Raise e)).
Proof.
  intros [H|H].
  - unfold pass_one in H.
    destruct (pass_one_loop_fails_at _ _ _ H) as (pre & raw & post & s & -> & Hpre & Hr).
    exists pre, raw, post. split; [reflexivity|].
    destruct (pass_one_loop_line_number _ _ _ Hpre) as (Hn & _).
    destruct (pass_one_line_raises _ _ _ Hr) as (He & _).
    split; [|left; exists s; auto].
    rewrite He, Hn. reflexivity.
  - unfold pass_two in H.
    destruct (pass_two_loop_fails_at _ _ _ H) as (pre & raw & post & s & -> & Hpre & Hr).
    exists pre, raw, post. split; [reflexivity|].
    destruct (pass_two_loop_keeps _ _ _ Hpre) as (_ & _ & _ & _ & _ & Hn & _).
    split; [|right; exists s; auto].
    rewrite (pass_two_line_error_line _ _ _ Hr), Hn. reflexivity.
Qed.

Lemma X6_errors_cite_their_line_witness :
  pass_two (new_assembler true) ["NOP"; "; nothing"; "LDM"; "NOP"]
  = Raise (MissingValue 3)
  /\ exists pre raw_line post,
       ["NOP"; "; nothing"; "LDM"; "NOP"] = (pre ++ raw_line :: post)%list
       /\ error_line (MissingValue 3) = Some (Z.of_nat (List.length pre) + 1).
Proof.
  assert (H : pass_two (new_assembler true) ["NOP"; "; nothing"; "LDM"; "NOP"]
              = Raise (MissingValue 3)) by (vm_compute; reflexivity).
  split; [exact H|].
  destruct (X6_errors_cite_their_line _ _ _ (or_intror H))
    as (pre & raw & post & Hl & He & _).
  exists pre, raw, post. auto.
Defined.

(** X7.  [pass_one] never looks at the operands of an instruction or of a
    data directive: a line whose mnemonic is neither ORG nor EQU, known or
    not, is always read without error, whatever its operand text. *)
Theorem X7_pass_one_reads_no_operands (a : Assembler)
    (raw_line mnemonic operand_str : string) :
  mnemonic_of raw_line = Some (mnemonic, operand_str) ->
  mnemonic <> "ORG" -> mnemonic <> "EQU" ->
  exists a', pass_one_line a raw_line = Ok a'
             /\ symbols a' = symbols (after_label a raw_line)
             /\ org_address a' = org_address a.
Proof.
  intros Hm Horg Hequ.
  destruct (pass_one_line a raw_line) as [a'|e] eqn:E.
  - exists a'. split; [reflexivity|].
    assert (Hso : sets_origin raw_line = false).
    { unfold sets_origin. rewrite Hm. apply String.eqb_neq. exact Horg. }
    destruct (pass_one_line_cursor _ _ _ E Hso) as [_ Ho]. split; [|exact Ho].
    rewrite pass_one_line_statement in E. unfold mnemonic_of in Hm.
    destruct (statement_of raw_line) as [line|]; [|discriminate].
    destruct (match_equ_inline line) eqn:Hinl; [discriminate|].
    assert (Hs : split_statement line = (mnemonic, operand_str)) by congruence.
    unfold pass_one_statement in E. rewrite Hinl, Hs in E.
    apply String.eqb_neq in Horg, Hequ. rewrite Horg, Hequ in E.
    destruct ((mnemonic =? "DB")%string || (mnemonic =? "BYTE")%string);
      [injection E as <-; reflexivity|].
    destruct ((mnemonic =? "DW")%string || (mnemonic =? "WORD")%string);
      [injection E as <-; reflexivity|].
    destruct (dict_get mnemonic INSTRUCTION_SET) as [[[opcode op_type] bits]|].
    + destruct ((0x40 <=? opcode) && (opcode <? 0x60)); [injection E as <-; reflexivity|].
      destruct (mnemonic =? "FIM")%string; [injection E as <-; reflexivity|].
      destruct (mnemonic =? "ISZ")%string; [injection E as <-; reflexivity|].
      destruct (mnemonic =? "JCN")%string; injection E as <-; reflexivity.
    + destruct (verbose (after_label a raw_line)); injection E as <-; reflexivity.
  - exfalso. destruct (pass_one_line_raises _ _ _ E) as (_ & [H | [H | H]]).
    + destruct H as (line & groups & Hs & Hinl). unfold mnemonic_of in Hm.
      rewrite Hs, Hinl in Hm. discriminate.
    + destruct H as [o H]. congruence.
    + destruct H as [o H]. congruence.
Qed.

Lemma X7_pass_one_reads_no_operands_witness :
  mnemonic_of "DB NOWHERE, 1+, ," = Some ("DB", "NOWHERE, 1+, ,")
  /\ (exists a', pass_one_line (new_assembler true) "DB NOWHERE, 1+, ," = Ok a'
                 /\ symbols a' = symbols (after_label (new_assembler true)
                                            "DB NOWHERE, 1+, ,")
                 /\ org_address a' = org_address (new_assembler true))
  /\ pass_two_line (new_assembler true) "DB NOWHERE, 1+, ,"
     = Raise (UnknownSymbol 1 "NOWHERE").
Proof.
  assert (H : mnemonic_of "DB NOWHERE, 1+, ," = Some ("DB", "NOWHERE, 1+, ,"))
    by (vm_compute; reflexivity).
  split; [exact H|]. split; [|vm_compute; reflexivity].
  apply (X7_pass_one_reads_no_operands (new_assembler true) _ _ _ H); discriminate.
Defined.

(** *** EQU *)

(** X8.  An inline EQU, [NAME EQU expr], binds the name to the value of
    the expression as the symbols stand at that line, makes it the last
    label, and leaves the cursor alone; the expression must resolve there,
    so it cannot use a symbol that is only defined further down. *)
Theorem X8_inline_equ_binds (a : Assembler) (raw_line line g1 g2 : string) :
  statement_of raw_line = Some line ->
  match_equ_inline line = Some (g1, g2) ->
  (forall value,
      resolve_value (after_label a raw_line) (trim g2) = Ok value ->
      exists a',
        pass_one_line a raw_line = Ok a'
        /\ dict_get (normalize_symbol g1) (symbols a') = Some value
        /\ last_label a' = Some (normalize_symbol g1)
        /\ current_address a' = current_address a)
  /\ (forall e,
      resolve_value (after_label a raw_line) (trim g2) = Raise e ->
      pass_one_line a raw_line = Raise e).
Proof.
  intros Hs Hinl. rewrite pass_one_line_statement, Hs.
  unfold pass_one_statement. rewrite Hinl.
  destruct (after_label_fields a raw_line) as (Hc & _).
  split.
  - intros value Hv. rewrite Hv. cbn [bind]. eexists. split; [reflexivity|].
    unfold store_symbol. fields. rewrite normalize_symbol_idempotent.
    split; [apply dict_get_set_same | auto].
  - intros e He. rewrite He. reflexivity.
Qed.

Lemma X8_inline_equ_binds_witness :
  let a := store_symbol (new_assembler true) "BASE" 0x100 in
  statement_of "top equ BASE + 0x20 ; end" = Some "top equ BASE + 0x20"
  /\ match_equ_inline "top equ BASE + 0x20" = Some ("top", "BASE + 0x20")
  /\ resolve_value (after_label a "top equ BASE + 0x20 ; end") (trim "BASE + 0x20")
     = Ok 0x120
  /\ exists a',
       pass_one_line a "top equ BASE + 0x20 ; end" = Ok a'
       /\ dict_get (normalize_symbol "top") (symbols a') = Some 0x120
       /\ last_label a' = Some (normalize_symbol "top")
       /\ current_address a' = current_address a.
Proof.
  intros a.
  assert (H1 : statement_of "top equ BASE + 0x20 ; end" = Some "top equ BASE + 0x20")
    by (vm_compute; reflexivity).
  assert (H2 : match_equ_inline "top equ BASE + 0x20" = Some ("top", "BASE + 0x20"))
    by (vm_compute; reflexivity).
  assert (H3 : resolve_value (after_label a "top equ BASE + 0x20 ; end")
                 (trim "BASE + 0x20") = Ok 0x120) by (vm_compute; reflexivity).
  split; [exact H1|]. split; [exact H2|]. split; [exact H3|].
  exact (proj1 (X8_inline_equ_binds a _ _ _ _ H1 H2) 0x120 H3).
Defined.

(** X9.  A bare EQU line rebinds the last label (the label of the line
    itself if it has one, else the last label or inline EQU name before it)
    to the value of its operand, overriding the address the label had; with
    no label before it, or an empty one, it raises the EQU-without-label
    error before it looks at the operand. *)
Theorem X9_bare_equ_rebinds_last_label (a : Assembler) (raw_line operand_str : string) :
  mnemonic_of raw_line = Some ("EQU", operand_str) ->
  (forall c label value,
      last_label (after_label a raw_line) = Some (String c label) ->
      resolve_value (after_label a raw_line) operand_str = Ok value ->
      exists a',
        pass_one_line a raw_line = Ok a'
        /\ dict_get (normalize_symbol (String c label)) (symbols a') = Some value
        /\ current_address a' = current_address a)
  /\ (last_label (after_label a raw_line) = None
      \/ last_label (after_label a raw_line) = Some "" ->
      pass_one_line a raw_line = Raise (EquWithoutLabel (line_number a + 1))).
Proof.
  intros Hm. unfold mnemonic_of in Hm. rewrite pass_one_line_statement.
  destruct (statement_of raw_line) as [line|]; [|discriminate].
  destruct (match_equ_inline line) eqn:Hinl; [discriminate|].
  assert (Hs : split_statement line = ("EQU", operand_str)) by congruence.
  unfold pass_one_statement. rewrite Hinl, Hs.
  replace ("EQU" =? "ORG")%string with false by reflexivity.
  replace ("EQU" =? "EQU")%string with true by reflexivity.
  destruct (after_label_fields a raw_line) as (Hc & _ & _ & _ & _ & Hn).
  split.
  - intros c label value Hl Hv. rewrite Hl, Hv. cbn [bind].
    eexists. split; [reflexivity|]. unfold store_symbol. fields.
    split; [apply dict_get_set_same | exact Hc].
  - intros [Hl|Hl]; rewrite Hl, Hn; reflexivity.
Qed.

Lemma X9_bare_equ_rebinds_last_label_witness :
  exists a1 a2,
    pass_one_line (new_assembler true) "NOP" = Ok a1
    /\ pass_one_line a1 "limit:" = Ok a2
    /\ dict_get "LIMIT" (symbols a2) = Some 1
    /\ mnemonic_of "  EQU 7" = Some ("EQU", "7")
    /\ last_label (after_label a2 "  EQU 7") = Some "LIMIT"
    /\ (exists a3, pass_one_line a2 "  EQU 7" = Ok a3
                   /\ dict_get (normalize_symbol "LIMIT") (symbols a3) = Some 7
                   /\ current_address a3 = current_address a2)
    /\ pass_one_line (new_assembler true) "  EQU 7" = Raise (EquWithoutLabel 1).
Proof.
  assert (H1 : exists a1, pass_one_line (new_assembler true) "NOP" = Ok a1)
    by (vm_compute; eauto).
  destruct H1 as [a1 H1].
  assert (H2 : exists a2, pass_one_line a1 "limit:" = Ok a2).
  { vm_compute in H1. injection H1 as <-. vm_compute. eauto. }
  destruct H2 as [a2 H2].
  assert (Ha2 : a2 = mkAssembler [("LIMIT", 1)] [] [] 1 0 2 true (Some "LIMIT") []).
  { vm_compute in H1. injection H1 as <-. vm_compute in H2. injection H2 as <-.
    reflexivity. }
  assert (Hm : mnemonic_of "  EQU 7" = Some ("EQU", "7")) by (vm_compute; reflexivity).
  assert (Hl : last_label (after_label a2 "  EQU 7") = Some "LIMIT")
    by (rewrite Ha2; vm_compute; reflexivity).
  assert (Hv : resolve_value (after_label a2 "  EQU 7") "7" = Ok 7)
    by (rewrite Ha2; vm_compute; reflexivity).
  exists a1, a2. split; [exact H1|]. split; [exact H2|].
  split; [rewrite Ha2; reflexivity|]. split; [exact Hm|]. split; [exact Hl|].
  split.
  - exact (proj1 (X9_bare_equ_rebinds_last_label a2 _ _ Hm) _ _ 7 Hl Hv).
  - apply (proj2 (X9_bare_equ_rebinds_last_label (new_assembler true) _ _ Hm)).
    left. vm_compute. reflexivity.
Defined.

(** *** Comments *)

Lemma split_first_absent (sep : ascii) (s : string) :
  PyStr.contains sep s = false -> PyStr.split_first sep s = None.
Proof.
  induction s as [|c s IH]; cbn [PyStr.contains PyStr.split_first]; [reflexivity|].
  intros H. apply orb_false_iff in H. destruct H as [Hc Hs].
  rewrite Hc, (IH Hs). reflexivity.
Qed.

Lemma split_first_append (sep : ascii) (s t : string) :
  PyStr.contains sep s = false ->
  PyStr.split_first sep (s ++ String sep t) = Some (s, t).
Proof.
  induction s as [|c s IH]; cbn [PyStr.contains PyStr.split_first append].
  - intros _. rewrite Ascii.eqb_refl. reflexivity.
  - intros H. apply orb_false_iff in H. destruct H as [Hc Hs].
    rewrite Hc, (IH Hs). reflexivity.
Qed.

Lemma remove_comment_append (code comment : string) :
  PyStr.contains ";" code = false ->
  remove_comment (code ++ String ";" comment) = remove_comment code.
Proof.
  intros H. unfold remove_comment.
  rewrite (split_first_append ";" code comment H), (split_first_absent ";" code H).
  reflexivity.
Qed.

(** What [pass_two] does for a line, its listing entry apart. *)
Lemma pass_two_line_same_code (a : Assembler) (raw1 raw2 : string) :
  remove_comment raw1 = remove_comment raw2 ->
  result_map (fun r => (binary (fst r), current_address (fst r), symbols (fst r), snd r))
    (pass_two_line a raw1)
  = result_map (fun r => (binary (fst r), current_address (fst r), symbols (fst r), snd r))
      (pass_two_line a raw2).
Proof.
  intros H. unfold pass_two_line. rewrite H.
  destruct (PyStr.is_empty (remove_comment raw2)); [reflexivity|].
  assert (Hst : forall line,
    result_map (fun r => (binary (fst r), current_address (fst r), symbols (fst r), snd r))
      (pass_two_statement (set_line_number a (line_number a + 1)) raw1 line)
    = result_map (fun r => (binary (fst r), current_address (fst r), symbols (fst r), snd r))
        (pass_two_statement (set_line_number a (line_number a + 1)) raw2 line)).
  { intros line. unfold pass_two_statement.
    destruct (split_statement line) as [mnemonic operand_str].
    destruct (mnemonic =? "ORG")%string.
    { destruct (resolve_value _ operand_str) as [v|e]; cbn [bind result_map];
        [|reflexivity].
      fields. destruct (Z.of_nat (List.length (binary a)) <? v); reflexivity. }
    destruct (mnemonic =? "EQU")%string; [reflexivity|].
    destruct (match_equ_inline line); [reflexivity|].
    match goal with
    | |- context [bind ?m _] => destruct m as [bytes_out|e]
    end; reflexivity. }
  destruct (PyStr.split_first ":" (remove_comment raw2)) as [[label rest]|];
    [|apply Hst].
  destruct (PyStr.is_empty (trim rest)); [reflexivity | apply Hst].
Qed.

(** X10.  What follows the first [;] of a line is a comment that neither
    pass looks at: a line with a comment and the same line without it are
    read alike by [pass_one], and for [pass_two] they emit the same bytes
    and leave the same image, cursor and symbols (the listing keeps the raw
    text, comment included). *)
Theorem X10_comments_are_ignored (a : Assembler) (code comment : string) :
  PyStr.contains ";" code = false ->
  pass_one_line a (code ++ String ";" comment) = pass_one_line a code
  /\ result_map
       (fun r => (binary (fst r), current_address (fst r), symbols (fst r), snd r))
       (pass_two_line a (code ++ String ";" comment))
     = result_map
         (fun r => (binary (fst r), current_address (fst r), symbols (fst r), snd r))
         (pass_two_line a code).
Proof.
  intros H. pose proof (remove_comment_append code comment H) as Hr. split.
  - unfold pass_one_line. rewrite Hr. reflexivity.
  - apply pass_two_line_same_code. exact Hr.
Qed.

Lemma X10_comments_are_ignored_witness :
  PyStr.contains ";" "L: JUN L " = false
  /\ pass_one_line (new_assembler true) ("L: JUN L " ++ String ";" " loop; forever")
     = pass_one_line (new_assembler true) "L: JUN L ".
Proof.
  assert (H : PyStr.contains ";" "L: JUN L " = false) by reflexivity.
  split; [exact H|].
  exact (proj1 (X10_comments_are_ignored (new_assembler true) "L: JUN L "
                  " loop; forever" H)).
Defined.

(** *** Verbosity *)

Lemma resolve_register_symbols (a b : Assembler) (token : string) :
  symbols a = symbols b -> resolve_register a token = resolve_register b token.
Proof. intros H. unfold resolve_register. rewrite H. reflexivity. Qed.

Lemma resolve_register_pair_symbols (a b : Assembler) (token : string) :
  symbols a = symbols b ->
  resolve_register_pair a token = resolve_register_pair b token.
Proof.
  intros H. unfold resolve_register_pair.
  rewrite (resolve_register_symbols a b token H). reflexivity.
Qed.

Lemma data_bytes_symbols (a b : Assembler) (fields : list string) :
  symbols a = symbols b -> line_number a = line_number b ->
  data_bytes a fields = data_bytes b fields.
Proof.
  intros Hs Hl. induction fields as [|f fields IH]; cbn [data_bytes]; [reflexivity|].
  rewrite (resolve_value_symbols a b _ Hs Hl), IH. reflexivity.
Qed.

Lemma data_words_symbols (a b : Assembler) (fields : list string) :
  symbols a = symbols b -> line_number a = line_number b ->
  data_words a fields = data_words b fields.
Proof.
  intros Hs Hl. induction fields as [|f fields IH]; cbn [data_words]; [reflexivity|].
  rewrite (resolve_value_symbols a b _ Hs Hl), IH. reflexivity.
Qed.

Lemma assemble_instruction_symbols (a b : Assembler) (mnemonic : string)
    (inst : Instruction) (operand_str : string) :
  symbols a = symbols b -> line_number a = line_number b ->
  assemble_instruction a mnemonic inst operand_str
  = assemble_instruction b mnemonic inst operand_str.
Proof.
  intros Hs Hl. destruct inst as [[opcode op_type] bits].
  unfold assemble_instruction.
  destruct op_type; try reflexivity;
    repeat rewrite (resolve_value_symbols a b _ Hs Hl);
    repeat rewrite (resolve_register_symbols a b _ Hs);
    repeat rewrite (resolve_register_pair_symbols a b _ Hs);
    rewrite ?Hl; reflexivity.
Qed.

Lemma pass_one_line_hush (a : Assembler) (raw_line : string) :
  pass_one_line (hush a) raw_line = result_map hush (pass_one_line a raw_line).
Proof.
  rewrite !pass_one_line_statement.
  assert (Hal : after_label (hush a) raw_line = hush (after_label a raw_line)).
  { unfold after_label.
    destruct (PyStr.is_empty (remove_comment raw_line)); [reflexivity|].
    destruct (PyStr.split_first ":" (remove_comment raw_line)) as [[label rest]|];
      reflexivity. }
  rewrite Hal. generalize (after_label a raw_line). clear. intros a.
  destruct (statement_of raw_line) as [line|]; [|reflexivity].
  unfold pass_one_statement.
  assert (Hr : forall s, resolve_value (hush a) s = resolve_value a s)
    by (intros s; apply resolve_value_symbols; reflexivity).
  destruct (match_equ_inline line) as [[g1 g2]|].
  { rewrite Hr. destruct (resolve_value a (trim g2)); reflexivity. }
  destruct (split_statement line) as [mnemonic operand_str].
  destruct (mnemonic =? "ORG")%string.
  { rewrite Hr. destruct (resolve_value a operand_str); reflexivity. }
  destruct (mnemonic =? "EQU")%string.
  { change (last_label (hush a)) with (last_label a).
    change (line_number (hush a)) with (line_number a).
    destruct (last_label a) as [[|c l]|]; try reflexivity.
    rewrite Hr. destruct (resolve_value a operand_str); reflexivity. }
  destruct ((mnemonic =? "DB")%string || (mnemonic =? "BYTE")%string); [reflexivity|].
  destruct ((mnemonic =? "DW")%string || (mnemonic =? "WORD")%string); [reflexivity|].
  destruct (dict_get mnemonic INSTRUCTION_SET) as [[[opcode op_type] bits]|].
  - destruct ((0x40 <=? opcode) && (opcode <? 0x60)); [reflexivity|].
    destruct (mnemonic =? "FIM")%string; [reflexivity|].
    destruct (mnemonic =? "ISZ")%string; [reflexivity|].
    destruct (mnemonic =? "JCN")%string; reflexivity.
  - change (verbose (hush a)) with false. destruct (verbose a); reflexivity.
Qed.

Lemma pass_two_line_hush (a : Assembler) (raw_line : string) :
  pass_two_line (hush a) raw_line
  = result_map (fun r => (hush (fst r), snd r)) (pass_two_line a raw_line).
Proof.
  unfold pass_two_line.
  destruct (PyStr.is_empty (remove_comment raw_line)); [reflexivity|].
  assert (Hst : forall line,
    pass_two_statement (set_line_number (hush a) (line_number (hush a) + 1)) raw_line line
    = result_map (fun r => (hush (fst r), snd r))
        (pass_two_statement (set_line_number a (line_number a + 1)) raw_line line)).
  { intros line. unfold pass_two_statement.
    set (b := set_line_number a (line_number a + 1)).
    set (hb := set_line_number (hush a) (line_number (hush a) + 1)).
    assert (Hs : symbols hb = symbols b) by reflexivity.
    assert (Hl : line_number hb = line_number b) by reflexivity.
    destruct (split_statement line) as [mnemonic operand_str].
    destruct (mnemonic =? "ORG")%string.
    { rewrite (resolve_value_symbols hb b _ Hs Hl).
      destruct (resolve_value b operand_str) as [v|e]; cbn [bind result_map];
        [|reflexivity].
      subst b hb. fields. change (binary (hush a)) with (binary a).
      destruct (Z.of_nat (List.length (binary a)) <? v); reflexivity. }
    destruct (mnemonic =? "EQU")%string; [reflexivity|].
    destruct (match_equ_inline line); [reflexivity|].
    rewrite (data_bytes_symbols hb b _ Hs Hl), (data_words_symbols hb b _ Hs Hl).
    assert (Hi : forall inst, assemble_instruction hb mnemonic inst operand_str
                              = assemble_instruction b mnemonic inst operand_str)
      by (intros inst; apply assemble_instruction_symbols; assumption).
    replace (match dict_get mnemonic INSTRUCTION_SET with
             | Some inst => assemble_instruction hb mnemonic inst operand_str
             | None => Raise (UnknownInstruction (line_number hb) mnemonic)
             end)
      with (match dict_get mnemonic INSTRUCTION_SET with
            | Some inst => assemble_instruction b mnemonic inst operand_str
            | None => Raise (UnknownInstruction (line_number b) mnemonic)
            end)
      by (destruct (dict_get mnemonic INSTRUCTION_SET); [rewrite Hi|]; reflexivity).
    match goal with
    | |- bind ?m _ = _ => destruct m as [bytes_out|e]
    end; reflexivity. }
  destruct (PyStr.split_first ":" (remove_comment raw_line)) as [[label rest]|];
    [|apply Hst].
  destruct (PyStr.is_empty (trim rest)); [reflexivity | apply Hst].
Qed.

Lemma pass_one_loop_hush (lines : list string) :
  forall a, pass_one_loop (hush a) lines = result_map hush (pass_one_loop a lines).
Proof.
  induction lines as [|raw lines IH]; intros a; cbn [pass_one_loop]; [reflexivity|].
  rewrite pass_one_line_hush.
  destruct (pass_one_line a raw) as [a'|e]; cbn [bind result_map]; auto.
Qed.

Lemma pass_two_loop_hush (lines : list string) :
  forall a, pass_two_loop (hush a) lines = result_map hush (pass_two_loop a lines).
Proof.
  induction lines as [|raw lines IH]; intros a; cbn [pass_two_loop]; [reflexivity|].
  rewrite pass_two_line_hush.
  destruct (pass_two_line a raw) as [[a' bytes_out]|e]; cbn [bind result_map fst]; auto.
Qed.

(** X11.  Verbosity changes nothing but the messages: a quiet assembler
    goes through both passes in the same states, but for the warnings it
    keeps, raises the same errors, and [assemble_file] returns the same
    result and writes the same files. *)
Theorem X11_verbosity_changes_no_output (a : Assembler) (fs : FileSystem)
    (input_file output_file listing_file : string) (lines : list string) :
  pass_one (hush a) lines = result_map hush (pass_one a lines)
  /\ pass_two (hush a) lines = result_map hush (pass_two a lines)
  /\ assemble_file (hush a) fs input_file output_file listing_file
     = assemble_file a fs input_file output_file listing_file
  /\ assemble_file (new_assembler false) fs input_file output_file listing_file
     = assemble_file (new_assembler true) fs input_file output_file listing_file.
Proof.
  assert (H1 : forall b l, pass_one (hush b) l = result_map hush (pass_one b l)).
  { intros b l. unfold pass_one.
    exact (pass_one_loop_hush l
             (set_last_label (set_current_address (set_line_number b 0) 0) None)). }
  assert (H2 : forall b l, pass_two (hush b) l = result_map hush (pass_two b l)).
  { intros b l. unfold pass_two. exact (pass_two_loop_hush l (pass_two_init b)). }
  assert (H3 : forall b, assemble_file (hush b) fs input_file output_file listing_file
                         = assemble_file b fs input_file output_file listing_file).
  { intros b. unfold assemble_file.
    destruct (readable fs input_file) as [ls|]; [|reflexivity].
    rewrite H1. destruct (pass_one b ls) as [a1|e]; cbn [result_map]; [|reflexivity].
    rewrite H2. destruct (pass_two a1 ls) as [a2|e]; cbn [result_map]; reflexivity. }
  split; [apply H1|]. split; [apply H2|]. split; [apply H3|].
  exact (H3 (new_assembler true)).
Qed.

(** *** Data directives *)

Lemma land_0xFF_mod (v : Z) : Z.land v 0xFF = v mod 256.
Proof. change 0xFF with (Z.ones 8). rewrite Z.land_ones by lia. reflexivity. Qed.

Lemma land_0x0F_mod (v : Z) : Z.land v 0x0F = v mod 16.
Proof. change 0x0F with (Z.ones 4). rewrite Z.land_ones by lia. reflexivity. Qed.

Lemma shiftr_8_div (v : Z) : Z.shiftr v 8 = v / 256.
Proof. rewrite Z.shiftr_div_pow2 by lia. reflexivity. Qed.

Lemma pass_two_line_data (a a' : Assembler) (raw_line mnemonic operand_str : string)
    (bytes_out : list Z) :
  mnemonic_of raw_line = Some (mnemonic, operand_str) ->
  pass_two_line a raw_line = Ok (a', bytes_out) ->
  (mnemonic = "DB" \/ mnemonic = "BYTE" ->
   data_bytes (next_line a) (PyStr.split "," operand_str) = Ok bytes_out)
  /\ (mnemonic = "DW" \/ mnemonic = "WORD" ->
      data_words (next_line a) (PyStr.split "," operand_str) = Ok bytes_out).
Proof.
  intros Hm H. unfold mnemonic_of in Hm.
  pose proof (pass_two_line_statement a raw_line) as Hp.
  destruct (statement_of raw_line) as [line|]; [|discriminate].
  destruct (match_equ_inline line) eqn:Hinl; [discriminate|].
  assert (Hs : split_statement line = (mnemonic, operand_str)) by congruence.
  rewrite Hp in H. unfold pass_two_statement in H. rewrite Hs, Hinl in H.
  split; intros [-> | ->]; cbn [String.eqb Ascii.eqb Bool.eqb orb] in H;
    inv_bind H; injection H as _ <-; exact Hx.
Qed.

(** X12.  DB emits one byte per comma-separated operand, the value modulo
    256, in order; DW emits two, low byte first, which together hold the
    value modulo 65536.  An operand that is blank (DB alone, a doubled or
    trailing comma) makes the directive fail in [pass_two]. *)
Theorem X12_data_directives (a : Assembler) (fields : list string) (values : list Z) :
  Forall2 (fun f v => resolve_value a (trim f) = Ok v) fields values ->
  data_bytes a fields = Ok (map (fun v => v mod 256) values)
  /\ data_words a fields = Ok (flat_map (fun v => [v mod 256; v / 256 mod 256]) values)
  /\ Forall (fun v => v mod 256 + 256 * (v / 256 mod 256) = v mod 65536) values
  /\ (forall s s' raw_line operand_str bytes_out,
        pass_two_line s raw_line = Ok (s', bytes_out) ->
        (mnemonic_of raw_line = Some ("DB", operand_str)
         \/ mnemonic_of raw_line = Some ("BYTE", operand_str) ->
         data_bytes (next_line s) (PyStr.split "," operand_str) = Ok bytes_out)
        /\ (mnemonic_of raw_line = Some ("DW", operand_str)
            \/ mnemonic_of raw_line = Some ("WORD", operand_str) ->
            data_words (next_line s) (PyStr.split "," operand_str) = Ok bytes_out))
  /\ (forall s before after blank,
        PyStr.is_empty (trim blank) = true ->
        (exists e, data_bytes s (before ++ blank :: after) = Raise e)
        /\ (exists e, data_words s (before ++ blank :: after) = Raise e)).
Proof.
  intros H. split; [|split; [|split; [|split]]].
  - induction H as [|f v fields values Hf Hall IH]; [reflexivity|].
    cbn [data_bytes map]. rewrite Hf, IH. cbn [bind].
    rewrite land_0xFF_mod. reflexivity.
  - induction H as [|f v fields values Hf Hall IH]; [reflexivity|].
    cbn [data_words flat_map app]. rewrite Hf, IH. cbn [bind].
    rewrite !land_0xFF_mod, shiftr_8_div. reflexivity.
  - apply Forall_forall. intros v _.
    change 65536 with (256 * 256). rewrite Z.rem_mul_r by lia. reflexivity.
  - intros s s' raw_line operand_str bytes_out Hp. split; intros [Hm|Hm].
    + apply (proj1 (pass_two_line_data _ _ _ _ _ _ Hm Hp)). auto.
    + apply (proj1 (pass_two_line_data _ _ _ _ _ _ Hm Hp)). auto.
    + apply (proj2 (pass_two_line_data _ _ _ _ _ _ Hm Hp)). auto.
    + apply (proj2 (pass_two_line_data _ _ _ _ _ _ Hm Hp)). auto.
  - intros s before after blank Hb.
    assert (Hraise : resolve_value s (trim blank) = Raise (MissingValue (line_number s))).
    { unfold resolve_value. rewrite trim_idempotent, Hb. reflexivity. }
    assert (Hdb : forall l, exists e, data_bytes s (l ++ blank :: after) = Raise e).
    { induction l as [|f l IH]; cbn [app data_bytes].
      - rewrite Hraise. cbn [bind]. eauto.
      - destruct (resolve_value s (trim f)); cbn [bind]; [|eauto].
        destruct IH as [e ->]. cbn [bind]. eauto. }
    assert (Hdw : forall l, exists e, data_words s (l ++ blank :: after) = Raise e).
    { induction l as [|f l IH]; cbn [app data_words].
      - rewrite Hraise. cbn [bind]. eauto.
      - destruct (resolve_value s (trim f)); cbn [bind]; [|eauto].
        destruct IH as [e ->]. cbn [bind]. eauto. }
    split; [apply Hdb | apply Hdw].
Qed.

Lemma X12_data_directives_witness :
  let a := store_symbol (new_assembler true) "TOP" 0x1234 in
  Forall2 (fun f v => resolve_value a (trim f) = Ok v) ["TOP"; " -1"; "TOP+1 "]
    [0x1234; -1; 0x1235]
  /\ data_bytes a ["TOP"; " -1"; "TOP+1 "] = Ok [0x34; 0xFF; 0x35]
  /\ data_words a ["TOP"; " -1"; "TOP+1 "] = Ok [0x34; 0x12; 0xFF; 0xFF; 0x35; 0x12].
Proof.
  intros a.
  assert (H : Forall2 (fun f v => resolve_value a (trim f) = Ok v)
                ["TOP"; " -1"; "TOP+1 "] [0x1234; -1; 0x1235])
    by (repeat constructor).
  destruct (X12_data_directives a _ _ H) as (H1 & H2 & _).
  split; [exact H|]. split; [exact H1 | exact H2].
Defined.

(** *** Operand fields *)

(** Every opcode of the table that takes a register, an immediate, a
    condition or an address has its low nibble free. *)
Lemma table_low_nibble_free (mnemonic : string) (opcode : Z)
    (op_type : OperandType) (bits : Z) :
  dict_get mnemonic INSTRUCTION_SET = Some (opcode, op_type, bits) ->
  op_type = REGISTER \/ op_type = IMMEDIATE \/ op_type = CONDITION \/ op_type = ADDRESS ->
  Z.land opcode 0x0F = 0 /\ 0 <= opcode.
Proof.
  intros Hget Hty.
  pose (P := fun (m : string) (i : Instruction) =>
     let '(opc, ty, _) := i in
     match ty with
     | REGISTER | IMMEDIATE | CONDITION | ADDRESS =>
         (Z.land opc 0x0F =? 0) && (0 <=? opc)
     | _ => true
     end).
  assert (H : P mnemonic (opcode, op_type, bits) = true).
  { apply (dict_get_forallb P INSTRUCTION_SET); [vm_compute; reflexivity | exact Hget]. }
  unfold P in H.
  destruct Hty as [-> | [-> | [-> | ->]]];
    apply andb_true_iff in H; destruct H as [H1 H2];
    apply Z.eqb_eq in H1; apply Z.leb_le in H2; auto.
Qed.

(** [opcode | (v & 0xF)] is a sum when the low nibble of the opcode is free. *)
Lemma lor_nibble_is_sum (opcode v : Z) :
  Z.land opcode 0x0F = 0 ->
  Z.lor opcode (Z.land v 0x0F) = opcode + v mod 16.
Proof.
  intros H.
  assert (Hd : Z.land opcode (Z.land v 0x0F) = 0).
  { rewrite (Z.land_comm v), Z.land_assoc, H. apply Z.land_0_l. }
  rewrite <- Z.lxor_lor by exact Hd.
  rewrite <- Z.add_nocarry_lxor by exact Hd.
  rewrite land_0x0F_mod. reflexivity.
Qed.

Lemma resolve_register_range (a : Assembler) (token : string) (reg : Z) :
  resolve_register a token = Some reg -> 0 <= reg <= 15.
Proof.
  unfold resolve_register, parse_register.
  destruct (PyStr.startswith "R" (to_upper (trim token))).
  - destruct (parse_number _) as [val|].
    + destruct ((0 <=? val) && (val <=? 15)) eqn:E.
      * intros H. injection H as <-. apply andb_true_iff in E. lia.
      * destruct (dict_get _ _) as [v|]; [|discriminate].
        destruct ((0 <=? v) && (v <=? 15)) eqn:E'; [|discriminate].
        intros H. injection H as <-. apply andb_true_iff in E'. lia.
    + destruct (dict_get _ _) as [v|]; [|discriminate].
      destruct ((0 <=? v) && (v <=? 15)) eqn:E'; [|discriminate].
      intros H. injection H as <-. apply andb_true_iff in E'. lia.
  - destruct (dict_get _ _) as [v|]; [|discriminate].
    destruct ((0 <=? v) && (v <=? 15)) eqn:E'; [|discriminate].
    intros H. injection H as <-. apply andb_true_iff in E'. lia.
Qed.

(** X13.  A one-byte instruction with a register or an immediate operand
    (INC, ADD, SUB, LD, XCH, BBL, LDM) is encoded as opcode + v, where v is
    the register number, or the immediate value modulo 16, and the opcode is
    a multiple of 16: the byte b gives back the operand as b mod 16 and the
    opcode as b - b mod 16.  An immediate out of 0..15 is truncated, without
    any diagnostic. *)
Theorem X13_operand_nibble (a : Assembler) (mnemonic : string) (opcode : Z)
    (op_type : OperandType) (bits : Z) (operand_str : string) (bytes : list Z) :
  dict_get mnemonic INSTRUCTION_SET = Some (opcode, op_type, bits) ->
  op_type = REGISTER \/ op_type = IMMEDIATE ->
  mnemonic <> "ISZ" ->
  assemble_instruction a mnemonic (opcode, op_type, bits) operand_str = Ok bytes ->
  exists v b,
    bytes = [b] /\ b = opcode + v /\ 0 <= v < 16
    /\ b mod 16 = v /\ b - b mod 16 = opcode
    /\ (op_type = REGISTER -> resolve_register a operand_str = Some v)
    /\ (op_type = IMMEDIATE ->
        exists value, resolve_value a operand_str = Ok value /\ v = value mod 16).
Proof.
  intros Hget Hty Hisz H.
  destruct (table_low_nibble_free _ _ _ _ Hget) as [Hfree Hpos]; [tauto|].
  assert (Hmod : opcode mod 16 = 0) by (rewrite <- land_0x0F_mod; exact Hfree).
  assert (Hdec : forall v, 0 <= v < 16 ->
                           (opcode + v) mod 16 = v
                           /\ opcode + v - (opcode + v) mod 16 = opcode).
  { intros v Hv.
    assert (E : (opcode + v) mod 16 = v).
    { rewrite Z.add_mod, Hmod by lia. cbn [Z.add].
      rewrite Z.mod_mod by lia. apply Z.mod_small. exact Hv. }
    rewrite E. split; [reflexivity | lia]. }
  unfold assemble_instruction in H.
  destruct Hty as [-> | ->].
  - apply String.eqb_neq in Hisz. rewrite Hisz in H.
    destruct (resolve_register a operand_str) as [reg|] eqn:Hreg; [|discriminate].
    injection H as <-.
    assert (Hr : 0 <= reg <= 15).
    { apply (resolve_register_range a operand_str reg Hreg). }
    exists reg, (opcode + reg).
    rewrite lor_nibble_is_sum by exact Hfree.
    rewrite (Z.mod_small reg 16) by lia.
    destruct (Hdec reg) as [D1 D2]; [lia|].
    repeat split; auto; try lia. intros E. discriminate E.
  - inv_bind H. injection H as <-.
    exists (x mod 16), (opcode + x mod 16).
    rewrite lor_nibble_is_sum by exact Hfree.
    assert (Hv : 0 <= x mod 16 < 16) by (apply Z.mod_pos_bound; lia).
    destruct (Hdec (x mod 16) Hv) as [D1 D2].
    repeat split; auto; try lia; [intros E; discriminate E | eauto].
Qed.

Lemma X13_operand_nibble_witness :
  dict_get "LDM" INSTRUCTION_SET = Some (0xD0, IMMEDIATE, 4)
  /\ assemble_instruction (new_assembler true) "LDM" (0xD0, IMMEDIATE, 4) "0x25"
     = Ok [0xD5]
  /\ exists v b, [0xD5] = [b] /\ b = 0xD0 + v /\ 0 <= v < 16.
Proof.
  assert (H1 : dict_get "LDM" INSTRUCTION_SET = Some (0xD0, IMMEDIATE, 4))
    by (vm_compute; reflexivity).
  assert (H2 : assemble_instruction (new_assembler true) "LDM" (0xD0, IMMEDIATE, 4) "0x25"
               = Ok [0xD5]) by (vm_compute; reflexivity).
  split; [exact H1|]. split; [exact H2|].
  destruct (X13_operand_nibble (new_assembler true) "LDM" 0xD0 IMMEDIATE 4 "0x25" [0xD5]
              H1 (or_intror eq_refl)) as (v & b & Hb & Hsum & Hv & _);
    [discriminate | exact H2 |].
  exists v, b. auto.
Defined.

(** X14.  JUN and JMS keep the low 12 bits of their target: the bytes are
    opcode + (addr / 256) mod 16 and addr mod 256, from which
    256 * (b0 - opcode) + b1 = addr mod 4096.  Targets that are equal
    modulo 4096, negative ones included, assemble to the same bytes with no
    diagnostic. *)
Theorem X14_jump_target_is_12_bits (a : Assembler) (mnemonic : string)
    (opcode bits : Z) (operand_str : string) (addr : Z) :
  dict_get mnemonic INSTRUCTION_SET = Some (opcode, ADDRESS, bits) ->
  resolve_value a operand_str = Ok addr ->
  assemble_instruction a mnemonic (opcode, ADDRESS, bits) operand_str
  = Ok [opcode + addr / 256 mod 16; addr mod 256]
  /\ 256 * (addr / 256 mod 16) + addr mod 256 = addr mod 4096
  /\ (mnemonic = "JUN" /\ opcode = 0x40 \/ mnemonic = "JMS" /\ opcode = 0x50)
  /\ (forall other k,
        resolve_value a other = Ok (addr + 4096 * k) ->
        assemble_instruction a mnemonic (opcode, ADDRESS, bits) other
        = assemble_instruction a mnemonic (opcode, ADDRESS, bits) operand_str).
Proof.
  intros Hget Hv.
  destruct (table_low_nibble_free _ _ _ _ Hget) as [Hfree _]; [tauto|].
  assert (Henc : forall o v, resolve_value a o = Ok v ->
            assemble_instruction a mnemonic (opcode, ADDRESS, bits) o
            = Ok [opcode + v / 256 mod 16; v mod 256]).
  { intros o v Ho. unfold assemble_instruction. rewrite Ho. cbn [bind].
    rewrite lor_nibble_is_sum by exact Hfree.
    rewrite shiftr_8_div, land_0xFF_mod. reflexivity. }
  split; [apply Henc; exact Hv|]. split; [|split].
  - change 4096 with (256 * 16). rewrite Z.rem_mul_r by lia. lia.
  - pose (P := fun (m : string) (i : Instruction) =>
       let '(opc, ty, _) := i in
       match ty with
       | ADDRESS => ((m =? "JUN")%string && (opc =? 0x40))
                    || ((m =? "JMS")%string && (opc =? 0x50))
       | _ => true
       end).
    assert (H : P mnemonic (opcode, ADDRESS, bits) = true).
    { apply (dict_get_forallb P INSTRUCTION_SET); [vm_compute; reflexivity | exact Hget]. }
    unfold P in H. apply orb_true_iff in H.
    destruct H as [H|H]; apply andb_true_iff in H; destruct H as [H1 H2];
      apply String.eqb_eq in H1; apply Z.eqb_eq in H2; auto.
  - intros other k Hother. rewrite (Henc _ _ Hother), (Henc _ _ Hv).
    replace (addr + 4096 * k) with (addr + (16 * k) * 256) by lia.
    rewrite Z.div_add, Z.mod_add by lia.
    replace (addr / 256 + 16 * k) with (addr / 256 + k * 16) by lia.
    rewrite Z.mod_add by lia. reflexivity.
Qed.

Lemma X14_jump_target_is_12_bits_witness :
  dict_get "JMS" INSTRUCTION_SET = Some (0x50, ADDRESS, 12)
  /\ resolve_value (new_assembler true) "0x1ABC" = Ok 0x1ABC
  /\ assemble_instruction (new_assembler true) "JMS" (0x50, ADDRESS, 12) "0x1ABC"
     = Ok [0x5A; 0xBC]
  /\ assemble_instruction (new_assembler true) "JMS" (0x50, ADDRESS, 12) "0xABC"
     = assemble_instruction (new_assembler true) "JMS" (0x50, ADDRESS, 12) "0x1ABC".
Proof.
  assert (H1 : dict_get "JMS" INSTRUCTION_SET = Some (0x50, ADDRESS, 12))
    by (vm_compute; reflexivity).
  assert (H2 : resolve_value (new_assembler true) "0x1ABC" = Ok 0x1ABC)
    by (vm_compute; reflexivity).
  assert (H3 : resolve_value (new_assembler true) "0xABC" = Ok (0x1ABC + 4096 * -1))
    by (vm_compute; reflexivity).
  destruct (X14_jump_target_is_12_bits (new_assembler true) "JMS" 0x50 12 "0x1ABC"
              0x1ABC H1 H2) as (E1 & _ & _ & E4).
  split; [exact H1|]. split; [exact H2|]. split; [exact E1|].
  exact (E4 "0xABC" (-1) H3).
Defined.

(** X15.  SRC and JIN lose the low bit of their pair index: their opcodes
    0x21 and 0x31 have bit 0 set and the index is or-ed in unshifted, so the
    pairs 2k and 2k+1 (R0R1 and R2R3, R4R5 and R6R7, ...) assemble to the
    same byte. *)
Theorem X15_src_jin_merge_pairs (a : Assembler) (mnemonic : string)
    (inst : Instruction) (operand1 operand2 : string) (p q : Z) :
  mnemonic = "SRC" \/ mnemonic = "JIN" ->
  dict_get mnemonic INSTRUCTION_SET = Some inst ->
  resolve_register_pair a operand1 = Some p ->
  resolve_register_pair a operand2 = Some q ->
  p / 2 = q / 2 ->
  assemble_instruction a mnemonic inst operand1
  = assemble_instruction a mnemonic inst operand2
  /\ exists opcode, assemble_instruction a mnemonic inst operand1
                    = Ok [Z.lor opcode (Z.land p 0x07)]
                    /\ Z.testbit opcode 0 = true.
Proof.
  intros Hm Hget Hp Hq Hhalf.
  assert (Hinst : exists opcode bits,
             inst = (opcode, REGISTER_PAIR, bits) /\ Z.testbit opcode 0 = true
             /\ (mnemonic =? "FIM")%string = false).
  { destruct Hm as [-> | ->]; vm_compute in Hget; injection Hget as <-;
      do 2 eexists; repeat split. }
  destruct Hinst as (opcode & bits & -> & Hbit & Hfim).
  unfold assemble_instruction. rewrite Hfim, Hp, Hq.
  assert (E : Z.lor opcode (Z.land p 0x07) = Z.lor opcode (Z.land q 0x07)).
  { apply Z.bits_inj'. intros n Hn. rewrite !Z.lor_spec, !Z.land_spec.
    destruct (Z.eq_dec n 0) as [-> | Hne].
    - rewrite Hbit. reflexivity.
    - assert (Hb : forall x, Z.testbit x n = Z.testbit (x / 2) (n - 1)).
      { intros x. change 2 with (2 ^ 1). rewrite <- Z.shiftr_div_pow2 by lia.
        rewrite Z.shiftr_spec by lia. f_equal. lia. }
      rewrite (Hb p), (Hb q), Hhalf. reflexivity. }
  split; [rewrite E; reflexivity|]. exists opcode. split; [reflexivity | exact Hbit].
Qed.

Lemma X15_src_jin_merge_pairs_witness :
  resolve_register_pair (new_assembler true) "R0R1" = Some 0
  /\ resolve_register_pair (new_assembler true) "R2R3" = Some 1
  /\ assemble_instruction (new_assembler true) "SRC" (0x21, REGISTER_PAIR, 0) "R0R1"
     = assemble_instruction (new_assembler true) "SRC" (0x21, REGISTER_PAIR, 0) "R2R3".
Proof.
  assert (H0 : dict_get "SRC" INSTRUCTION_SET = Some (0x21, REGISTER_PAIR, 0))
    by (vm_compute; reflexivity).
  assert (H1 : resolve_register_pair (new_assembler true) "R0R1" = Some 0)
    by (vm_compute; reflexivity).
  assert (H2 : resolve_register_pair (new_assembler true) "R2R3" = Some 1)
    by (vm_compute; reflexivity).
  split; [exact H1|]. split; [exact H2|].
  exact (proj1 (X15_src_jin_merge_pairs (new_assembler true) "SRC" _ "R0R1" "R2R3" 0 1
                  (or_introl eq_refl) H0 H1 H2 eq_refl)).
Defined.

(** X16.  ISZ and JCN take exactly two comma-separated operands, any other
    count raising their operand error; ISZ wants a register first (else the
    invalid-register error, raised before the address is looked at), JCN a
    condition value.  They emit opcode + register (or condition modulo 16)
    and then only the low 8 bits of the target address. *)
Theorem X16_isz_jcn_operands (a : Assembler) (operand_str : string) :
  (List.length (map trim (PyStr.split "," operand_str)) <> 2%nat ->
   assemble_instruction a "ISZ" (0x70, REGISTER, 8) operand_str
   = Raise (IszOperands (line_number a))
   /\ assemble_instruction a "JCN" (0x10, CONDITION, 4) operand_str
      = Raise (JcnOperands (line_number a)))
  /\ (forall first target,
      map trim (PyStr.split "," operand_str) = [first; target] ->
      (resolve_register a first = None ->
       assemble_instruction a "ISZ" (0x70, REGISTER, 8) operand_str
       = Raise (InvalidIszRegister (line_number a) first))
      /\ (forall reg addr,
            resolve_register a first = Some reg ->
            resolve_value a target = Ok addr ->
            assemble_instruction a "ISZ" (0x70, REGISTER, 8) operand_str
            = Ok [0x70 + reg; addr mod 256])
      /\ (forall cond addr,
            resolve_value a first = Ok cond ->
            resolve_value a target = Ok addr ->
            assemble_instruction a "JCN" (0x10, CONDITION, 4) operand_str
            = Ok [0x10 + cond mod 16; addr mod 256]))
  /\ dict_get "ISZ" INSTRUCTION_SET = Some (0x70, REGISTER, 8)
  /\ dict_get "JCN" INSTRUCTION_SET = Some (0x10, CONDITION, 4).
Proof.
  unfold assemble_instruction.
  replace ("ISZ" =? "ISZ")%string with true by reflexivity.
  split; [|split; [|split; vm_compute; reflexivity]].
  - intros Hlen.
    destruct (map trim (PyStr.split "," operand_str)) as [|p0 [|p1 [|p2 ps]]];
      cbn [List.length Nat.eqb negb]; try (split; reflexivity).
    exfalso. apply Hlen. reflexivity.
  - intros first target ->. cbn [List.length Nat.eqb negb nth].
    split; [|split].
    + intros ->. reflexivity.
    + intros reg addr Hr Hv. rewrite Hr, Hv. cbn [bind].
      rewrite lor_nibble_is_sum by reflexivity. rewrite land_0xFF_mod.
      rewrite (Z.mod_small reg 16)
        by (pose proof (resolve_register_range _ _ _ Hr); lia).
      reflexivity.
    + intros cond addr Hc Hv. rewrite Hc, Hv. cbn [bind].
      rewrite lor_nibble_is_sum by reflexivity. rewrite land_0xFF_mod. reflexivity.
Qed.

Lemma X16_isz_jcn_operands_witness :
  let a := store_symbol (new_assembler true) "LOOP" 0x1F4 in
  map trim (PyStr.split "," "R5, LOOP") = ["R5"; "LOOP"]
  /\ resolve_register a "R5" = Some 5
  /\ resolve_value a "LOOP" = Ok 0x1F4
  /\ assemble_instruction a "ISZ" (0x70, REGISTER, 8) "R5, LOOP" = Ok [0x75; 0xF4]
  /\ assemble_instruction a "ISZ" (0x70, REGISTER, 8) "R5"
     = Raise (IszOperands (line_number a)).
Proof.
  intros a.
  assert (H0 : map trim (PyStr.split "," "R5, LOOP") = ["R5"; "LOOP"])
    by (vm_compute; reflexivity).
  assert (H1 : resolve_register a "R5" = Some 5) by (vm_compute; reflexivity).
  assert (H2 : resolve_value a "LOOP" = Ok 0x1F4) by (vm_compute; reflexivity).
  split; [exact H0|]. split; [exact H1|]. split; [exact H2|]. split.
  - exact (proj1 (proj2 (proj1 (proj2 (X16_isz_jcn_operands a "R5, LOOP"))
                           "R5" "LOOP" H0)) 5 0x1F4 H1 H2).
  - apply (proj1 (X16_isz_jcn_operands a "R5")). vm_compute. discriminate.
Defined.

(** *** The files of a successful run *)

(** X17.  A run that meets no fatal error returns [True] and writes the
    binary, the bytes of [pass_two], under the output path; when a listing
    is asked for and can be written it then writes the listing under its
    path: one entry per source line, the byte count of the binary, and the
    symbols of [pass_one] in the order they were first defined.  Nothing
    else is written; a listing path equal to the output path replaces the
    binary by the listing. *)
Theorem X17_successful_run_writes (a : Assembler) (fs : FileSystem)
    (input_file output_file listing_file : string) :
  fatal_error a fs input_file output_file = false ->
  exists lines a1 a2,
    readable fs input_file = Some lines
    /\ pass_one a lines = Ok a1 /\ pass_two a1 lines = Ok a2
    /\ fst (assemble_file a fs input_file output_file listing_file) = true
    /\ written (snd (assemble_file a fs input_file output_file listing_file))
       = (if negb (PyStr.is_empty listing_file) && writable fs listing_file
          then dict_set listing_file
                 (ListingFile (listing a2) (Z.of_nat (List.length (binary a2)))
                    (Z.of_nat (List.length lines)) (symbols a1))
                 (dict_set output_file (BinaryFile (binary a2)) (written fs))
          else dict_set output_file (BinaryFile (binary a2)) (written fs))
    /\ (negb (PyStr.is_empty listing_file) && writable fs listing_file = true ->
        listing_file = output_file ->
        dict_get output_file
          (written (snd (assemble_file a fs input_file output_file listing_file)))
        = Some (ListingFile (listing a2) (Z.of_nat (List.length (binary a2)))
                  (Z.of_nat (List.length lines)) (symbols a1))).
Proof.
  unfold fatal_error, assemble_file, write_binary, write_listing.
  destruct (readable fs input_file) as [lines|]; [|discriminate].
  destruct (pass_one a lines) as [a1|e] eqn:H1; [|discriminate].
  destruct (pass_two a1 lines) as [a2|e] eqn:H2; [|discriminate].
  destruct (writable fs output_file); [|discriminate].
  intros _. exists lines, a1, a2.
  split; [reflexivity|]. split; [exact H1|]. split; [exact H2|].
  assert (Hk : symbols a2 = symbols a1 /\ List.length (listing a2) = List.length lines).
  { unfold pass_two in H2.
    destruct (pass_two_loop_keeps _ _ _ H2) as (Hs & _ & _ & _ & _ & _ & Hl).
    split; [exact Hs | exact Hl]. }
  destruct Hk as (Hs & Hl).
  change (writable (write_file fs output_file (BinaryFile (binary a2))) listing_file)
    with (writable fs listing_file).
  destruct (negb (PyStr.is_empty listing_file)); cbn [andb fst snd];
    [|split; [reflexivity|]; split; [reflexivity | discriminate]].
  destruct (writable fs listing_file); cbn [fst snd];
    [|split; [reflexivity|]; split; [reflexivity | discriminate]].
  unfold write_file. cbn [written]. rewrite Hs, Hl.
  split; [reflexivity|]. split; [reflexivity|].
  intros _ <-. apply dict_get_set_same.
Qed.

Lemma X17_successful_run_writes_witness :
  let fs := one_source "prog.asm" ["L: JUN L" ++ lf] [] in
  fatal_error (new_assembler true) fs "prog.asm" "prog.bin" = false
  /\ fst (assemble_file (new_assembler true) fs "prog.asm" "prog.bin" "prog.lst") = true
  /\ written (snd (assemble_file (new_assembler true) fs "prog.asm" "prog.bin" "prog.lst"))
     = [("prog.bin", BinaryFile [0x40; 0x00]);
        ("prog.lst",
         ListingFile [LstCode 1 0 [0x40; 0x00] "L: JUN L"] 2 1 [("L", 0)])].
Proof.
  intros fs.
  assert (H : fatal_error (new_assembler true) fs "prog.asm" "prog.bin" = false)
    by (vm_compute; reflexivity).
  destruct (X17_successful_run_writes (new_assembler true) fs "prog.asm" "prog.bin"
              "prog.lst" H) as (lines & a1 & a2 & Hr & H1 & H2 & Hok & Hw & _).
  split; [exact H|]. split; [exact Hok|].
  vm_compute. reflexivity.
Defined.

(* ------------------------------------------------------------------ *)
(** *** The text of the listing *)

Lemma digit_char_cases (d : Z) :
  0 <= d < 16 ->
  In (Fmt.digit_char d)
     ["0"; "1"; "2"; "3"; "4"; "5"; "6"; "7"; "8"; "9";
      "A"; "B"; "C"; "D"; "E"; "F"]%char
  /\ PyStr.digit_value (Fmt.digit_char d) = Some d.
Proof.
  intros H.
  assert (Hd : d = 0 \/ d = 1 \/ d = 2 \/ d = 3 \/ d = 4 \/ d = 5 \/ d = 6
               \/ d = 7 \/ d = 8 \/ d = 9 \/ d = 10 \/ d = 11 \/ d = 12
               \/ d = 13 \/ d = 14 \/ d = 15) by lia.
  repeat (destruct Hd as [Hd | Hd]; [subst d; vm_compute; intuition congruence|]).
  subst d; vm_compute; intuition congruence.
Qed.

Lemma digit_char_plain (d : Z) :
  0 <= d < 16 ->
  (Fmt.digit_char d =? "_")%char = false
  /\ PyStr.isspace (Fmt.digit_char d) = false
  /\ PyStr.isspace_c (Fmt.digit_char d) = false.
Proof.
  intros H. destruct (digit_char_cases d H) as [Hin _].
  cbn [In] in Hin.
  repeat (destruct Hin as [Hin | Hin]; [rewrite <- Hin; vm_compute; auto|]).
  contradiction.
Qed.

Lemma digits_value_digit (d acc : Z) (s : string) :
  0 <= d < 16 ->
  PyStr.digits_value 16 false acc (String (Fmt.digit_char d) s)
  = PyStr.digits_value 16 false (acc * 16 + d) s.
Proof.
  intros H. cbn [PyStr.digits_value].
  destruct (digit_char_plain d H) as [-> _].
  destruct (digit_char_cases d H) as [_ ->].
  replace (d <? 16) with true by (symmetry; apply Z.ltb_lt; lia).
  reflexivity.
Qed.

Lemma digits_acc_value (fuel : nat) : forall (n : Z) (acc : string),
  0 <= n < 16 ^ Z.of_nat fuel ->
  PyStr.digits_value 16 false 0 (Fmt.digits_acc 16 fuel n acc)
  = PyStr.digits_value 16 false n acc.
Proof.
  induction fuel as [|fuel IH]; intros n acc Hn.
  - cbn in Hn. replace n with 0 by lia. reflexivity.
  - cbn [Fmt.digits_acc].
    assert (Hm : 0 <= n mod 16 < 16) by (apply Z.mod_pos_bound; lia).
    assert (Hq : n = 16 * (n / 16) + n mod 16) by (apply Z.div_mod; lia).
    destruct (n / 16 =? 0) eqn:E.
    + apply Z.eqb_eq in E. rewrite digits_value_digit by exact Hm.
      f_equal. lia.
    + apply Z.eqb_neq in E.
      rewrite IH.
      * rewrite digits_value_digit by exact Hm. f_equal. lia.
      * rewrite Nat2Z.inj_succ, Z.pow_succ_r in Hn by lia.
        split; [apply Z.div_pos; lia|].
        apply Z.div_lt_upper_bound; lia.
Qed.

Lemma digits_fuel (n : Z) :
  0 <= n -> n < 16 ^ Z.of_nat (S (Z.to_nat (Z.log2 n))).
Proof.
  intros Hn.
  rewrite Nat2Z.inj_succ, Z2Nat.id by apply Z.log2_nonneg.
  destruct (Z.eq_dec n 0) as [->|Hz].
  - vm_compute. reflexivity.
  - assert (H := Z.log2_spec n ltac:(lia)).
    apply Z.lt_le_trans with (2 ^ Z.succ (Z.log2 n)); [lia|].
    apply Z.pow_le_mono_l. lia.
Qed.

Lemma digits_value_hex (n : Z) :
  0 <= n -> PyStr.digits_value 16 false 0 (Fmt.digits 16 n) = Some n.
Proof.
  intros Hn. unfold Fmt.digits.
  rewrite digits_acc_value by (split; [exact Hn | apply digits_fuel; exact Hn]).
  reflexivity.
Qed.

Lemma digits_value_zeros (k : nat) (s : string) :
  PyStr.digits_value 16 false 0 (Fmt.fill "0" k ++ s)
  = PyStr.digits_value 16 false 0 s.
Proof.
  induction k as [|k IH]; [reflexivity|].
  cbn [Fmt.fill String.append].
  rewrite (digits_value_digit 0 0) by lia. exact IH.
Qed.

Lemma digits_acc_head (base : Z) (fuel : nat) : forall (n : Z) (acc : string),
  exists m rest,
    Fmt.digits_acc base (S fuel) n acc
    = String (Fmt.digit_char (m mod base)) rest.
Proof.
  induction fuel as [|fuel IH]; intros n acc.
  - cbn [Fmt.digits_acc]. destruct (n / base =? 0); do 2 eexists; reflexivity.
  - change (Fmt.digits_acc base (S (S fuel)) n acc)
      with (let acc' := String (Fmt.digit_char (n mod base)) acc in
            if n / base =? 0 then acc'
            else Fmt.digits_acc base (S fuel) (n / base) acc').
    cbv zeta. destruct (n / base =? 0).
    + do 2 eexists; reflexivity.
    + apply IH.
Qed.

Lemma digits_acc_last (base : Z) (fuel : nat) : forall (n : Z) (acc : string),
  PyStr.is_empty acc = false ->
  PyStr.last_char (Fmt.digits_acc base fuel n acc) = PyStr.last_char acc.
Proof.
  induction fuel as [|fuel IH]; intros n acc Hacc; [reflexivity|].
  cbn [Fmt.digits_acc].
  assert (Hl : PyStr.last_char (String (Fmt.digit_char (n mod base)) acc)
               = PyStr.last_char acc)
    by (destruct acc; [discriminate | reflexivity]).
  destruct (n / base =? 0); [exact Hl|].
  rewrite IH by reflexivity. exact Hl.
Qed.

Lemma digits_last (base n : Z) :
  PyStr.last_char (Fmt.digits base n) = Some (Fmt.digit_char (n mod base)).
Proof.
  unfold Fmt.digits. cbn [Fmt.digits_acc].
  destruct (n / base =? 0); [reflexivity|].
  rewrite digits_acc_last by reflexivity. reflexivity.
Qed.

Lemma last_char_append (s t : string) :
  PyStr.is_empty t = false ->
  PyStr.last_char (s ++ t) = PyStr.last_char t.
Proof.
  intros Ht. induction s as [|c s IH]; [reflexivity|].
  cbn [String.append]. 
  change (PyStr.last_char (String c (s ++ t)))
    with (match s ++ t with
          | EmptyString => Some c
          | String _ _ => PyStr.last_char (s ++ t)
          end).
  destruct (s ++ t) eqn:E; [|exact IH].
  destruct s; [cbn in E; subst t; discriminate | discriminate].
Qed.

Lemma last_char_cons (c : ascii) (t : string) :
  PyStr.is_empty t = false ->
  PyStr.last_char (String c t) = PyStr.last_char t.
Proof. destruct t; [discriminate | reflexivity]. Qed.

Lemma rstrip_class_last (p : ascii -> bool) (s : string) (c : ascii) :
  PyStr.last_char s = Some c -> p c = false ->
  PyStr.rstrip_class p s = s.
Proof.
  intros Hl Hp. induction s as [|d s IH]; [reflexivity|].
  cbn [PyStr.rstrip_class].
  destruct s as [|e s].
  - cbn in Hl. injection Hl as ->. cbn. rewrite Hp. reflexivity.
  - rewrite IH by exact Hl. rewrite andb_false_r. reflexivity.
Qed.

Lemma hex0_shape (w : nat) (n : Z) :
  0 <= n ->
  PyStr.digits_value 16 false 0 (Fmt.hex0 w n) = Some n
  /\ PyStr.last_char (Fmt.hex0 w n) = Some (Fmt.digit_char (n mod 16))
  /\ exists m rest, Fmt.hex0 w n = String (Fmt.digit_char (m mod 16)) rest.
Proof.
  intros Hn. unfold Fmt.hex0.
  replace (n <? 0) with false by (symmetry; apply Z.ltb_ge; lia).
  cbv zeta.
  destruct (digits_acc_head 16 (Z.to_nat (Z.log2 n)) n "") as (m & rest & Hd).
  fold (Fmt.digits 16 n) in Hd.
  split; [|split].
  - rewrite digits_value_zeros. apply digits_value_hex. exact Hn.
  - rewrite last_char_append by (rewrite Hd; reflexivity).
    apply digits_last.
  - destruct (w - String.length (Fmt.digits 16 n))%nat as [|k].
    + exists m, rest. exact Hd.
    + exists 0. eexists. reflexivity.
Qed.

Lemma symbol_value_text_strip (p : ascii -> bool) (addr : Z) :
  p "0"%char = false ->
  (forall d, 0 <= d < 16 -> p (Fmt.digit_char d) = false) ->
  PyStr.rstrip_class p (PyStr.lstrip_class p (symbol_value_text addr))
  = symbol_value_text addr.
Proof.
  intros H0 Hp. unfold symbol_value_text.
  cbn [String.append PyStr.lstrip_class]. rewrite H0.
  assert (Hl : exists d, 0 <= d < 16
               /\ PyStr.last_char (Fmt.hex0 4 addr) = Some (Fmt.digit_char d)
               /\ PyStr.is_empty (Fmt.hex0 4 addr) = false).
  { destruct (Z.ltb_spec addr 0) as [Hneg|Hpos].
    - exists ((- addr) mod 16). split; [apply Z.mod_pos_bound; lia|].
      unfold Fmt.hex0. replace (addr <? 0) with true by (symmetry; apply Z.ltb_lt; lia).
      cbv zeta. split; [|reflexivity].
      destruct (digits_acc_head 16 (Z.to_nat (Z.log2 (- addr))) (- addr) "")
        as (m & rest & Hd).
      fold (Fmt.digits 16 (- addr)) in Hd.
      rewrite last_char_cons.
      + rewrite last_char_append by (rewrite Hd; reflexivity). apply digits_last.
      + rewrite Hd. destruct (Fmt.fill "0" (4 - 1 - String.length (String (Fmt.digit_char (m mod 16)) rest))); reflexivity.
    - destruct (hex0_shape 4 addr Hpos) as (_ & Hlast & m & rest & Hh).
      exists (addr mod 16). split; [apply Z.mod_pos_bound; lia|].
      split; [exact Hlast|]. rewrite Hh. reflexivity. }
  destruct Hl as (d & Hd & Hlast & Hne).
  apply rstrip_class_last with (c := Fmt.digit_char d).
  - rewrite !last_char_cons; [exact Hlast | exact Hne | reflexivity].
  - apply Hp. exact Hd.
Qed.

Lemma symbol_value_text_trim (addr : Z) :
  trim (symbol_value_text addr) = symbol_value_text addr.
Proof.
  unfold trim, PyStr.strip, PyStr.rstrip, PyStr.lstrip.
  apply symbol_value_text_strip;
    [reflexivity | intros d Hd; apply (digit_char_plain d Hd)].
Qed.

Lemma parse_number_symbol_value_text (addr : Z) :
  parse_number (symbol_value_text addr)
  = if addr <? 0 then None else Some addr.
Proof.
  unfold parse_number. rewrite symbol_value_text_trim.
  change (PyStr.is_empty (symbol_value_text addr)) with false.
  assert (Hsw : forall t, PyStr.startswith "0x" (String "0" (String "x" t)) = true)
    by (intros [|c t]; reflexivity).
  change (symbol_value_text addr)
    with (String "0" (String "x" (Fmt.hex0 4 addr))) at 1.
  rewrite Hsw. cbn [orb].
  unfold PyStr.int.
  rewrite symbol_value_text_strip
    by (first [reflexivity | intros d Hd; apply (digit_char_plain d Hd)]).
  unfold symbol_value_text. cbn [String.append].
  change (PyStr.has_base_prefix 16 (String "0" (String "x" (Fmt.hex0 4 addr))))
    with true.
  cbv iota. cbn [PyStr.drop].
  destruct (Z.ltb_spec addr 0) as [Hneg|Hpos].
  - unfold Fmt.hex0.
    replace (addr <? 0) with true by (symmetry; apply Z.ltb_lt; lia).
    reflexivity.
  - destruct (hex0_shape 4 addr Hpos) as (Hval & _ & m & rest & Hh).
    assert (Hm : 0 <= m mod 16 < 16) by (apply Z.mod_pos_bound; lia).
    destruct (digit_char_plain _ Hm) as (Hu & _).
    assert (Hskip : PyStr.skip_underscore (Fmt.hex0 4 addr) = Fmt.hex0 4 addr).
    { rewrite Hh. unfold PyStr.skip_underscore.
      destruct (Fmt.digit_char (m mod 16)) as [[] [] [] [] [] [] [] []];
        try reflexivity. discriminate. }
    rewrite Hskip. rewrite Hh at 1. rewrite Hu. rewrite Hval.
    cbn [option_map]. f_equal. lia.
Qed.

(** X18.  The value column of the symbol table of the listing,
    [0x] followed by the value in at least four upper-case hexadecimal
    digits, is a number literal of the assembler: read back, it gives the
    value of the symbol, whatever symbols are defined.  This holds for
    values that are not negative; a negative value is printed with its sign
    after the [0x], which is no number literal. *)
Theorem X18_symbol_values_read_back (a : Assembler) (addr : Z) :
  parse_number (symbol_value_text addr)
  = (if addr <? 0 then None else Some addr)
  /\ (0 <= addr -> resolve_value a (symbol_value_text addr) = Ok addr).
Proof.
  split; [apply parse_number_symbol_value_text|].
  intros Hpos. unfold resolve_value, resolve_simple_value.
  rewrite !symbol_value_text_trim.
  change (PyStr.is_empty (symbol_value_text addr)) with false. cbv iota.
  rewrite parse_number_symbol_value_text.
  replace (addr <? 0) with false by (symmetry; apply Z.ltb_ge; lia).
  reflexivity.
Qed.

Lemma X18_symbol_values_read_back_witness :
  parse_number (symbol_value_text 0x2A) = Some 0x2A
  /\ symbol_value_text 0x2A = "0x002A"
  /\ resolve_value (new_assembler false) "0x002A" = Ok 0x2A.
Proof.
  split; [reflexivity|]. split; [reflexivity|].
  apply (proj2 (X18_symbol_values_read_back (new_assembler false) 0x2A)).
  lia.
Defined.

Lemma length_append (s t : string) :
  String.length (s ++ t) = (String.length s + String.length t)%nat.
Proof. induction s as [|c s IH]; cbn; [reflexivity | now rewrite IH]. Qed.

Lemma length_fill (c : ascii) (n : nat) : String.length (Fmt.fill c n) = n.
Proof. induction n as [|n IH]; cbn; [reflexivity | now rewrite IH]. Qed.

Lemma digits_acc_length (base : Z) (fuel : nat) :
  forall (n : Z) (acc : string) (k : nat),
  1 < base -> 0 <= n < base ^ Z.of_nat (S k) ->
  (String.length (Fmt.digits_acc base fuel n acc) <= S k + String.length acc)%nat.
Proof.
  induction fuel as [|fuel IH]; intros n acc k Hb Hn; [cbn; lia|].
  cbn [Fmt.digits_acc].
  destruct (n / base =? 0) eqn:E; [cbn; lia|].
  apply Z.eqb_neq in E.
  assert (Hq : 0 <= n / base) by (apply Z.div_pos; lia).
  destruct k as [|k].
  - exfalso. apply E. apply Z.div_small. change (Z.of_nat 1) with 1 in Hn.
    rewrite Z.pow_1_r in Hn. exact Hn.
  - specialize (IH (n / base) (String (Fmt.digit_char (n mod base)) acc) k Hb).
    cbn [String.length] in IH. 
    assert (Hlt : n / base < base ^ Z.of_nat (S k)).
    { rewrite (Nat2Z.inj_succ (S k)), Z.pow_succ_r in Hn by lia.
      apply Z.div_lt_upper_bound; lia. }
    specialize (IH (conj Hq Hlt)). lia.
Qed.

Lemma digits_length (base n : Z) (k : nat) :
  1 < base -> 0 <= n < base ^ Z.of_nat (S k) ->
  (String.length (Fmt.digits base n) <= S k)%nat.
Proof.
  intros Hb Hn. unfold Fmt.digits.
  assert (H := digits_acc_length base (S (Z.to_nat (Z.log2 n))) n "" k Hb Hn).
  cbn [String.length] in H. lia.
Qed.

Lemma length_hex0 (w : nat) (n : Z) :
  0 <= n < 16 ^ Z.of_nat w -> (0 < w)%nat ->
  String.length (Fmt.hex0 w n) = w.
Proof.
  intros Hn Hw. unfold Fmt.hex0.
  replace (n <? 0) with false by (symmetry; apply Z.ltb_ge; lia).
  cbv zeta. rewrite length_append, length_fill.
  destruct w as [|k]; [lia|].
  assert (H := digits_length 16 n k ltac:(lia) Hn). lia.
Qed.

Lemma length_dec (w : nat) (n : Z) :
  0 <= n < 10 ^ Z.of_nat w -> (0 < w)%nat ->
  String.length (Fmt.dec w n) = w.
Proof.
  intros Hn Hw. unfold Fmt.dec.
  replace (n <? 0) with false by (symmetry; apply Z.ltb_ge; lia).
  cbv zeta. rewrite length_append, length_fill.
  destruct w as [|k]; [lia|].
  assert (H := digits_length 10 n k ltac:(lia) Hn). lia.
Qed.

Lemma length_ljust (w : nat) (s : string) :
  (String.length s <= w)%nat -> String.length (Fmt.ljust w s) = w.
Proof.
  intros H. unfold Fmt.ljust. rewrite length_append, length_fill. lia.
Qed.

Lemma length_byte_str (bytes : list Z) :
  Forall is_byte bytes ->
  String.length (byte_str bytes) = (3 * List.length bytes)%nat.
Proof.
  unfold byte_str. induction 1 as [|b bytes Hb Hbs IH]; [reflexivity|].
  cbn [map String.concat].
  assert (Hl : String.length (Fmt.hex0 2 b ++ " ") = 3%nat).
  { rewrite length_append, length_hex0; [reflexivity | | lia].
    unfold is_byte in Hb. change (16 ^ Z.of_nat 2) with 256. exact Hb. }
  destruct (map (fun b0 : Z => Fmt.hex0 2 b0 ++ " ") bytes) eqn:E.
  - destruct bytes; [|discriminate]. rewrite Hl. reflexivity.
  - cbn [String.append]. rewrite length_append, Hl, IH.
    cbn [List.length]. lia.
Qed.

(** X19.  The columns of the listing.  For a line number below 10000 and
    an address from 0 to 65535, every line of the listing is a prefix of
    fixed width followed by the source line: 24 characters before the
    source of a line with code (line number, address, and up to four
    bytes of two hexadecimal digits each), 32 before that of an ORG line,
    35 before a line without code, and 37 before a line that holds no
    statement.  So the source text of the different kinds of line does not
    start in the same column. *)
Theorem X19_listing_columns (n addr : Z) (bytes : list Z) (text : string) :
  0 <= n < 10000 -> 0 <= addr < 65536 ->
  Forall is_byte bytes -> (List.length bytes <= 4)%nat ->
  text_at 24 text (listing_text (LstCode n addr bytes text))
  /\ text_at 32 text (listing_text (LstOrg n addr text))
  /\ text_at 35 text (listing_text (LstPlain n text))
  /\ text_at 37 text (listing_text (LstBlank n text)).
Proof.
  intros Hn Haddr Hbytes Hlen.
  assert (Ld : String.length (Fmt.dec 4 n) = 4%nat)
    by (apply length_dec; [exact Hn | lia]).
  assert (Lh : String.length (Fmt.hex0 4 addr) = 4%nat)
    by (apply length_hex0; [exact Haddr | lia]).
  assert (Lb : String.length (Fmt.ljust 12 (byte_str bytes)) = 12%nat)
    by (apply length_ljust; rewrite length_byte_str by exact Hbytes; lia).
  unfold text_at, listing_text. repeat split.
  - exists (Fmt.dec 4 n ++ ": " ++ Fmt.hex0 4 addr ++ " "
            ++ Fmt.ljust 12 (byte_str bytes) ++ " ").
    split; [now rewrite !append_assoc|].
    rewrite !length_append, Ld, Lh, Lb. reflexivity.
  - exists (Fmt.dec 4 n ++ ": " ++ Fmt.hex0 4 addr ++ Fmt.fill " " 22).
    split; [now rewrite !append_assoc|].
    rewrite !length_append, Ld, Lh. reflexivity.
  - exists (Fmt.dec 4 n ++ ":" ++ Fmt.fill " " 30).
    split; [now rewrite !append_assoc|].
    rewrite !length_append, Ld. reflexivity.
  - exists (Fmt.dec 4 n ++ ":" ++ Fmt.fill " " 30 ++ "; ").
    split; [now rewrite !append_assoc|].
    rewrite !length_append, Ld. reflexivity.
Qed.

Lemma X19_listing_columns_witness :
  listing_text (LstCode 12 0x1F0 [0x40; 0x00] "L: JUN L")
  = "  12: 01F0 40 00        L: JUN L"
  /\ text_at 24 "L: JUN L" (listing_text (LstCode 12 0x1F0 [0x40; 0x00] "L: JUN L"))
  /\ text_at 32 "L: JUN L" (listing_text (LstOrg 12 0x1F0 "L: JUN L")).
Proof.
  split; [reflexivity|].
  assert (H := X19_listing_columns 12 0x1F0 [0x40; 0x00] "L: JUN L"
                 ltac:(lia) ltac:(lia)
                 ltac:(repeat first [apply Forall_cons | apply Forall_nil];
                       unfold is_byte; lia)
                 ltac:(cbn; lia)).
  split; [exact (proj1 H) | exact (proj1 (proj2 H))].
Defined.

(* ------------------------------------------------------------------ *)
(** *** duckasm *)

Lemma pattern_needs_its_letter {A : Type} (x : ascii) (r : Re.regex)
    (s : string) (caps : list string) (k : string -> list string -> option A) :
  (forall c rest, s = String c rest ->
     PyStr.isspace c = false
     /\ (PyStr.upper_char c =? PyStr.upper_char x)%char = false) ->
  Re.rmatch (Re.Many PyStr.isspace 0 None >> lit_i x >> r)%regex s caps k = None.
Proof.
  intros H. destruct s as [|c rest]; [reflexivity|].
  destruct (H c rest eq_refl) as [Hsp Hx].
  cbn. rewrite Hsp. cbn. rewrite Hx. reflexivity.
Qed.

Lemma contains_upper_false (c x : ascii) (letters : string) :
  PyStr.contains (PyStr.upper_char c) letters = false ->
  PyStr.contains (PyStr.upper_char x) letters = true ->
  (PyStr.upper_char c =? PyStr.upper_char x)%char = false.
Proof.
  intros Hc Hx. destruct (Ascii.eqb_spec (PyStr.upper_char c) (PyStr.upper_char x)) as [E|E];
    [|reflexivity].
  rewrite E in Hc. congruence.
Qed.

Lemma leading_letter_decides (line : string) :
  (forall c rest, PyStr.lstrip line = String c rest ->
     PyStr.contains (PyStr.upper_char c) "RSPH" = false) ->
  Duck.preprocess_line line = line /\ Duck.process line = line.
Proof.
  intros H.
  assert (Hs : forall x, PyStr.contains (PyStr.upper_char x) "RSPH" = true ->
               forall c rest, PyStr.lstrip line = String c rest ->
               PyStr.isspace c = false
               /\ (PyStr.upper_char c =? PyStr.upper_char x)%char = false).
  { intros x Hx c rest E. split.
    - exact (lstrip_class_head _ _ _ _ E).
    - apply contains_upper_false with (letters := "RSPH"); [eauto | exact Hx]. }
  assert (Hp : Duck.preprocess_line line = line).
  { unfold Duck.preprocess_line, Duck.match_halt, Re.re_match,
      Duck.rbf_pattern, Duck.say_pattern, Duck.putn_pattern, Duck.halt_pattern.
    cbv zeta.
    rewrite (pattern_needs_its_letter "R") by (apply Hs; reflexivity).
    rewrite (pattern_needs_its_letter "S") by (apply Hs; reflexivity).
    rewrite (pattern_needs_its_letter "P") by (apply Hs; reflexivity).
    rewrite (pattern_needs_its_letter "H") by (apply Hs; reflexivity).
    reflexivity. }
  split; [exact Hp|].
  unfold Duck.process. rewrite Hp. destruct (_ || _); reflexivity.
Qed.

(** X20.  A pseudo-operation is looked for at the start of the line only:
    a line whose first character after the leading whitespace is none of
    R, S, P, H (in either case) comes out of the preprocessor as it went
    in.  So a pseudo-operation behind a label is not expanded, and the
    lines of an expansion are themselves left alone. *)
Theorem X20_pseudo_ops_start_the_line (line : string) :
  (forall c rest, PyStr.lstrip line = String c rest ->
     PyStr.contains (PyStr.upper_char c) "RSPH" = false) ->
  Duck.preprocess_line line = line /\ Duck.process line = line.
Proof. apply leading_letter_decides. Qed.

Lemma X20_pseudo_ops_start_the_line_witness :
  Duck.preprocess_line "LOOP: HALT ; stop" = "LOOP: HALT ; stop"
  /\ Duck.process "    JMS DUCK_HALT" = "    JMS DUCK_HALT".
Proof.
  split.
  - apply (X20_pseudo_ops_start_the_line "LOOP: HALT ; stop").
    intros c rest E. vm_compute in E. injection E as <- _. reflexivity.
  - apply (X20_pseudo_ops_start_the_line "    JMS DUCK_HALT").
    intros c rest E. vm_compute in E. injection E as <- _. reflexivity.
Defined.

Lemma lstrip_class_all (p : ascii -> bool) (s t : string) :
  all_of p s = true ->
  PyStr.lstrip_class p (s ++ t) = PyStr.lstrip_class p t.
Proof.
  induction s as [|c s IH]; cbn; [reflexivity|].
  intros H. apply andb_prop in H. destruct H as [-> H]. auto.
Qed.

Lemma run_length_all (p : ascii -> bool) (s t : string) :
  all_of p s = true ->
  Re.run_length p (s ++ t) = (String.length s + Re.run_length p t)%nat.
Proof.
  induction s as [|c s IH]; cbn; [reflexivity|].
  intros H. apply andb_prop in H. destruct H as [-> H]. now rewrite IH.
Qed.

Lemma drop_length_append (s t : string) :
  PyStr.drop (String.length s) (s ++ t) = t.
Proof. induction s as [|c s IH]; cbn; [destruct t; reflexivity | exact IH]. Qed.

Lemma take_length_append (s t : string) :
  PyStr.take (String.length s) (s ++ t) = s.
Proof. induction s as [|c s IH]; cbn; [destruct t; reflexivity | now rewrite IH]. Qed.

Lemma backtrack_first {A : Type} (n lo : nat) (s : string)
    (k : string -> option A) (x : A) :
  (lo <= n)%nat -> k (PyStr.drop n s) = Some x ->
  Re.backtrack n lo s k = Some x.
Proof.
  intros Hlo Hk.
  destruct n; cbn [Re.backtrack];
    (replace (_ <? lo)%nat with false by (symmetry; apply Nat.ltb_ge; lia));
    rewrite Hk; reflexivity.
Qed.

Lemma backtrack_zero {A : Type} (lo : nat) (s : string) (k : string -> option A) :
  Re.backtrack 0 lo s k = if (0 <? lo)%nat then None else k s.
Proof.
  cbn [Re.backtrack]. destruct (0 <? lo)%nat; [reflexivity|].
  change (PyStr.drop 0 s) with s. destruct (k s); reflexivity.
Qed.

Lemma upper_char_not_space (c x : ascii) :
  PyStr.upper_char c = x -> PyStr.isupper x = true -> PyStr.isspace c = false.
Proof.
  intros <-.
  destruct c as [[] [] [] [] [] [] [] []]; vm_compute; congruence.
Qed.

Lemma word_not_space (c : ascii) :
  PyStr.isword c = true -> PyStr.isspace c = false.
Proof. destruct c as [[] [] [] [] [] [] [] []]; vm_compute; congruence. Qed.

(** Whitespace, then the first letter of a keyword. *)
Lemma many_space_at_letter {A : Type} (c : ascii) (s : string)
    (k : string -> option A) :
  PyStr.isspace c = false ->
  Re.backtrack (Re.run_length PyStr.isspace (String c s)) 0 (String c s) k
  = k (String c s).
Proof.
  intros H. cbn [Re.run_length]. rewrite H. apply backtrack_zero.
Qed.

(** A run of whitespace, not empty, before a character that is none. *)
Lemma many_space_gap {A : Type} (gap : string) (c : ascii) (s : string)
    (lo : nat) (k : string -> option A) (x : A) :
  all_of PyStr.isspace gap = true -> (lo <= String.length gap)%nat ->
  PyStr.isspace c = false ->
  k (String c s) = Some x ->
  Re.backtrack (Re.run_length PyStr.isspace (gap ++ String c s)) lo
    (gap ++ String c s) k = Some x.
Proof.
  intros Hgap Hlo Hc Hk.
  rewrite run_length_all by exact Hgap.
  cbn [Re.run_length]. rewrite Hc, Nat.add_0_r.
  apply backtrack_first; [exact Hlo|].
  rewrite drop_length_append. exact Hk.
Qed.

Lemma upper_keyword4 (w : string) (a b c d : ascii) :
  PyStr.upper w = String a (String b (String c (String d ""))) ->
  exists a' b' c' d',
    w = String a' (String b' (String c' (String d' "")))
    /\ PyStr.upper_char a' = a /\ PyStr.upper_char b' = b
    /\ PyStr.upper_char c' = c /\ PyStr.upper_char d' = d.
Proof.
  destruct w as [|a' [|b' [|c' [|d' [|? ?]]]]]; cbn; intros H; try discriminate.
  injection H as Ha Hb Hc Hd. exists a', b', c', d'. auto.
Qed.

Lemma upper_keyword3 (w : string) (a b c : ascii) :
  PyStr.upper w = String a (String b (String c "")) ->
  exists a' b' c',
    w = String a' (String b' (String c' ""))
    /\ PyStr.upper_char a' = a /\ PyStr.upper_char b' = b
    /\ PyStr.upper_char c' = c.
Proof.
  destruct w as [|a' [|b' [|c' [|? ?]]]]; cbn; intros H; try discriminate.
  injection H as Ha Hb Hc. exists a', b', c'. auto.
Qed.

Lemma lstrip_keyword (ws : string) (c : ascii) (s : string) :
  all_of PyStr.isspace ws = true -> PyStr.isspace c = false ->
  PyStr.lstrip (ws ++ String c s) = String c s.
Proof.
  intros Hws Hc. unfold PyStr.lstrip. rewrite lstrip_class_all by exact Hws.
  cbn. rewrite Hc. reflexivity.
Qed.

Ltac other_letter :=
  rewrite pattern_needs_its_letter
    by (let E := fresh in
        intros ? ? E; injection E as <- _;
        split; [assumption |
                repeat match goal with H : PyStr.upper_char _ = _ |- _ =>
                  rewrite H; clear H end; reflexivity]).

Lemma rmatch_lit_i {A : Type} (x c : ascii) (s : string) (caps : list string)
    (k : string -> list string -> option A) :
  PyStr.upper_char c = PyStr.upper_char x ->
  Re.rmatch (lit_i x) (String c s) caps k = k s caps.
Proof. intros H. cbn. rewrite H, Ascii.eqb_refl. reflexivity. Qed.

Lemma rmatch_lit {A : Type} (x : ascii) (s : string) (caps : list string)
    (k : string -> list string -> option A) :
  Re.rmatch (lit x) (String x s) caps k = k s caps.
Proof. cbn. rewrite Ascii.eqb_refl. reflexivity. Qed.

Ltac letters :=
  repeat (rewrite rmatch_lit_i by (first [assumption | eassumption])).

(** X21.  HALT.  A line that starts, after any whitespace, with the word
    HALT in any mix of cases is replaced by a call of DUCK_HALT, whatever
    follows the word (an operand or a comment is dropped); the word must
    end there: followed by a letter, a digit or an underscore it is no
    HALT and the line is kept. *)
Theorem X21_halt (ws halt rest : string) :
  all_of PyStr.isspace ws = true -> PyStr.upper halt = "HALT" ->
  Duck.preprocess_line (ws ++ halt ++ rest)
  = if Duck.word_ends rest then "    JMS DUCK_HALT" ++ lf
    else ws ++ halt ++ rest.
Proof.
  intros Hws Hh.
  destruct (upper_keyword4 _ _ _ _ _ Hh) as (h & a & l & t & -> & Hh1 & Ha & Hl & Ht).
  assert (Hsp : PyStr.isspace h = false)
    by (apply (upper_char_not_space h "H"); [exact Hh1 | reflexivity]).
  unfold Duck.preprocess_line. cbn [String.append].
  rewrite lstrip_keyword by assumption.
  unfold Re.re_match, Duck.rbf_pattern, Duck.say_pattern, Duck.putn_pattern.
  do 3 other_letter.
  unfold Duck.match_halt, Duck.halt_pattern.
  cbn [Re.rmatch]. rewrite many_space_at_letter by exact Hsp.
  change "H"%char with (PyStr.upper_char "H") in Hh1.
  change "A"%char with (PyStr.upper_char "A") in Ha.
  change "L"%char with (PyStr.upper_char "L") in Hl.
  change "T"%char with (PyStr.upper_char "T") in Ht.
  letters.
  destruct (Duck.word_ends rest); reflexivity.
Qed.

Lemma X21_halt_witness :
  Duck.preprocess_line "  Halt ; stop" = "    JMS DUCK_HALT" ++ lf
  /\ Duck.preprocess_line "HALTED" = "HALTED".
Proof.
  split.
  - exact (X21_halt "  " "Halt" " ; stop" eq_refl eq_refl).
  - exact (X21_halt "" "HALT" "ED" eq_refl eq_refl).
Defined.

Lemma take_group (w t : string) :
  PyStr.take (String.length (w ++ t) - String.length t) (w ++ t) = w.
Proof.
  rewrite length_append, Nat.add_sub. apply take_length_append.
Qed.

Lemma run_length_word_ends (rest : string) :
  Duck.word_ends rest = true -> Re.run_length PyStr.isword rest = 0%nat.
Proof.
  destruct rest as [|c rest]; cbn; [reflexivity|].
  destruct (PyStr.isword c); [discriminate | reflexivity].
Qed.

(** A word, taken whole by a greedy [\w+]. *)
Lemma many_word {A : Type} (w rest : string) (k : string -> option A) (x : A) :
  all_of PyStr.isword w = true -> w <> "" ->
  Re.run_length PyStr.isword rest = 0%nat ->
  k rest = Some x ->
  Re.backtrack (Re.run_length PyStr.isword (w ++ rest)) 1 (w ++ rest) k = Some x.
Proof.
  intros Hw Hne Hrest Hk.
  rewrite run_length_all, Hrest, Nat.add_0_r by exact Hw.
  apply backtrack_first.
  - destruct w; [congruence | cbn; lia].
  - rewrite drop_length_append. exact Hk.
Qed.

Lemma all_of_head (p : ascii -> bool) (w : string) :
  all_of p w = true -> w <> "" ->
  exists c w', w = String c w' /\ p c = true.
Proof.
  destruct w as [|c w']; [congruence|]. cbn. intros H _.
  apply andb_prop in H. destruct H as [H _]. eauto.
Qed.

(** X22.  SAY, PUTN and RBF.  With the keyword in any mix of cases, any
    whitespace before it and at least one whitespace character after it:
    SAY and a quoted character other than the quote give a call of DUCK_SAY
    and a DB of the quoted character; PUTN and a word that starts with R or
    r give a call of DUCK_PUTN and a DB of that word as written; RBF, a
    word, a comma directly after it and a second word give a call of
    DUCK_RBF and a DB of LOW and HIGH of the first word and of the second
    word.  Whatever follows on the line is dropped. *)
Theorem X22_operand_pseudo_ops (ws gap : string) :
  all_of PyStr.isspace ws = true ->
  all_of PyStr.isspace gap = true -> gap <> "" ->
  (forall say c rest,
     PyStr.upper say = "SAY" -> c <> "'"%char ->
     Duck.preprocess_line (ws ++ say ++ gap ++ "'" ++ String c ("'" ++ rest))
     = "    JMS DUCK_SAY" ++ lf ++ "    DB '" ++ String c "'" ++ lf)
  /\ (forall putn r w rest,
        PyStr.upper putn = "PUTN" -> PyStr.upper_char r = "R"%char ->
        all_of PyStr.isword w = true -> w <> "" ->
        Duck.word_ends rest = true ->
        Duck.preprocess_line (ws ++ putn ++ gap ++ String r w ++ rest)
        = "    JMS DUCK_PUTN" ++ lf ++ "    DB " ++ String r w ++ lf)
  /\ (forall rbf label gap2 fid rest,
        PyStr.upper rbf = "RBF" ->
        all_of PyStr.isword label = true -> label <> "" ->
        all_of PyStr.isspace gap2 = true ->
        all_of PyStr.isword fid = true -> fid <> "" ->
        Duck.word_ends rest = true ->
        Duck.preprocess_line
          (ws ++ rbf ++ gap ++ label ++ "," ++ gap2 ++ fid ++ rest)
        = "    JMS DUCK_RBF" ++ lf
          ++ "    DB LOW(" ++ label ++ "), HIGH(" ++ label ++ "), " ++ fid ++ lf).
Proof.
  intros Hws Hgap Hne.
  assert (Hlen : (1 <= String.length gap)%nat)
    by (destruct gap; [congruence | cbn; lia]).
  split; [|split].
  - intros say c rest Hsay Hc.
    destruct (upper_keyword3 _ _ _ _ Hsay) as (s & a & y & -> & Hs & Ha & Hy).
    assert (Hsp : PyStr.isspace s = false)
      by (apply (upper_char_not_space s "S"); [exact Hs | reflexivity]).
    unfold Duck.preprocess_line.
    change (ws ++ String s (String a (String y "")) ++ gap ++ "'" ++ String c ("'" ++ rest))
      with (ws ++ String s (String a (String y (gap ++ String "'" (String c (String "'" rest)))))).
    rewrite lstrip_keyword by assumption.
    unfold Re.re_match at 1. unfold Duck.rbf_pattern.
    other_letter.
    assert (Hm : Re.re_match Duck.say_pattern
                   (String s (String a (String y
                      (gap ++ String "'" (String c (String "'" rest))))))
                 = Some [String c ""]).
    { unfold Re.re_match, Duck.say_pattern.
      cbn [Re.rmatch]. rewrite many_space_at_letter by exact Hsp.
      change "S"%char with (PyStr.upper_char "S") in Hs.
      change "A"%char with (PyStr.upper_char "A") in Ha.
      change "Y"%char with (PyStr.upper_char "Y") in Hy.
      letters.
      apply many_space_gap; [exact Hgap | exact Hlen | reflexivity |].
      rewrite rmatch_lit. cbn [Re.rmatch].
      replace (negb (c =? "'")%char) with true
        by (symmetry; apply negb_true_iff, Ascii.eqb_neq; exact Hc).
      rewrite rmatch_lit.
      replace (String.length (String c (String "'" rest))
               - String.length (String "'" rest))%nat
        with 1%nat by (cbn [String.length]; lia).
      reflexivity. }
    rewrite Hm. reflexivity.
  - intros putn r w rest Hputn Hr Hw Hwne Hrest.
    destruct (upper_keyword4 _ _ _ _ _ Hputn) as (p & u & t & n & -> & Hp & Hu & Ht & Hn).
    assert (Hsp : PyStr.isspace p = false)
      by (apply (upper_char_not_space p "P"); [exact Hp | reflexivity]).
    assert (Hrsp : PyStr.isspace r = false)
      by (apply (upper_char_not_space r "R"); [exact Hr | reflexivity]).
    unfold Duck.preprocess_line.
    change (ws ++ String p (String u (String t (String n ""))) ++ gap ++ String r w ++ rest)
      with (ws ++ String p (String u (String t (String n (gap ++ String r (w ++ rest)))))).
    rewrite lstrip_keyword by assumption.
    unfold Re.re_match at 1 2. unfold Duck.rbf_pattern, Duck.say_pattern.
    do 2 other_letter.
    assert (Hm : Re.re_match Duck.putn_pattern
                   (String p (String u (String t (String n
                      (gap ++ String r (w ++ rest))))))
                 = Some [String r w]).
    { unfold Re.re_match, Duck.putn_pattern.
      cbn [Re.rmatch]. rewrite many_space_at_letter by exact Hsp.
      change "P"%char with (PyStr.upper_char "P") in Hp.
      change "U"%char with (PyStr.upper_char "U") in Hu.
      change "T"%char with (PyStr.upper_char "T") in Ht.
      change "N"%char with (PyStr.upper_char "N") in Hn.
      change "R"%char with (PyStr.upper_char "R") in Hr.
      letters.
      apply many_space_gap; [exact Hgap | exact Hlen | exact Hrsp |].
      letters.
      apply many_word;
        [exact Hw | exact Hwne | apply run_length_word_ends; exact Hrest |].
      cbn [app].
      change (String r (w ++ rest)) with (String r w ++ rest).
      rewrite take_group. reflexivity. }
    rewrite Hm. reflexivity.
  - intros rbf label gap2 fid rest Hrbf Hl Hlne Hgap2 Hf Hfne Hrest.
    destruct (upper_keyword3 _ _ _ _ Hrbf) as (r & b & f & -> & Hr & Hb & Hfl).
    assert (Hsp : PyStr.isspace r = false)
      by (apply (upper_char_not_space r "R"); [exact Hr | reflexivity]).
    destruct (all_of_head _ _ Hl Hlne) as (l0 & label' & El & Hl0).
    destruct (all_of_head _ _ Hf Hfne) as (f0 & fid' & Ef & Hf0).
    unfold Duck.preprocess_line.
    change (ws ++ String r (String b (String f "")) ++ gap ++ label ++ "," ++ gap2 ++ fid ++ rest)
      with (ws ++ String r (String b (String f (gap ++ label ++ String "," (gap2 ++ fid ++ rest))))).
    rewrite lstrip_keyword by assumption.
    assert (Hm : Re.re_match Duck.rbf_pattern
                   (String r (String b (String f
                      (gap ++ label ++ String "," (gap2 ++ fid ++ rest)))))
                 = Some [label; fid]).
    { unfold Re.re_match, Duck.rbf_pattern.
      cbn [Re.rmatch]. rewrite many_space_at_letter by exact Hsp.
      change "R"%char with (PyStr.upper_char "R") in Hr.
      change "B"%char with (PyStr.upper_char "B") in Hb.
      change "F"%char with (PyStr.upper_char "F") in Hfl.
      letters.
      rewrite El at 1 2. cbn [String.append].
      apply many_space_gap;
        [exact Hgap | exact Hlen | apply word_not_space; exact Hl0 |].
      change (String l0 (label' ++ String "," (gap2 ++ fid ++ rest)))
        with (String l0 label' ++ String "," (gap2 ++ fid ++ rest)).
      rewrite <- El.
      apply many_word; [exact Hl | exact Hlne | reflexivity |].
      cbn [app]. rewrite take_group. rewrite rmatch_lit.
      cbn [Re.rmatch].
      rewrite Ef at 1 2. cbn [String.append].
      apply many_space_gap;
        [exact Hgap2 | lia | apply word_not_space; exact Hf0 |].
      change (String f0 (fid' ++ rest)) with (String f0 fid' ++ rest).
      rewrite <- Ef.
      apply many_word;
        [exact Hf | exact Hfne | apply run_length_word_ends; exact Hrest |].
      rewrite take_group. reflexivity. }
    rewrite Hm. reflexivity.
Qed.

Lemma X22_operand_pseudo_ops_witness :
  Duck.preprocess_line "say 'A' ; greet"
  = "    JMS DUCK_SAY" ++ lf ++ "    DB 'A'" ++ lf
  /\ Duck.preprocess_line "PUTN r3+1"
     = "    JMS DUCK_PUTN" ++ lf ++ "    DB r3" ++ lf
  /\ Duck.preprocess_line "RBF TABLE, 7 ; load"
     = "    JMS DUCK_RBF" ++ lf ++ "    DB LOW(TABLE), HIGH(TABLE), 7" ++ lf.
Proof.
  assert (Hne : " " <> "") by discriminate.
  destruct (X22_operand_pseudo_ops "" " " eq_refl eq_refl Hne)
    as (Hsay & Hputn & Hrbf).
  split; [|split].
  - apply (Hsay "say" "A"%char " ; greet"); [reflexivity | discriminate].
  - apply (Hputn "PUTN" "r"%char "3" "+1"); try reflexivity. discriminate.
  - apply (Hrbf "RBF" "TABLE" " " "7" " ; load"); try reflexivity; discriminate.
Defined.

(** **** Lines *)

Lemma word_not_newline (c : ascii) :
  PyStr.isword c = true -> not_newline c = true.
Proof. destruct c as [[] [] [] [] [] [] [] []]; vm_compute; congruence. Qed.

Lemma append_nil_r (s : string) : s ++ "" = s.
Proof. induction s as [|c s IH]; cbn; [reflexivity | now rewrite IH]. Qed.

Lemma split_lines_nonempty (c : ascii) (s : string) :
  Duck.split_lines (String c s) <> [].
Proof.
  cbn. destruct (c =? "010")%char; [discriminate|].
  destruct (Duck.split_lines s); discriminate.
Qed.

(** A text without newline is one line, unless it is empty. *)
Lemma split_lines_one (a : string) :
  all_of not_newline a = true ->
  Duck.split_lines a = if PyStr.is_empty a then [] else [a].
Proof.
  induction a as [|c a IH]; [reflexivity|].
  cbn [all_of]. intros H. apply andb_prop in H. destruct H as [Hc Ha].
  unfold not_newline in Hc. apply negb_true_iff in Hc.
  cbn [Duck.split_lines PyStr.is_empty]. rewrite Hc, (IH Ha).
  destruct a; reflexivity.
Qed.

(** The first line of a text. *)
Lemma split_lines_first (a t : string) :
  all_of not_newline a = true ->
  Duck.split_lines (a ++ String "010" t) = (a ++ lf) :: Duck.split_lines t.
Proof.
  induction a as [|c a IH]; [reflexivity|].
  cbn [all_of]. intros H. apply andb_prop in H. destruct H as [Hc Ha].
  unfold not_newline in Hc. apply negb_true_iff in Hc.
  cbn [Duck.split_lines String.append]. rewrite Hc, (IH Ha). reflexivity.
Qed.

(** Reading a text that follows a complete line. *)
Lemma split_lines_append (x y : string) :
  Duck.split_lines ((x ++ lf) ++ y)
  = (Duck.split_lines (x ++ lf) ++ Duck.split_lines y)%list.
Proof.
  induction x as [|c x IH]; [reflexivity|].
  cbn [Duck.split_lines String.append]. rewrite IH.
  destruct (c =? "010")%char; [reflexivity|].
  destruct (Duck.split_lines (x ++ lf)) eqn:E; [|reflexivity].
  exfalso. destruct x; cbn in E; [discriminate|].
  revert E. apply split_lines_nonempty.
Qed.

Lemma split_line (t : string) :
  all_of not_newline t = true
  \/ exists a t', t = a ++ String "010" t' /\ all_of not_newline a = true.
Proof.
  induction t as [|c t IH]; [left; reflexivity|].
  destruct (c =? "010")%char eqn:E.
  - right. apply Ascii.eqb_eq in E. subst c. exists "", t. split; reflexivity.
  - destruct IH as [IH | (a & t' & -> & Ha)].
    + left. cbn. unfold not_newline at 1. rewrite E, IH. reflexivity.
    + right. exists (String c a), t'. split; [reflexivity|].
      cbn. unfold not_newline at 1. rewrite E, Ha. reflexivity.
Qed.

Lemma text_lines_ind (P : string -> Prop) :
  (forall a, all_of not_newline a = true -> P a) ->
  (forall a t, all_of not_newline a = true -> P t -> P (a ++ String "010" t)) ->
  forall t, P t.
Proof.
  intros Hlast Hline t.
  remember (String.length t) as n eqn:Hn.
  revert t Hn. induction n as [n IH] using lt_wf_ind. intros t Hn.
  destruct (split_line t) as [Ht | (a & t' & -> & Ha)]; [auto|].
  apply Hline; [exact Ha|].
  apply (IH (String.length t')); [|reflexivity].
  subst n. rewrite length_append. cbn. lia.
Qed.

(** **** What a match tells *)

Lemma backtrack_inv {A : Type} (n lo : nat) (s : string)
    (k : string -> option A) (x : A) :
  Re.backtrack n lo s k = Some x ->
  exists m, (lo <= m <= n)%nat /\ k (PyStr.drop m s) = Some x.
Proof.
  induction n as [|n IH]; cbn [Re.backtrack].
  - destruct (0 <? lo)%nat eqn:E; [discriminate|].
    apply Nat.ltb_ge in E. destruct (k (PyStr.drop 0 s)) eqn:Ek; [|discriminate].
    intros H. exists 0%nat. split; [lia | congruence].
  - destruct (S n <? lo)%nat eqn:E; [discriminate|].
    apply Nat.ltb_ge in E. destruct (k (PyStr.drop (S n) s)) eqn:Ek.
    + intros H. exists (S n). split; [lia | congruence].
    + intros H. destruct (IH H) as (m & Hm & Hk). exists m. split; [|exact Hk].
      split; [lia|]. lia.
Qed.

Lemma take_drop (n : nat) (s : string) : PyStr.take n s ++ PyStr.drop n s = s.
Proof.
  revert s. induction n as [|n IH]; intros [|c s]; cbn; try reflexivity.
  now rewrite IH.
Qed.

Lemma take_run (p : ascii -> bool) (n : nat) (s : string) :
  (n <= Re.run_length p s)%nat ->
  all_of p (PyStr.take n s) = true /\ String.length (PyStr.take n s) = n.
Proof.
  revert s. induction n as [|n IH]; intros [|c s]; cbn; intros H; try (split; reflexivity).
  - lia.
  - destruct (p c); [|lia].
    destruct (IH s ltac:(lia)) as [-> ->]. split; reflexivity.
Qed.

(** A greedy repetition took a run [w] of its class. *)
Lemma many_inv {A : Type} (p : ascii -> bool) (lo : nat) (s : string)
    (k : string -> option A) (x : A) :
  Re.backtrack (Re.run_length p s) lo s k = Some x ->
  exists w s', s = w ++ s' /\ all_of p w = true
               /\ (lo <= String.length w)%nat /\ k s' = Some x.
Proof.
  intros H. destruct (backtrack_inv _ _ _ _ _ H) as (m & Hm & Hk).
  destruct (take_run p m s ltac:(lia)) as [Hall Hlen].
  exists (PyStr.take m s), (PyStr.drop m s).
  rewrite take_drop, Hlen. repeat split; [exact Hall | lia | exact Hk].
Qed.

Lemma lit_i_inv {A : Type} (x : ascii) (s : string) (caps : list string)
    (k : string -> list string -> option A) (v : A) :
  Re.rmatch (lit_i x) s caps k = Some v ->
  exists c s', s = String c s'
               /\ PyStr.upper_char c = PyStr.upper_char x
               /\ k s' caps = Some v.
Proof.
  destruct s as [|c s']; cbn; [discriminate|].
  destruct (Ascii.eqb_spec (PyStr.upper_char c) (PyStr.upper_char x)); [|discriminate].
  eauto.
Qed.

Lemma lit_inv {A : Type} (x : ascii) (s : string) (caps : list string)
    (k : string -> list string -> option A) (v : A) :
  Re.rmatch (lit x) s caps k = Some v ->
  exists s', s = String x s' /\ k s' caps = Some v.
Proof.
  destruct s as [|c s']; cbn; [discriminate|].
  destruct (Ascii.eqb_spec c x); [|discriminate]. subst c. eauto.
Qed.

Ltac inv_lit_i H :=
  apply lit_i_inv in H;
  let c := fresh "c" in let s := fresh "s" in
  let E := fresh "E" in let U := fresh "U" in
  destruct H as (c & s & E & U & H); subst.

Ltac inv_many H :=
  apply many_inv in H;
  let w := fresh "w" in let s := fresh "s" in
  let E := fresh "E" in let W := fresh "W" in let L := fresh "L" in
  destruct H as (w & s & E & W & L & H); subst.

Lemma rbf_groups (s : string) (m : list string) :
  Re.re_match Duck.rbf_pattern s = Some m ->
  exists label fid,
    m = [label; fid]
    /\ all_of PyStr.isword label = true /\ all_of PyStr.isword fid = true.
Proof.
  unfold Re.re_match, Duck.rbf_pattern. intros H.
  cbn [Re.rmatch] in H.
  inv_many H. inv_lit_i H. cbn [Re.rmatch] in H. inv_lit_i H.
  cbn [Re.rmatch] in H. inv_lit_i H. cbn [Re.rmatch] in H.
  inv_many H. inv_many H.
  apply lit_inv in H. destruct H as (s' & -> & H). cbn [Re.rmatch] in H.
  inv_many H. inv_many H.
  injection H as <-. cbn [app]. rewrite !take_group. eauto.
Qed.

Lemma take_group_cons (r : ascii) (w t : string) :
  PyStr.take (String.length (String r (w ++ t)) - String.length t)
    (String r (w ++ t)) = String r w.
Proof. exact (take_group (String r w) t). Qed.

Lemma putn_group (s : string) (m : list string) :
  Re.re_match Duck.putn_pattern s = Some m ->
  exists r w,
    m = [String r w]
    /\ PyStr.upper_char r = "R"%char /\ all_of PyStr.isword w = true.
Proof.
  unfold Re.re_match, Duck.putn_pattern. intros H.
  cbn [Re.rmatch] in H.
  inv_many H. inv_lit_i H. cbn [Re.rmatch] in H. inv_lit_i H.
  cbn [Re.rmatch] in H. inv_lit_i H. cbn [Re.rmatch] in H. inv_lit_i H.
  cbn [Re.rmatch] in H. inv_many H.
  inv_lit_i H. cbn [Re.rmatch] in H. inv_many H.
  injection H as <-. cbn [app].
  exists c3, w1. split; [|auto].
  f_equal. apply take_group_cons.
Qed.

(** The character of a SAY, and where it stands in the text. *)
Lemma say_group (s : string) (m : list string) :
  Re.re_match Duck.say_pattern s = Some m ->
  exists c before after,
    m = [String c ""] /\ s = before ++ String c (String "'" after).
Proof.
  unfold Re.re_match, Duck.say_pattern. intros H.
  cbn [Re.rmatch] in H.
  inv_many H. inv_lit_i H. cbn [Re.rmatch] in H. inv_lit_i H.
  cbn [Re.rmatch] in H. inv_lit_i H. cbn [Re.rmatch] in H.
  inv_many H.
  apply lit_inv in H. destruct H as (s' & -> & H). cbn [Re.rmatch] in H.
  destruct s' as [|ch s']; [discriminate|].
  destruct (negb (ch =? "'")%char); [|discriminate].
  apply lit_inv in H. destruct H as (s'' & -> & H).
  injection H as <-. cbn [app].
  exists ch, (w ++ String c (String c0 (String c1 (w0 ++ "'")))), s''.
  split; [f_equal; exact (take_group (String ch "") (String "'" s''))|].
  rewrite !append_assoc. cbn [String.append]. rewrite !append_assoc. reflexivity.
Qed.

(** **** Running the preprocessor on its own output *)

Lemma concat_cons (x : string) (xs : list string) :
  String.concat "" (x :: xs) = x ++ String.concat "" xs.
Proof. destruct xs; cbn; [now rewrite append_nil_r | reflexivity]. Qed.

Lemma concat_app (xs ys : list string) :
  String.concat "" (xs ++ ys)
  = String.concat "" xs ++ String.concat "" ys.
Proof.
  induction xs as [|x xs IH]; [reflexivity|].
  change ((x :: xs) ++ ys)%list with (x :: (xs ++ ys))%list.
  rewrite !concat_cons, IH, append_assoc. reflexivity.
Qed.

Lemma expand_append (x y : string) :
  Duck.expand ((x ++ lf) ++ y)
  = Duck.expand (x ++ lf) ++ Duck.expand y.
Proof.
  unfold Duck.expand.
  rewrite split_lines_append, map_app, concat_app. reflexivity.
Qed.

Lemma expand_line (a : string) :
  all_of not_newline a = true ->
  Duck.expand (a ++ lf) = Duck.process (a ++ lf).
Proof.
  intros Ha. unfold Duck.expand.
  change (a ++ lf) with (a ++ String "010" "") at 1.
  rewrite split_lines_first by exact Ha. reflexivity.
Qed.

Lemma lstrip_suffix (l : string) : exists ws, l = ws ++ PyStr.lstrip l.
Proof.
  unfold PyStr.lstrip. induction l as [|c l IH]; [exists ""; reflexivity|].
  cbn. destruct (PyStr.isspace c); [|exists ""; reflexivity].
  destruct IH as [ws IH]. exists (String c ws). cbn. now rewrite <- IH.
Qed.

(** In a line, a newline is the last character. *)
Lemma line_newline_last (a e : string) :
  all_of not_newline a = true -> e = "" \/ e = lf ->
  forall x y, a ++ e = x ++ String "010" y -> y = "".
Proof.
  intros Ha He. induction a as [|c a IH]; intros x y E.
  - destruct He as [-> | ->]; destruct x as [|d [|? ?]]; cbn in E; try discriminate.
    injection E as <-. reflexivity.
  - cbn in Ha. apply andb_prop in Ha. destruct Ha as [Hc Ha].
    destruct x as [|d x]; cbn in E; injection E as -> E.
    + discriminate.
    + exact (IH Ha x y E).
Qed.

(** A line that starts, after four spaces, with a letter that begins no
    pseudo-operation. *)
Lemma expansion_line_fixed (c : ascii) (body : string) :
  PyStr.isspace c = false ->
  PyStr.contains (PyStr.upper_char c) "RSPH" = false ->
  Duck.process ("    " ++ String c body) = "    " ++ String c body.
Proof.
  intros Hsp Hc. apply leading_letter_decides.
  intros d rest E. cbn in E. rewrite Hsp in E. injection E as <- _. exact Hc.
Qed.

Ltac norm_append :=
  repeat (progress (cbn [String.append]; rewrite ?append_assoc)).

(** An expansion of one line. *)
Lemma one_line_fixed (c : ascii) (body out : string) :
  out = "    " ++ String c body ++ lf ->
  PyStr.isspace c = false ->
  PyStr.contains (PyStr.upper_char c) "RSPH" = false ->
  all_of not_newline (String c body) = true ->
  Duck.expand out = out /\ exists x, out = x ++ lf.
Proof.
  intros -> Hsp Hc Hn. split.
  - change ("    " ++ String c body ++ lf) with (("    " ++ String c body) ++ lf).
    rewrite expand_line by exact Hn.
    apply expansion_line_fixed; assumption.
  - exists ("    " ++ String c body). reflexivity.
Qed.

(** An expansion of two lines. *)
Lemma two_lines_fixed (c1 c2 : ascii) (b1 b2 out : string) :
  out = "    " ++ String c1 b1 ++ lf ++ "    " ++ String c2 b2 ++ lf ->
  PyStr.isspace c1 = false ->
  PyStr.contains (PyStr.upper_char c1) "RSPH" = false ->
  all_of not_newline (String c1 b1) = true ->
  PyStr.isspace c2 = false ->
  PyStr.contains (PyStr.upper_char c2) "RSPH" = false ->
  all_of not_newline (String c2 b2) = true ->
  Duck.expand out = out /\ exists x, out = x ++ lf.
Proof.
  intros -> Hsp1 Hc1 Hn1 Hsp2 Hc2 Hn2.
  destruct (one_line_fixed c1 b1 _ eq_refl Hsp1 Hc1 Hn1) as [H1 _].
  destruct (one_line_fixed c2 b2 _ eq_refl Hsp2 Hc2 Hn2) as [H2 _].
  assert (E : "    " ++ String c1 b1 ++ lf ++ "    " ++ String c2 b2 ++ lf
              = (("    " ++ String c1 b1) ++ lf) ++ ("    " ++ String c2 b2 ++ lf))
    by (norm_append; reflexivity).
  split.
  - rewrite E, expand_append.
    change (("    " ++ String c1 b1) ++ lf) with ("    " ++ String c1 b1 ++ lf).
    rewrite H1, H2. reflexivity.
  - exists ("    " ++ String c1 b1 ++ lf ++ "    " ++ String c2 b2).
    norm_append. reflexivity.
Qed.

Lemma expansion_goal (P Q : Prop) (e : string) : P /\ Q -> P /\ (e = lf -> Q).
Proof. intros [HP HQ]. auto. Qed.

(** What [process] makes of a line: text that ends with a newline if the
    line did, and that [expand] leaves as it is. *)
Lemma process_line (a e : string) :
  all_of not_newline a = true -> e = "" \/ e = lf -> a ++ e <> "" ->
  Duck.expand (Duck.process (a ++ e)) = Duck.process (a ++ e)
  /\ (e = lf -> exists x, Duck.process (a ++ e) = x ++ lf).
Proof.
  intros Ha He Hne.
  assert (Hread : Duck.split_lines (a ++ e) = [a ++ e]).
  { destruct He as [-> | ->].
    - rewrite append_nil_r in *. rewrite split_lines_one by exact Ha.
      destruct a; [congruence | reflexivity].
    - change (a ++ lf) with (a ++ String "010" "").
      rewrite split_lines_first by exact Ha. reflexivity. }
  assert (Hkeep : Duck.process (a ++ e) = a ++ e ->
            Duck.expand (Duck.process (a ++ e)) = Duck.process (a ++ e)
            /\ (e = lf -> exists x, Duck.process (a ++ e) = x ++ lf)).
  { intros Hp. split.
    - rewrite Hp at 1. unfold Duck.expand. rewrite Hread. 
      cbn [map String.concat]. reflexivity.
    - intros ->. exists a. exact Hp. }
  destruct (string_dec (Duck.process (a ++ e)) (a ++ e)) as [Hsame | Hdiff];
    [auto|].
  clear Hkeep. revert Hdiff. unfold Duck.process.
  destruct (_ || _); [congruence|].
  unfold Duck.preprocess_line.
  destruct (Re.re_match Duck.rbf_pattern _) as [m|] eqn:Erbf.
  { intros _. destruct (rbf_groups _ _ Erbf) as (label & fid & -> & Hl & Hf).
    apply (all_of_weaken _ _ _ word_not_newline) in Hl, Hf.
    apply expansion_goal.
    apply (two_lines_fixed "J" "D" "MS DUCK_RBF"
             ("B LOW(" ++ label ++ "), HIGH(" ++ label ++ "), " ++ fid));
      try reflexivity.
    - unfold Duck.group. cbn [nth Nat.sub]. norm_append. reflexivity.
    - repeat (progress (cbn [all_of String.append]; rewrite ?all_of_append)).
      rewrite Hl, Hf. reflexivity. }
  destruct (Re.re_match Duck.say_pattern _) as [m|] eqn:Esay.
  { intros _. destruct (say_group _ _ Esay) as (c & before & after & -> & Hs).
    assert (Hc : not_newline c = true).
    { unfold not_newline. apply negb_true_iff, Ascii.eqb_neq. intros ->.
      destruct (lstrip_suffix (a ++ e)) as [ws Hws]. rewrite Hs in Hws.
      rewrite <- append_assoc in Hws.
      discriminate (line_newline_last a e Ha He _ _ Hws). }
    apply expansion_goal.
    apply (two_lines_fixed "J" "D" "MS DUCK_SAY" ("B '" ++ String c "'"));
      try reflexivity.
    cbn. rewrite Hc. reflexivity. }
  destruct (Re.re_match Duck.putn_pattern _) as [m|] eqn:Eputn.
  { intros _. destruct (putn_group _ _ Eputn) as (r & w & -> & Hr & Hw).
    apply (all_of_weaken _ _ _ word_not_newline) in Hw.
    assert (Hrn : not_newline r = true).
    { destruct r as [[] [] [] [] [] [] [] []]; try reflexivity; discriminate. }
    apply expansion_goal.
    apply (two_lines_fixed "J" "D" "MS DUCK_PUTN" ("B " ++ String r w));
      try reflexivity.
    cbn. rewrite Hrn, Hw. reflexivity. }
  destruct (Duck.match_halt _); [|congruence].
  intros _. apply expansion_goal.
  apply (one_line_fixed "J" "MS DUCK_HALT"); reflexivity.
Qed.

(** The loop changes nothing in a text it has produced. *)
Lemma expand_twice (text : string) :
  Duck.expand (Duck.expand text) = Duck.expand text.
Proof.
  induction text as [a Ha | a t Ha IH] using text_lines_ind.
  - destruct a as [|c a]; [reflexivity|].
    assert (E : Duck.expand (String c a) = Duck.process (String c a ++ "")).
    { unfold Duck.expand. rewrite split_lines_one by exact Ha.
      cbn [PyStr.is_empty map String.concat]. now rewrite append_nil_r. }
    rewrite E. apply (process_line (String c a) ""); auto. discriminate.
  - assert (E : Duck.expand (a ++ String "010" t)
                = Duck.process (a ++ lf) ++ Duck.expand t).
    { unfold Duck.expand. rewrite split_lines_first by exact Ha.
      cbn [map]. apply concat_cons. }
    rewrite E.
    destruct (process_line a lf Ha (or_intror eq_refl)) as [Hfix Hend].
    { destruct a; discriminate. }
    destruct (Hend eq_refl) as [x Hx].
    rewrite Hx in *. rewrite expand_append, Hfix, IH. reflexivity.
Qed.

Lemma concat_split_lines (text : string) :
  String.concat "" (Duck.split_lines text) = text.
Proof.
  induction text as [|c t IH]; [reflexivity|].
  cbn [Duck.split_lines]. destruct (c =? "010")%char eqn:E.
  - apply Ascii.eqb_eq in E. subst c. rewrite concat_cons, IH. reflexivity.
  - destruct (Duck.split_lines t) as [|l ls] eqn:El.
    + destruct t; [reflexivity|]. exfalso. revert El. apply split_lines_nonempty.
    + rewrite concat_cons in *. cbn [String.append]. rewrite IH. reflexivity.
Qed.

(** **** Carriage returns *)

Lemma newlines_length (n : nat) : forall raw,
  (String.length raw <= n)%nat ->
  all_of not_return (Duck.newlines raw) = true.
Proof.
  induction n as [|n IH]; intros [|c rest] Hn; try reflexivity.
  - cbn in Hn. lia.
  - cbn [String.length] in Hn. cbn [Duck.newlines].
    destruct (c =? "013")%char eqn:E.
    + cbn [all_of]. rewrite IH; [reflexivity|].
      destruct rest as [|d rest']; [cbn; lia|].
      destruct (d =? "010")%char; cbn [String.length] in *; lia.
    + cbn [all_of]. unfold not_return at 1. rewrite E. apply IH. lia.
Qed.

(** A text that has been read holds no carriage return. *)
Lemma newlines_no_return (raw : string) :
  all_of not_return (Duck.newlines raw) = true.
Proof. apply (newlines_length (String.length raw)). apply Nat.le_refl. Qed.

(** A text without carriage return is read as it is. *)
Lemma newlines_plain (text : string) :
  all_of not_return text = true -> Duck.newlines text = text.
Proof.
  induction text as [|c t IH]; [reflexivity|]. cbn [all_of Duck.newlines].
  intros H. apply andb_prop in H. destruct H as [Hc Ht].
  unfold not_return in Hc. apply negb_true_iff in Hc.
  rewrite Hc, (IH Ht). reflexivity.
Qed.

Lemma all_of_split_lines (p : ascii -> bool) (text : string) :
  all_of p text = true ->
  Forall (fun l => all_of p l = true) (Duck.split_lines text).
Proof.
  induction text as [|c t IH]; [constructor|]. cbn [all_of Duck.split_lines].
  intros H. apply andb_prop in H. destruct H as [Hc Ht]. specialize (IH Ht).
  destruct (c =? "010")%char.
  - constructor; [cbn; rewrite Hc; reflexivity | exact IH].
  - destruct (Duck.split_lines t) as [|l ls].
    + constructor; [cbn; rewrite Hc; reflexivity | constructor].
    + inversion IH as [|? ? Hl Hls]; subst.
      constructor; [cbn; rewrite Hc, Hl; reflexivity | exact Hls].
Qed.

Lemma all_of_concat (p : ascii -> bool) (xs : list string) :
  Forall (fun x => all_of p x = true) xs ->
  all_of p (String.concat "" xs) = true.
Proof.
  induction 1 as [|x xs Hx _ IH]; [reflexivity|].
  rewrite concat_cons, all_of_append, Hx, IH. reflexivity.
Qed.

Lemma all_of_lstrip (p : ascii -> bool) (s : string) :
  all_of p s = true -> all_of p (PyStr.lstrip s) = true.
Proof.
  intros H. destruct (lstrip_suffix s) as [ws E]. rewrite E in H.
  rewrite all_of_append in H. apply andb_prop in H. apply H.
Qed.

Lemma word_not_return (c : ascii) :
  PyStr.isword c = true -> not_return c = true.
Proof. destruct c as [[] [] [] [] [] [] [] []]; vm_compute; congruence. Qed.

(** No expansion writes a carriage return. *)
Lemma process_no_return (line : string) :
  all_of not_return line = true -> all_of not_return (Duck.process line) = true.
Proof.
  intros Hline. unfold Duck.process.
  destruct (_ || _); [exact Hline|].
  unfold Duck.preprocess_line.
  destruct (Re.re_match Duck.rbf_pattern _) as [m|] eqn:Erbf.
  { destruct (rbf_groups _ _ Erbf) as (label & fid & -> & Hl & Hf).
    apply (all_of_weaken _ _ _ word_not_return) in Hl, Hf.
    unfold Duck.group. cbn [nth Nat.sub].
    repeat (progress (cbn [all_of String.append]; rewrite ?all_of_append)).
    rewrite Hl, Hf. reflexivity. }
  destruct (Re.re_match Duck.say_pattern _) as [m|] eqn:Esay.
  { destruct (say_group _ _ Esay) as (c & before & after & -> & Hs).
    assert (Hc : not_return c = true).
    { apply all_of_lstrip in Hline. rewrite Hs, all_of_append in Hline.
      apply andb_prop in Hline. destruct Hline as [_ Hline].
      cbn [all_of] in Hline. apply andb_prop in Hline. apply Hline. }
    unfold Duck.group. cbn [nth Nat.sub]. cbn. rewrite Hc. reflexivity. }
  destruct (Re.re_match Duck.putn_pattern _) as [m|] eqn:Eputn.
  { destruct (putn_group _ _ Eputn) as (r & w & -> & Hr & Hw).
    apply (all_of_weaken _ _ _ word_not_return) in Hw.
    assert (Hrn : not_return r = true).
    { destruct r as [[] [] [] [] [] [] [] []]; try reflexivity; discriminate. }
    unfold Duck.group. cbn [nth Nat.sub].
    repeat (progress (cbn [all_of String.append]; rewrite ?all_of_append)).
    rewrite Hrn, Hw. reflexivity. }
  destruct (Duck.match_halt _); [reflexivity | exact Hline].
Qed.

Lemma expand_no_return (text : string) :
  all_of not_return text = true -> all_of not_return (Duck.expand text) = true.
Proof.
  intros H. unfold Duck.expand. apply all_of_concat.
  apply Forall_forall. intros x Hin. apply in_map_iff in Hin.
  destruct Hin as (l & <- & Hl). apply process_no_return.
  pose proof (all_of_split_lines _ _ H) as Hall.
  rewrite Forall_forall in Hall. exact (Hall l Hl).
Qed.

(** X23.  The preprocessor changes nothing in a text it has produced:
    run on its own output, it returns that output.  No line of an
    expansion is itself a pseudo-operation, and no expansion breaks or
    joins lines it did not write. *)
Theorem X23_preprocessing_twice (text : string) :
  Duck.preprocess_text (Duck.preprocess_text text) = Duck.preprocess_text text.
Proof.
  change (Duck.preprocess_text text) with (Duck.expand (Duck.newlines text)).
  change (Duck.preprocess_text (Duck.expand (Duck.newlines text)))
    with (Duck.expand (Duck.newlines (Duck.expand (Duck.newlines text)))).
  rewrite (newlines_plain (Duck.expand (Duck.newlines text)))
    by (apply expand_no_return, newlines_no_return).
  apply expand_twice.
Qed.

(** X24.  A text without pseudo-operations goes through the preprocessor
    with nothing changed but its line ends: if on every line read the first
    character after the leading whitespace is none of R, S, P, H (in either
    case), the text written is the text as it was read, that is, with every
    carriage return and newline, and every single carriage return, turned
    into a newline; it is the content of the file, character for character,
    when that holds no carriage return. *)
Theorem X24_plain_text_is_kept (raw : string) :
  (forall line c rest,
     In line (Duck.readlines raw) -> PyStr.lstrip line = String c rest ->
     PyStr.contains (PyStr.upper_char c) "RSPH" = false) ->
  Duck.preprocess_text raw = Duck.newlines raw
  /\ (all_of not_return raw = true -> Duck.preprocess_text raw = raw).
Proof.
  intros H.
  assert (E : Duck.preprocess_text raw = Duck.newlines raw).
  { unfold Duck.preprocess_text.
    transitivity (String.concat "" (Duck.readlines raw));
      [|apply concat_split_lines].
    f_equal. rewrite <- (map_id (Duck.readlines raw)) at 2.
    apply map_ext_in. intros line Hin.
    apply leading_letter_decides. intros c rest. apply (H line c rest Hin). }
  split; [exact E|].
  intros Hraw. rewrite E. apply newlines_plain. exact Hraw.
Qed.

Lemma X24_plain_text_is_kept_witness :
  Duck.preprocess_text
    ("LOOP: FIM P0, 0x12" ++ lf ++ " ; HALT here" ++ lf ++ lf ++ "  JUN LOOP")
  = "LOOP: FIM P0, 0x12" ++ lf ++ " ; HALT here" ++ lf ++ lf ++ "  JUN LOOP"
  /\ Duck.preprocess_text (String "N" (String "O" (String "P" (String "013" lf))))
     = "NOP" ++ lf.
Proof.
  split.
  - apply X24_plain_text_is_kept; [|reflexivity].
    intros line c rest Hin E. vm_compute in Hin.
    repeat (destruct Hin as [Hin | Hin];
            [subst line; vm_compute in E;
             first [discriminate | injection E as <- _; reflexivity]|]).
    contradiction.
  - refine (proj1 (X24_plain_text_is_kept
                     (String "N" (String "O" (String "P" (String "013" lf)))) _)).
    intros line c rest Hin E. vm_compute in Hin.
    destruct Hin as [Hin | []]. subst line. vm_compute in E.
    injection E as <- _. reflexivity.
Defined.

(** *** hexdump *)

Lemma hex_digit_char (d : Z) : 0 <= d < 16 -> hex_digit (Fmt.digit_char d) = true.
Proof.
  intros H. destruct (digit_char_cases d H) as [Hin _]. cbn [In] in Hin.
  repeat (destruct Hin as [Hin | Hin]; [rewrite <- Hin; reflexivity|]).
  contradiction.
Qed.

Lemma hex_digit_plain (c : ascii) :
  hex_digit c = true ->
  PyStr.isspace_c c = false
  /\ (c =? " ")%char = false
  /\ (c =? "_")%char = false
  /\ (c =? "x")%char = false /\ (c =? "X")%char = false
  /\ c <> "+"%char /\ c <> "-"%char.
Proof.
  destruct c as [[] [] [] [] [] [] [] []]; vm_compute; intros H;
    first [discriminate H | repeat split; discriminate].
Qed.

Lemma digits_acc_hex (fuel : nat) : forall (n : Z) (acc : string),
  all_of hex_digit acc = true ->
  all_of hex_digit (Fmt.digits_acc 16 fuel n acc) = true.
Proof.
  induction fuel as [|fuel IH]; intros n acc Hacc; [exact Hacc|].
  cbn [Fmt.digits_acc].
  assert (H : all_of hex_digit (String (Fmt.digit_char (n mod 16)) acc) = true).
  { cbn [all_of]. rewrite hex_digit_char by (apply Z.mod_pos_bound; lia).
    exact Hacc. }
  destruct (n / 16 =? 0); [exact H | apply IH; exact H].
Qed.

Lemma all_of_fill (p : ascii -> bool) (c : ascii) (n : nat) :
  p c = true -> all_of p (Fmt.fill c n) = true.
Proof. intros H. induction n as [|n IH]; cbn; [reflexivity | now rewrite H, IH]. Qed.

Lemma hex0_hex (w : nat) (n : Z) :
  0 <= n -> all_of hex_digit (Fmt.hex0 w n) = true.
Proof.
  intros Hn. unfold Fmt.hex0.
  replace (n <? 0) with false by (symmetry; apply Z.ltb_ge; lia).
  cbv zeta. rewrite all_of_append, all_of_fill by reflexivity.
  apply digits_acc_hex. reflexivity.
Qed.

(** [int(s, 16)] of a text of hexadecimal digits. *)
Lemma int_of_hex_digits (s : string) (n : Z) :
  s <> "" -> all_of hex_digit s = true ->
  PyStr.digits_value 16 false 0 s = Some n ->
  PyStr.int s 16 = Some n.
Proof.
  intros Hne Hall Hval. destruct s as [|c s]; [congruence|].
  pose proof Hall as Hall'. cbn [all_of] in Hall'.
  apply andb_prop in Hall'. destruct Hall' as [Hc Hs].
  destruct (hex_digit_plain c Hc) as (Hsp & _ & Hu & _ & _ & Hplus & Hminus).
  unfold PyStr.int.
  assert (E1 : PyStr.lstrip_class PyStr.isspace_c (String c s) = String c s)
    by (cbn; rewrite Hsp; reflexivity).
  rewrite E1.
  rewrite rstrip_class_none
    by (apply (all_of_weaken hex_digit); [|exact Hall];
        intros d Hd; apply negb_true_iff; apply (hex_digit_plain d Hd)).
  assert (E3 : PyStr.has_base_prefix 16 (String c s) = false).
  { destruct s as [|c2 s]; [destruct c as [[] [] [] [] [] [] [] []]; reflexivity|].
    cbn [all_of] in Hs. apply andb_prop in Hs. destruct Hs as [Hc2 _].
    destruct (hex_digit_plain c2 Hc2) as (_ & _ & _ & Hx & HX & _).
    destruct c as [[] [] [] [] [] [] [] []]; cbn; rewrite ?Hx, ?HX; reflexivity. }
  destruct c as [[] [] [] [] [] [] [] []]; try discriminate Hc;
    cbv zeta beta iota; rewrite E3; cbv iota;
    rewrite Hval, Hu; cbn [option_map]; f_equal; lia.
Qed.

Lemma int_hex0 (w : nat) (n : Z) :
  0 <= n -> PyStr.int (Fmt.hex0 w n) 16 = Some n.
Proof.
  intros Hn. destruct (hex0_shape w n Hn) as (Hval & _ & m & rest & Hh).
  apply int_of_hex_digits; [rewrite Hh; discriminate | | exact Hval].
  apply hex0_hex. exact Hn.
Qed.

(** **** The fields of a line of text *)

Lemma split_field (x rest : string) :
  all_of not_space x = true ->
  PyStr.split " " (x ++ String " " rest) = x :: PyStr.split " " rest.
Proof.
  induction x as [|c x IH]; [reflexivity|]. cbn [all_of String.append PyStr.split].
  intros H. apply andb_prop in H. destruct H as [Hc Hx].
  unfold not_space in Hc. apply negb_true_iff in Hc.
  rewrite Hc, (IH Hx). reflexivity.
Qed.

Lemma split_last_field (x : string) :
  all_of not_space x = true -> PyStr.split " " x = [x].
Proof.
  induction x as [|c x IH]; [reflexivity|]. cbn [all_of PyStr.split].
  intros H. apply andb_prop in H. destruct H as [Hc Hx].
  unfold not_space in Hc. apply negb_true_iff in Hc.
  rewrite Hc, (IH Hx). reflexivity.
Qed.

Lemma split_join (xs : list string) :
  xs <> [] -> Forall (fun x => all_of not_space x = true) xs ->
  PyStr.split " " (String.concat " " xs) = xs.
Proof.
  intros Hne H. induction H as [|x xs Hx Hxs IH]; [congruence|].
  destruct xs as [|y ys].
  - cbn [String.concat]. apply split_last_field. exact Hx.
  - change (String.concat " " (x :: y :: ys))
      with (x ++ String " " (String.concat " " (y :: ys))).
    rewrite split_field by exact Hx. rewrite IH by discriminate. reflexivity.
Qed.

Lemma hex_fields (chunk : list Z) :
  Forall is_byte chunk ->
  Forall (fun x => all_of not_space x = true) (map (Fmt.hex0 2) chunk).
Proof.
  induction 1 as [|b chunk Hb _ IH]; cbn [map]; constructor; [|exact IH].
  apply (all_of_weaken hex_digit).
  - intros c Hc. unfold not_space. apply negb_true_iff.
    apply (hex_digit_plain c Hc).
  - apply hex0_hex. unfold is_byte in Hb. lia.
Qed.

(** The hexadecimal column, split at the spaces and read in base 16. *)
Lemma hex_bytes_read_back (chunk : list Z) :
  chunk <> [] -> Forall is_byte chunk ->
  map (fun h => PyStr.int h 16) (PyStr.split " " (HexDump.hex_bytes chunk))
  = map Some chunk.
Proof.
  intros Hne Hb. unfold HexDump.hex_bytes.
  rewrite split_join;
    [| destruct chunk; [congruence | discriminate] | apply hex_fields; exact Hb].
  rewrite map_map. apply map_ext_in. intros b Hin.
  apply int_hex0. rewrite Forall_forall in Hb. specialize (Hb b Hin).
  unfold is_byte in Hb. lia.
Qed.

Lemma hex_bytes_last (chunk : list Z) :
  chunk <> [] -> Forall is_byte chunk ->
  exists c, PyStr.last_char (HexDump.hex_bytes chunk) = Some c
            /\ hex_digit c = true.
Proof.
  intros Hne H. induction H as [|b chunk Hb Hbs IH]; [congruence|].
  unfold is_byte in Hb.
  destruct chunk as [|b' chunk].
  - destruct (hex0_shape 2 b ltac:(lia)) as (_ & Hlast & _).
    exists (Fmt.digit_char (b mod 16)). split; [exact Hlast|].
    apply hex_digit_char, Z.mod_pos_bound. lia.
  - destruct (IH ltac:(discriminate)) as (c & Hc & Hd). exists c.
    split; [|exact Hd].
    change (HexDump.hex_bytes (b :: b' :: chunk))
      with (Fmt.hex0 2 b ++ String " " (HexDump.hex_bytes (b' :: chunk))).
    rewrite last_char_append by reflexivity.
    rewrite last_char_cons; [exact Hc|].
    destruct (HexDump.hex_bytes (b' :: chunk)); [discriminate | reflexivity].
Qed.

Lemma rstrip_class_fill (p : ascii -> bool) (s : string) (n : nat) :
  p " "%char = true ->
  PyStr.rstrip_class p (s ++ Fmt.fill " " n) = PyStr.rstrip_class p s.
Proof.
  intros Hp. induction s as [|c s IH].
  - cbn [String.append]. induction n as [|n IHn]; [reflexivity|].
    cbn [Fmt.fill PyStr.rstrip_class]. rewrite IHn, Hp. reflexivity.
  - cbn [String.append PyStr.rstrip_class]. rewrite IH. reflexivity.
Qed.

Lemma rstrip_ljust (w : nat) (chunk : list Z) :
  chunk <> [] -> Forall is_byte chunk ->
  PyStr.rstrip (Fmt.ljust w (HexDump.hex_bytes chunk)) = HexDump.hex_bytes chunk.
Proof.
  intros Hne Hb. unfold PyStr.rstrip, Fmt.ljust.
  rewrite rstrip_class_fill by reflexivity.
  destruct (hex_bytes_last chunk Hne Hb) as (c & Hlast & Hc).
  apply (rstrip_class_last _ _ c Hlast).
  destruct c as [[] [] [] [] [] [] [] []]; try discriminate Hc; reflexivity.
Qed.

Lemma length_hex_bytes (chunk : list Z) :
  Forall is_byte chunk ->
  (String.length (HexDump.hex_bytes chunk) <= 3 * List.length chunk)%nat.
Proof.
  induction 1 as [|b chunk Hb Hbs IH]; [cbn; lia|].
  assert (Hl : String.length (Fmt.hex0 2 b) = 2%nat).
  { apply length_hex0; [|lia]. unfold is_byte in Hb.
    change (16 ^ Z.of_nat 2) with 256. exact Hb. }
  destruct chunk as [|b' chunk].
  - unfold HexDump.hex_bytes. cbn [map String.concat List.length]. lia.
  - change (HexDump.hex_bytes (b :: b' :: chunk))
      with (Fmt.hex0 2 b ++ String " " (HexDump.hex_bytes (b' :: chunk))).
    rewrite length_append, Hl. cbn [String.length List.length] in *. lia.
Qed.

Lemma length_ascii_rep (chunk : list Z) :
  String.length (HexDump.ascii_rep chunk) = List.length chunk.
Proof.
  unfold HexDump.ascii_rep. induction chunk as [|b chunk IH]; [reflexivity|].
  cbn [fold_right String.length List.length]. now rewrite IH.
Qed.

(** X26.  A row of the dump can be read back.  For an offset below 2^32
    and a chunk of one to [width] bytes, the row is: the offset in eight
    hexadecimal digits, which [int(_, 16)] reads back; two spaces; a column
    of [3 * width] characters whose fields, split at the spaces after the
    trailing ones are removed, are the bytes of the chunk in base 16, in
    order; two spaces; and between bars one character for each byte. *)
Theorem X26_rows_read_back (width offset : Z) (chunk : list Z) :
  0 <= offset < 2 ^ 32 -> chunk <> [] -> Forall is_byte chunk ->
  Z.of_nat (List.length chunk) <= width ->
  exists column,
    HexDump.row width offset chunk
    = Fmt.hex0 8 offset ++ "  " ++ column ++ "  |"
      ++ HexDump.ascii_rep chunk ++ "|"
    /\ String.length (Fmt.hex0 8 offset) = 8%nat
    /\ PyStr.int (Fmt.hex0 8 offset) 16 = Some offset
    /\ String.length column = Z.to_nat (3 * width)
    /\ map (fun h => PyStr.int h 16) (PyStr.split " " (PyStr.rstrip column))
       = map Some chunk
    /\ String.length (HexDump.ascii_rep chunk) = List.length chunk.
Proof.
  intros Hoff Hne Hb Hlen.
  exists (Fmt.ljust (Z.to_nat (width * 3)) (HexDump.hex_bytes chunk)).
  split; [reflexivity|].
  split; [apply length_hex0; [exact Hoff | lia]|].
  split; [apply int_hex0; lia|].
  split.
  { rewrite length_ljust; [f_equal; lia|].
    assert (H := length_hex_bytes chunk Hb). lia. }
  split; [|apply length_ascii_rep].
  rewrite rstrip_ljust by assumption.
  apply hex_bytes_read_back; assumption.
Qed.

Lemma X26_rows_read_back_witness :
  HexDump.row 16 0x20 [0x48; 0x69; 0x0A]
  = "00000020  48 69 0A                                          |Hi.|"
  /\ exists column,
       HexDump.row 16 0x20 [0x48; 0x69; 0x0A]
       = "00000020" ++ "  " ++ column ++ "  |" ++ "Hi." ++ "|"
       /\ map (fun h => PyStr.int h 16) (PyStr.split " " (PyStr.rstrip column))
          = [Some 0x48; Some 0x69; Some 0x0A].
Proof.
  split; [reflexivity|].
  destruct (X26_rows_read_back 16 0x20 [0x48; 0x69; 0x0A]) as (column & H).
  - vm_compute. split; [discriminate | reflexivity].
  - discriminate.
  - repeat first [apply Forall_cons | apply Forall_nil]; unfold is_byte; lia.
  - cbn. lia.
  - exists column. split; [apply H | apply H].
Defined.

(** **** The rows of a file *)

Lemma rows_spec (width : Z) (fuel : nat) :
  0 < width ->
  forall (offset : Z) (data : list Z),
  (List.length data <= fuel)%nat ->
  let w := Z.to_nat width in
  let lines := HexDump.rows fuel width offset data in
  (List.length data <= List.length lines * w < List.length data + w)%nat
  /\ forall i, (i < List.length lines)%nat ->
       nth i lines ""
       = HexDump.row width (offset + Z.of_nat i * width)
           (firstn w (skipn (i * w) data)).
Proof.
  intros Hw. cbv zeta.
  assert (Hpos : (0 < Z.to_nat width)%nat) by lia.
  induction fuel as [|fuel IH]; intros offset data Hfuel.
  - destruct data; [|cbn in Hfuel; lia].
    cbn [HexDump.rows]. rewrite firstn_nil. cbn. split; [lia | intros; lia].
  - destruct data as [|b data].
    { cbn [HexDump.rows]. rewrite firstn_nil. cbn. split; [lia | intros; lia]. }
    cbn [HexDump.rows].
    destruct (firstn (Z.to_nat width) (b :: data)) as [|c chunk] eqn:Echunk.
    { destruct (Z.to_nat width); [lia | discriminate]. }
    rewrite <- Echunk.
    assert (Hskip : (List.length (skipn (Z.to_nat width) (b :: data))
                     = List.length (b :: data) - Z.to_nat width)%nat)
      by apply length_skipn.
    assert (Hfirst : (List.length (firstn (Z.to_nat width) (b :: data))
                      = Nat.min (Z.to_nat width) (List.length (b :: data)))%nat)
      by apply length_firstn.
    cbn [List.length] in *.
    specialize (IH (offset + Z.of_nat (List.length (firstn (Z.to_nat width) (b :: data))))
                   (skipn (Z.to_nat width) (b :: data)) ltac:(lia)).
    destruct IH as [IHlen IHnth].
    set (rest := HexDump.rows fuel width _ _) in *.
    split.
    + rewrite Hskip in IHlen. cbn [Nat.mul]. 
      destruct (Nat.le_gt_cases (S (List.length data)) (Z.to_nat width)) as [Hle|Hgt].
      * assert (List.length rest = 0%nat) by (destruct (List.length rest); [reflexivity | nia]).
        nia.
      * nia.
    + intros [|i] Hi.
      * cbn [nth Nat.mul skipn]. f_equal. lia.
      * cbn [nth]. rewrite IHnth by lia.
        assert (Hmore : (Z.to_nat width < S (List.length data))%nat).
        { destruct (Nat.le_gt_cases (S (List.length data)) (Z.to_nat width)) as [Hle|Hgt];
            [|exact Hgt].
          rewrite Hskip in IHlen.
          assert (List.length rest = 0%nat) by (destruct (List.length rest); [reflexivity | nia]).
          lia. }
        rewrite skipn_skipn. f_equal.
        -- rewrite Hfirst. lia.
        -- f_equal. f_equal. cbn [Nat.mul]. lia.
Qed.

(** X25.  The rows of the dump cover the file in order.  With a positive
    width [w], the dump has as many rows as the file has chunks of [w]
    bytes, the last one possibly shorter (none for an empty file); row [i],
    counted from 0, is labelled with the offset [i * w] and shows the bytes
    of the file from that offset on, [w] of them or what is left. *)
Theorem X25_rows_cover_the_file (data : list Z) (width : Z) :
  0 < width ->
  let w := Z.to_nat width in
  exists lines,
    HexDump.hexdump (Some data) width = HexDump.Printed lines
    /\ (List.length data <= List.length lines * w < List.length data + w)%nat
    /\ forall i, (i < List.length lines)%nat ->
         nth i lines ""
         = HexDump.row width (Z.of_nat i * width)
             (firstn w (skipn (i * w) data)).
Proof.
  intros Hw. cbv zeta. unfold HexDump.hexdump.
  replace (width <? 0) with false by (symmetry; apply Z.ltb_ge; lia).
  eexists. split; [reflexivity|].
  destruct (rows_spec width (List.length data) Hw 0 data (Nat.le_refl _))
    as [Hlen Hnth].
  split; [exact Hlen|]. intros i Hi. rewrite (Hnth i Hi). reflexivity.
Qed.

Lemma X25_rows_cover_the_file_witness :
  exists lines,
    HexDump.hexdump (Some [0x48; 0x69; 0x21; 0x0A; 0x00]) 2 = HexDump.Printed lines
    /\ List.length lines = 3%nat
    /\ nth 2 lines "" = HexDump.row 2 4 [0x00].
Proof.
  destruct (X25_rows_cover_the_file [0x48; 0x69; 0x21; 0x0A; 0x00] 2 ltac:(lia))
    as (lines & Hrun & Hlen & Hnth).
  exists lines. split; [exact Hrun|].
  assert (Hl : List.length lines = 3%nat) by (cbn in Hlen; lia).
  split; [exact Hl|].
  rewrite (Hnth 2%nat) by lia. reflexivity.
Defined.
